(** * Hotel pricing dashboard: the mock pricing and analytics engine

    A shallow embedding of [mockApi.js] (the mock API service of the
    dashboard): [generatePricingData], [generateRevenueAnalytics] and the
    [mockApi] methods [getPricingRecommendations], [getRevenueAnalytics],
    [getOccupancyAnalytics], [getContributionMarginAnalytics],
    [getHotelById], [getRoomTypes] and [getRoomTypeById], followed by the
    properties the specification states about them and by further
    properties of the code.

    Modelling conventions.
    - Numbers.  A JavaScript Number that is finite is an exact rational
      ([Q]); binary64 rounding error is not modelled.  Sums, differences,
      products, [Math.round] and divisions by a non-zero literal of finite
      numbers are finite, so they stay in [Q].  A division by a computed
      denominator can leave the finite numbers: it returns a [num], which
      adds [Infinity], [-Infinity] and [NaN] with the IEEE 754 rules.  The
      module [Binary64] evaluates the price computations and the unguarded
      divisions on primitive binary64 floats; where binary64 rounding (a
      product just below a tie of [Math.round]) or overflow shows there,
      the properties that depend on it are stated to within a cent and
      for prices, costs and room counts up to [limit].
    - Dates.  In the first part a [Date] is the number of days since
      1970-01-01, in UTC; the time of day is dropped.  A ["YYYY-MM-DD"]
      string is represented by the day it denotes ([toISODate] renders
      it).  The modules [JSTime] and [Zoned] take the time zone of the
      environment as a parameter: there a [Date] is a time value, read by
      the local-time methods in the zone and rendered in UTC, and the
      definitions of the first part are their instance at UTC.
    - Objects.  An object with integer keys is the list of its entries in
      the order of enumeration ([obj_set]).
    - Randomness and failure.  [Math.random()] reads the next element of a
      sequence [rnd : nat -> Q] supplied from outside; the state of a
      computation is the number of draws made so far.  A computation either
      returns or throws; promises and their delays are not modelled, a
      rejected promise is a thrown exception.
    - The module constant [roomTypes] is a parameter of the functions that
      read it; the table of the source is [roomTypes] below. *)

From Stdlib Require Import QArith Qround ZArith List Bool String Lia Lqa Floats.
From Stdlib Require Import Uint63.
From Stdlib Require Import Sorted Permutation.
Import ListNotations.
Open Scope Q_scope.

(** ** JavaScript numbers *)

Module JSNum.

(** Comparisons [a <= b] and [a < b] on finite numbers. *)
Definition leb (a b : Q) : bool := Qle_bool a b.
Definition ltb (a b : Q) : bool := negb (Qle_bool b a).

(** [Math.round]: the nearest integer, ties towards [+Infinity]. *)
Definition Math_round (x : Q) : Q := inject_Z (Qfloor (x + (1#2))).

(** [Math.min(a, b)] and [Math.max(a, b)] on finite numbers. *)
Definition Math_min (a b : Q) : Q := if Qle_bool a b then a else b.
Definition Math_max (a b : Q) : Q := if Qle_bool a b then b else a.

(** The idiom [Math.round(x * k) / k] for a literal [k] (10, 100, 10000). *)
Definition round_to (k : Q) (x : Q) : Q := Math_round (x * k) / k.

(** Numbers that may have left the finite ones. *)
Inductive num : Type :=
| Fin (q : Q)
| PInf
| NInf
| NaN.

Definition finite (x : num) : Prop :=
  match x with Fin _ => True | _ => False end.

(** [a / b] for finite [a] and [b]: a zero denominator gives an infinity of
    the numerator's sign, or [NaN] for [0 / 0].  (Zero carries no sign here:
    the denominators of the program are never [-0] on non-negative prices
    and room counts.) *)
Definition div (a b : Q) : num :=
  if Qeq_bool b 0 then
    if ltb 0 a then PInf else if ltb a 0 then NInf else NaN
  else Fin (a / b).

(** [x * c] and [x / c] where [x] may be infinite or [NaN] and [c] is a
    finite number. *)
Definition mulc (x : num) (c : Q) : num :=
  match x with
  | Fin q => Fin (q * c)
  | PInf => if ltb 0 c then PInf else if ltb c 0 then NInf else NaN
  | NInf => if ltb 0 c then NInf else if ltb c 0 then PInf else NaN
  | NaN => NaN
  end.

Definition divc (x : num) (c : Q) : num :=
  match x with
  | Fin q => div q c
  | PInf => if ltb c 0 then NInf else PInf
  | NInf => if ltb c 0 then PInf else NInf
  | NaN => NaN
  end.

(** [Math.round] leaves the infinities and [NaN] as they are. *)
Definition round (x : num) : num :=
  match x with
  | Fin q => Fin (Math_round q)
  | other => other
  end.

(** [Math.round(x * k) / k] on a possibly non-finite [x]. *)
Definition nround_to (k : Q) (x : num) : num := divc (round (mulc x k)) k.

(** Equality of numbers up to the representation of fractions; [NaN] is
    only compared as a value of the model, not with JavaScript's [===]. *)
Definition num_eq (x y : num) : Prop :=
  match x, y with
  | Fin a, Fin b => a == b
  | PInf, PInf | NInf, NInf | NaN, NaN => True
  | _, _ => False
  end.

End JSNum.
Import JSNum.

(** ** Dates *)

Module JSDate.

(** Days since 1970-01-01 (UTC). *)
Definition Date : Type := Z.

(** The civil date (year, month 1..12, day 1..31) of a day number, in the
    proleptic Gregorian calendar, by counting in 400-year eras that start on
    1 March. *)
Definition civil_from_days (d : Date) : Z * Z * Z :=
  let z := (d + 719468)%Z in
  let era := (z / 146097)%Z in
  let doe := (z - era * 146097)%Z in
  let yoe := ((doe - doe / 1460 + doe / 36524 - doe / 146096) / 365)%Z in
  let doy := (doe - (365 * yoe + yoe / 4 - yoe / 100))%Z in
  let mp := ((5 * doy + 2) / 153)%Z in
  let dd := (doy - (153 * mp + 2) / 5 + 1)%Z in
  let m := (if mp <? 10 then mp + 3 else mp - 9)%Z in
  let y := (yoe + era * 400 + (if m <=? 2 then 1 else 0))%Z in
  (y, m, dd).

(** The day number of a civil date. *)
Definition days_from_civil (y m dd : Z) : Date :=
  let y' := (if m <=? 2 then y - 1 else y)%Z in
  let era := (y' / 400)%Z in
  let yoe := (y' - era * 400)%Z in
  let mp := (if 2 <? m then m - 3 else m + 9)%Z in
  let doy := ((153 * mp + 2) / 5 + dd - 1)%Z in
  let doe := (yoe * 365 + yoe / 4 - yoe / 100 + doy)%Z in
  (era * 146097 + doe - 719468)%Z.

(** [getFullYear()], [getMonth()] (0..11), [getDate()] (1..31) and
    [getDay()] (0 = Sunday). *)
Definition getFullYear (d : Date) : Z := fst (fst (civil_from_days d)).
Definition getMonth (d : Date) : Z := (snd (fst (civil_from_days d)) - 1)%Z.
Definition getDate (d : Date) : Z := snd (civil_from_days d).
Definition getDay (d : Date) : Z := ((d + 4) mod 7)%Z.

(** [d.setDate(n)]: day [n] of the month of [d], counted on from the first
    of that month when [n] is outside it. *)
Definition setDate (d : Date) (n : Z) : Date := (d - getDate d + n)%Z.

(** [new Date(year, month, day)], [month] counted from 0. *)
Definition newDate (year month day : Z) : Date :=
  days_from_civil year (month + 1) day.

(** [d.toISOString().split('T')[0]], as year, month and day. *)
Definition toISODate (d : Date) : Z * Z * Z := civil_from_days d.

End JSDate.
Import JSDate.

(** ** Computations: random draws and exceptions *)

Inductive exn : Type :=
| Error (message : string)
| TypeError.

Inductive outcome (A : Type) : Type :=
| Returned (a : A)
| Thrown (e : exn).
Arguments Returned {A} a.
Arguments Thrown {A} e.

Definition throws {A : Type} (o : outcome A) : Prop :=
  exists e, o = Thrown e.

(** A computation starts after [n] draws of [Math.random()] and returns its
    value with the number of draws made by then, or throws. *)
Definition JS (A : Type) : Type := nat -> outcome (A * nat).

Definition ret {A : Type} (a : A) : JS A := fun n => Returned (a, n).

Definition bind {A B : Type} (m : JS A) (f : A -> JS B) : JS B :=
  fun n =>
    match m n with
    | Returned (a, n') => f a n'
    | Thrown e => Thrown e
    end.

Definition throw {A : Type} (e : exn) : JS A := fun _ => Thrown e.

Declare Scope js_scope.
Delimit Scope js_scope with js.
Notation "x <- m ;; k" := (bind m (fun x => k))
  (at level 100, m at next level, right associativity) : js_scope.
Open Scope js_scope.

(** [l.forEach(x => body)] and the [for] loops, with the variables the body
    updates passed along as [s]. *)
Fixpoint forEach {A S : Type} (l : list A) (body : A -> S -> JS S) (s : S)
  : JS S :=
  match l with
  | [] => ret s
  | x :: rest => s' <- body x s ;; forEach rest body s'
  end.

(** [l.map(f)] for an [f] that may throw. *)
Fixpoint mapJS {A B : Type} (f : A -> JS B) (l : list A) : JS (list B) :=
  match l with
  | [] => ret []
  | x :: rest => y <- f x ;; ys <- mapJS f rest ;; ret (y :: ys)
  end.

(** The indices [0, 1, ..., n-1] of [for (let i = 0; i < n; i++)]; no
    iteration when [n <= 0]. *)
Definition indices (n : Z) : list Z := map Z.of_nat (seq 0 (Z.to_nat n)).

(** ** Objects used as maps

    [obj[k] = v] on an object with integer keys, and [Object.values(obj)].
    The own keys of an object are enumerated with the array indices (the
    integers from 0 to 2^32 - 2) first, in ascending order, and then the
    other keys in the order in which they were first written; a later write
    to a key replaces the value where the key stands. *)

Definition is_array_index (k : Z) : bool :=
  ((0 <=? k) && (k <? 4294967295))%Z.

Fixpoint obj_set {V : Type} (k : Z) (v : V) (o : list (Z * V))
  : list (Z * V) :=
  match o with
  | [] => [(k, v)]
  | (k', v') :: rest =>
      if (k =? k')%Z then (k, v) :: rest
      else if is_array_index k && (negb (is_array_index k') || (k <? k')%Z)
      then (k, v) :: (k', v') :: rest
      else (k', v') :: obj_set k v rest
  end.

Definition Object_values {V : Type} (o : list (Z * V)) : list V :=
  map snd o.

(** ** Mock data *)

(** The fields of a room type that the engine reads. *)
Record RoomType : Type := mkRoomType {
  id : Z;
  hotel_id : Z;
  name : string;
  base_price : Q;
  variable_cost : Q;
  inventory_count : Z;
  max_occupancy : Z
}.

Definition roomTypes : list RoomType :=
  [ mkRoomType 1 1 "Standard Room" 199 45 40 2;
    mkRoomType 2 1 "Deluxe Room" 299 65 30 2;
    mkRoomType 3 1 "Executive Suite" 499 95 15 3;
    mkRoomType 4 2 "Standard Room" 149 35 50 2;
    mkRoomType 5 2 "Deluxe Room" 229 55 35 2;
    mkRoomType 6 3 "Standard Room" 169 40 45 2;
    mkRoomType 7 3 "Executive Room" 249 60 30 2 ].

(** ** Pricing

    A field whose name another record already uses carries a prefix
    ([pd_base_price] is the [base_price] of a priced day). *)

Record PricedDay : Type := mkPricedDay {
  date : Date;
  room_type_id : Z;
  room_type_name : string;
  pd_base_price : Q;
  pd_variable_cost : Q;
  demand_probability : Q;
  price_multiplier : Q;
  suggested_price : Q;
  final_price : Q;
  is_override : bool;
  override_notes : option string;
  contribution_margin : Q;
  contribution_margin_percentage : num;
  expected_occupancy : Q;
  expected_bookings : Q;
  expected_revenue : Q;
  expected_contribution : Q
}.

(** The price multiplier of [generatePricingData]: the three demand tiers. *)
Definition priceMultiplier (demand : Q) : Q :=
  if leb demand (3#10) then
    (6#10) + (demand / (3#10)) * (4#10)
  else if leb (7#10) demand then
    1 + ((demand - (7#10)) / (3#10)) * 1
  else
    1.

Section Engine.

(** The values returned by successive calls of [Math.random()]. *)
Variable rnd : nat -> Q.

Definition Math_random : JS Q := fun n => Returned (rnd n, S n).

(** The body of the loop of [generatePricingData] from the demand of the day
    on: one priced day of [roomType] for [date]. *)
Definition priceDay (roomTypeId : Z) (roomType : RoomType) (date : Date)
  (demand : Q) : JS PricedDay :=
  let suggestedPrice :=
    round_to 100 (base_price roomType * priceMultiplier demand) in
  r <- Math_random ;;
  let isOverride := ltb r (1#10) in
  fp <- (if isOverride then
           r' <- Math_random ;;
           let adjustment := - (1#10) + r' * (25#100) in
           ret (round_to 100 (suggestedPrice * (1 + adjustment)),
                Some "Manual adjustment for market conditions"%string)
         else ret (suggestedPrice, None)) ;;
  let finalPrice := fst fp in
  let overrideNotes := snd fp in
  r'' <- Math_random ;;
  let occupancy :=
    Math_min (95#100) (Math_max (1#10) (demand * ((8#10) + r'' * (4#10)))) in
  let contributionMargin := finalPrice - variable_cost roomType in
  let contributionMarginPercentage :=
    mulc (div contributionMargin finalPrice) 100 in
  let expectedBookings :=
    round_to 10 (occupancy * inject_Z (inventory_count roomType)) in
  let expectedRevenue := expectedBookings * finalPrice in
  let expectedContribution := expectedBookings * contributionMargin in
  ret {| date := date;
         room_type_id := roomTypeId;
         room_type_name := name roomType;
         pd_base_price := base_price roomType;
         pd_variable_cost := variable_cost roomType;
         demand_probability := round_to 100 demand;
         price_multiplier := round_to 100 (priceMultiplier demand);
         suggested_price := suggestedPrice;
         final_price := finalPrice;
         is_override := isOverride;
         override_notes := overrideNotes;
         contribution_margin := round_to 100 contributionMargin;
         contribution_margin_percentage :=
           nround_to 100 contributionMarginPercentage;
         expected_occupancy := round_to 100 occupancy;
         expected_bookings := expectedBookings;
         expected_revenue := round_to 100 expectedRevenue;
         expected_contribution := round_to 100 expectedContribution |}.

(** One iteration of the loop of [generatePricingData]: the date, the
    random demand between 0.2 and 0.9, and the priced day, pushed onto
    [pricingData]. *)
Definition pricingStep (roomTypeId : Z) (roomType : RoomType)
  (startDate : Date) (i : Z) (pricingData : list PricedDay)
  : JS (list PricedDay) :=
  let date := setDate startDate (getDate startDate + i) in
  r <- Math_random ;;
  let demand := (2#10) + r * (7#10) in
  day <- priceDay roomTypeId roomType date demand ;;
  ret (pricingData ++ [day]).

Definition generatePricingData (table : list RoomType) (roomTypeId : Z)
  (startDate : Date) : JS (list PricedDay) :=
  match find (fun rt => (id rt =? roomTypeId)%Z) table with
  | None => ret []
  | Some roomType =>
      forEach (indices 30) (pricingStep roomTypeId roomType startDate) []
  end.

(** ** Pricing recommendations *)

Record Recommendation : Type := mkRecommendation {
  rec_room_type_id : Z;
  rec_room_type_name : string;
  rec_base_price : Q;
  rec_variable_cost : Q;
  rec_inventory_count : Z;
  prices : list PricedDay
}.

(** The response of [getPricingRecommendations] ([generated_at], the time of
    the call, is left out). *)
Record Recommendations : Type := mkRecommendations {
  pr_hotel_id : Z;
  pr_start_date : Date;
  days : Z;
  recommendations : list (Z * Recommendation)
}.

(** [roomTypeId] is [None] for [null]; the number 0 is falsy like [null]. *)
Definition truthy (roomTypeId : option Z) : option Z :=
  match roomTypeId with
  | Some r => if (r =? 0)%Z then None else Some r
  | None => None
  end.

Definition recommendationStep (table : list RoomType) (startDate : Date)
  (roomType : RoomType) (recommendations : list (Z * Recommendation))
  : JS (list (Z * Recommendation)) :=
  pricingData <- generatePricingData table (id roomType) startDate ;;
  ret (obj_set (id roomType)
         {| rec_room_type_id := id roomType;
            rec_room_type_name := name roomType;
            rec_base_price := base_price roomType;
            rec_variable_cost := variable_cost roomType;
            rec_inventory_count := inventory_count roomType;
            prices := pricingData |}
         recommendations).

Definition getPricingRecommendations (table : list RoomType) (hotelId : Z)
  (startDate : Date) (days : Z) (roomTypeId : option Z) : JS Recommendations :=
  let hotelRoomTypes :=
    match truthy roomTypeId with
    | Some r =>
        filter (fun rt => (id rt =? r)%Z && (hotel_id rt =? hotelId)%Z) table
    | None => filter (fun rt => (hotel_id rt =? hotelId)%Z) table
    end in
  if (List.length hotelRoomTypes =? 0)%nat then
    throw (Error "No room types found for the specified criteria")
  else
    recommendations <-
      forEach hotelRoomTypes (recommendationStep table startDate) [] ;;
    ret {| pr_hotel_id := hotelId;
           pr_start_date := startDate;
           days := days;
           recommendations := recommendations |}.

(** ** Revenue analytics *)

Record RoomTypeRevenue : Type := mkRoomTypeRevenue {
  rt_room_type_id : Z;
  rt_room_type_name : string;
  revenue : Q;
  rooms : Z;
  occupied : Q;
  rt_occupancy_rate : Q
}.

Record RevenueBucket : Type := mkRevenueBucket {
  rb_date : Date;
  total_revenue : Q;
  total_rooms : Z;
  total_occupied : Q;
  occupancy_rate : num;
  room_types : list RoomTypeRevenue
}.

(** The result of [generateRevenueAnalytics]: every field but [analytics] is
    absent from the object returned for a hotel without room types. *)
Record RevenueAnalytics : Type := mkRevenueAnalytics {
  ra_hotel_id : option Z;
  start_date : option Date;
  end_date : option Date;
  group_by : option string;
  analytics : list RevenueBucket
}.

(** The variables the [forEach] over the room types of one date updates. *)
Record Totals : Type := mkTotals {
  totalRevenue : Q;
  totalRooms : Z;
  totalOccupied : Q;
  roomTypeBreakdown : list (Z * RoomTypeRevenue)
}.

(** The date a day is grouped under: itself, the Monday of its week, or the
    first day of its month. *)
Definition groupDateOf (groupBy : string) (date : Date) : Date :=
  if String.eqb groupBy "week" then
    let day := getDay date in
    let diff := (getDate date - day + (if day =? 0 then -6 else 1))%Z in
    setDate date diff
  else if String.eqb groupBy "month" then
    newDate (getFullYear date) (getMonth date) 1
  else date.

(** Two dates with the same ["YYYY-MM-DD"] rendering. *)
Definition sameISODate (a b : Date) : bool :=
  match toISODate a, toISODate b with
  | (y, m, d), (y', m', d') => ((y =? y') && (m =? m') && (d =? d'))%Z
  end.

Definition revenueStep (roomType : RoomType) (t : Totals) : JS Totals :=
  r <- Math_random ;;
  let occupancy := (4#10) + r * (5#10) in
  let occupiedRooms :=
    Math_round (inject_Z (inventory_count roomType) * occupancy) in
  r' <- Math_random ;;
  let avgPrice := base_price roomType * ((9#10) + r' * (3#10)) in
  let revenue := occupiedRooms * avgPrice in
  ret {| totalRevenue := totalRevenue t + revenue;
         totalRooms := (totalRooms t + inventory_count roomType)%Z;
         totalOccupied := totalOccupied t + occupiedRooms;
         roomTypeBreakdown :=
           obj_set (id roomType)
             {| rt_room_type_id := id roomType;
                rt_room_type_name := name roomType;
                revenue := round_to 100 revenue;
                rooms := inventory_count roomType;
                occupied := occupiedRooms;
                rt_occupancy_rate := round_to 100 occupancy |}
             (roomTypeBreakdown t) |}.

(** The entry pushed for a group date once the room types are summed. *)
Definition bucketOf (groupDate : Date) (t : Totals) : RevenueBucket :=
  let overallOccupancy := div (totalOccupied t) (inject_Z (totalRooms t)) in
  {| rb_date := groupDate;
     total_revenue := round_to 100 (totalRevenue t);
     total_rooms := totalRooms t;
     total_occupied := totalOccupied t;
     occupancy_rate := nround_to 10000 overallOccupancy;
     room_types := Object_values (roomTypeBreakdown t) |}.

(** One iteration of the loop over the days: a day whose group date already
    has an entry is skipped ([continue]); otherwise the figures of that day
    are generated and pushed under the group date. *)
Definition analyticsStep (hotelRoomTypes : list RoomType) (groupBy : string)
  (currentDate : Date) (i : Z) (analytics : list RevenueBucket)
  : JS (list RevenueBucket) :=
  let date := setDate currentDate (getDate currentDate + i) in
  let groupDate := groupDateOf groupBy date in
  if existsb (fun a => sameISODate (rb_date a) groupDate) analytics then
    ret analytics
  else
    t <- forEach hotelRoomTypes revenueStep
           {| totalRevenue := 0; totalRooms := 0; totalOccupied := 0;
              roomTypeBreakdown := [] |} ;;
    ret (analytics ++ [bucketOf groupDate t]).

(** [l.sort((a, b) => key(a) - key(b))]; the sort is stable. *)
Fixpoint insert_by {A : Type} (key : A -> Z) (x : A) (l : list A) : list A :=
  match l with
  | [] => [x]
  | y :: rest =>
      if (key x <=? key y)%Z then x :: y :: rest
      else y :: insert_by key x rest
  end.

Definition sort_by {A : Type} (key : A -> Z) (l : list A) : list A :=
  fold_right (insert_by key) [] l.

Definition generateRevenueAnalytics (table : list RoomType) (hotelId : Z)
  (startDate : Date) (days : Z) (groupBy : string) : JS RevenueAnalytics :=
  let hotelRoomTypes := filter (fun rt => (hotel_id rt =? hotelId)%Z) table in
  if (List.length hotelRoomTypes =? 0)%nat then
    ret {| ra_hotel_id := None; start_date := None; end_date := None;
           group_by := None; analytics := [] |}
  else
    let currentDate := startDate in
    analytics <-
      forEach (indices days)
        (analyticsStep hotelRoomTypes groupBy currentDate) [] ;;
    ret {| ra_hotel_id := Some hotelId;
           start_date := Some startDate;
           end_date :=
             Some (setDate startDate (getDate startDate + days - 1));
           group_by := Some groupBy;
           analytics := sort_by rb_date analytics |}.

(** [mockApi.getRevenueAnalytics]: the number of days is the distance to
    [endDate], or 30 without one ([roomTypeId] is not used). *)
Definition getRevenueAnalytics (table : list RoomType) (hotelId : Z)
  (startDate : Date) (endDate : option Date) (groupBy : string)
  : JS RevenueAnalytics :=
  let days :=
    match endDate with
    | Some e => (e - startDate)%Z
    | None => 30%Z
    end in
  generateRevenueAnalytics table hotelId startDate days groupBy.

(** ** Contribution-margin analytics *)

Record RoomTypeContribution : Type := mkRoomTypeContribution {
  rc_revenue : RoomTypeRevenue;
  rc_variable_cost : Q;
  rc_contribution : Q;
  rc_contribution_margin : num
}.

Record ContributionBucket : Type := mkContributionBucket {
  cb_date : Date;
  cb_total_revenue : Q;
  total_variable_cost : Q;
  total_contribution : Q;
  cb_contribution_margin : num;
  cb_total_rooms : Z;
  cb_total_occupied : Q;
  cb_room_types : list RoomTypeContribution
}.

Record ContributionAnalytics : Type := mkContributionAnalytics {
  ca_hotel_id : option Z;
  ca_start_date : option Date;
  ca_end_date : option Date;
  ca_group_by : option string;
  ca_analytics : list ContributionBucket
}.

(** The variables the inner [map] updates, with the list it builds. *)
Record ContributionTotals : Type := mkContributionTotals {
  totalVariableCost : Q;
  totalContribution : Q;
  roomTypesWithContribution : list RoomTypeContribution
}.

(** The callback of the inner [map]: reading [variable_cost] of a room type
    that [find] did not return throws a [TypeError]. *)
Definition contributionStep (hotelRoomTypes : list RoomType)
  (rt : RoomTypeRevenue) (t : ContributionTotals) : JS ContributionTotals :=
  match find (fun r => (id r =? rt_room_type_id rt)%Z) hotelRoomTypes with
  | None => throw TypeError
  | Some roomType =>
      let variableCost := occupied rt * variable_cost roomType in
      let contribution := revenue rt - variableCost in
      ret {| totalVariableCost := totalVariableCost t + variableCost;
             totalContribution := totalContribution t + contribution;
             roomTypesWithContribution :=
               roomTypesWithContribution t ++
               [ {| rc_revenue := rt;
                    rc_variable_cost := round_to 100 variableCost;
                    rc_contribution := round_to 100 contribution;
                    rc_contribution_margin :=
                      nround_to 10000 (div contribution (revenue rt)) |} ] |}
  end.

(** The callback of the outer [map]: one analytics entry with its
    contribution figures. *)
Definition contributionItem (hotelRoomTypes : list RoomType)
  (item : RevenueBucket) : JS ContributionBucket :=
  t <- forEach (room_types item) (contributionStep hotelRoomTypes)
         {| totalVariableCost := 0; totalContribution := 0;
            roomTypesWithContribution := [] |} ;;
  let overallContributionMargin :=
    div (totalContribution t) (total_revenue item) in
  ret {| cb_date := rb_date item;
         cb_total_revenue := total_revenue item;
         total_variable_cost := round_to 100 (totalVariableCost t);
         total_contribution := round_to 100 (totalContribution t);
         cb_contribution_margin := nround_to 10000 overallContributionMargin;
         cb_total_rooms := total_rooms item;
         cb_total_occupied := total_occupied item;
         cb_room_types := roomTypesWithContribution t |}.

Definition getContributionMarginAnalytics (table : list RoomType)
  (hotelId : Z) (startDate : Date) (endDate : option Date) (groupBy : string)
  : JS ContributionAnalytics :=
  revenueData <- getRevenueAnalytics table hotelId startDate endDate groupBy ;;
  let hotelRoomTypes := filter (fun rt => (hotel_id rt =? hotelId)%Z) table in
  items <- mapJS (contributionItem hotelRoomTypes) (analytics revenueData) ;;
  ret {| ca_hotel_id := ra_hotel_id revenueData;
         ca_start_date := start_date revenueData;
         ca_end_date := end_date revenueData;
         ca_group_by := group_by revenueData;
         ca_analytics := items |}.

End Engine.

(** ** Binary64 evaluation

    The price computations of [generatePricingData] and the unguarded
    divisions, on IEEE 754 binary64 numbers: where the rounding of binary64
    arithmetic or its overflow shows, the properties below are stated with
    a margin of a cent and for prices, costs and room counts within
    [limit]. *)

Module Binary64.

#[local] Set Warnings "-inexact-float".
#[local] Open Scope float_scope.

(** [Math.round]: the integer nearest to [x], ties towards [+Infinity]; an
    integer, a zero, an infinity and [NaN] are returned as they are.  A
    finite [x] is [m * 2^e] for integers [m] and [e]. *)
Definition Math_round (x : float) : float :=
  match Prim2SF x with
  | S754_finite s m e =>
      if (0 <=? e)%Z then x
      else
        let n := (if s then Z.neg m else Z.pos m) in
        let r := ((2 * n + 2 ^ (- e)) / 2 ^ (1 - e))%Z in
        if (r =? 0)%Z then (if s then -0 else 0)
        else if (r <? 0)%Z then - of_uint63 (Uint63.of_Z (- r))
        else of_uint63 (Uint63.of_Z r)
  | _ => x
  end.

(** [0.2 + Math.random() * 0.7], for the draw [r]. *)
Definition demandOf (r : float) : float := 0.2 + r * 0.7.

Definition priceMultiplier (demand : float) : float :=
  if demand <=? 0.3 then
    0.6 + (demand / 0.3) * 0.4
  else if 0.7 <=? demand then
    1.0 + ((demand - 0.7) / 0.3) * 1.0
  else
    1.0.

(** [finalPrice - roomType.variable_cost]. *)
Definition contributionMargin (finalPrice variable_cost : float) : float :=
  finalPrice - variable_cost.

(** [(contributionMargin / finalPrice) * 100]. *)
Definition contributionMarginPercentage (finalPrice variable_cost : float)
  : float :=
  ((finalPrice - variable_cost) / finalPrice) * 100.

(** [totalContribution / item.total_revenue]. *)
Definition overallContributionMargin (totalContribution total_revenue : float)
  : float :=
  totalContribution / total_revenue.

(** [Math.round(roomType.base_price * priceMultiplier * 100) / 100]. *)
Definition suggestedPrice (base_price demand : float) : float :=
  Math_round (base_price * priceMultiplier demand * 100) / 100.

(** [Math.round(suggestedPrice * (1 + adjustment) * 100) / 100], for the
    draw [r] of the adjustment. *)
Definition overridePrice (suggestedPrice r : float) : float :=
  let adjustment := -0.1 + r * 0.25 in
  Math_round (suggestedPrice * (1 + adjustment) * 100) / 100.

(** [Math.round((contribution / rt.revenue) * 10000) / 10000] of a room
    type of the contribution analytics. *)
Definition roomTypeMargin (revenue occupied variable_cost : float) : float :=
  let variableCost := occupied * variable_cost in
  let contribution := revenue - variableCost in
  Math_round ((contribution / revenue) * 10000) / 10000.

End Binary64.

(** ** The specification's price tiers

    The multiplier as the specification words it: a relation between a
    demand probability and a multiplier, one clause per tier. *)

Definition spec_price_multiplier (demandProbability multiplier : Q) : Prop :=
  (demandProbability <= 3#10 ->
     multiplier == (6#10) + (demandProbability / (3#10)) * (4#10)) /\
  (7#10 <= demandProbability ->
     multiplier == 1 + ((demandProbability - (7#10)) / (3#10)) * 1) /\
  (3#10 < demandProbability /\ demandProbability < 7#10 ->
     multiplier == 1).

(** ** The specification's buckets

    A bucket's total as the specification words it: the sum of a figure
    over all the days of the range that fall in the bucket, the days being
    given by their own (daily) entries. *)

Definition spec_bucket_sum (groupBy : string) (groupDate : Date)
  (figure : RevenueBucket -> Q) (daily : list RevenueBucket) : Q :=
  fold_right Qplus 0
    (map figure
       (filter
          (fun b => sameISODate (groupDateOf groupBy (rb_date b)) groupDate)
          daily)).

Definition spec_bucket_variable_cost (groupBy : string) (groupDate : Date)
  (daily : list ContributionBucket) : Q :=
  fold_right Qplus 0
    (map total_variable_cost
       (filter
          (fun b => sameISODate (groupDateOf groupBy (cb_date b)) groupDate)
          daily)).

(** ** Sample inputs *)

(** A random source that always returns [q]. *)
Definition constantDraws (q : Q) : nat -> Q := fun _ => q.
Definition half : nat -> Q := constantDraws (1#2).

(** Monday 2025-06-02. *)
Definition monday : Date := 20241%Z.

(** Saturday 2025-03-08, the day before America/New_York changes to
    daylight time. *)
Definition saturday : Date := 20155%Z.

(** The first room type of the table, and variants of it: a variable cost
    with a third decimal, a base price of zero, and no rooms to sell. *)
Definition standardRoom : RoomType :=
  mkRoomType 1 1 "Standard Room" 199 45 40 2.
Definition closedWing : RoomType :=
  mkRoomType 1 1 "Closed wing" 100 45 0 2.

(** The analytics entry of a day on which [closedWing] is the only room
    type of the hotel. *)
Definition vacantBucket : RevenueBucket :=
  {| rb_date := monday; total_revenue := 0; total_rooms := 0%Z;
     total_occupied := 0; occupancy_rate := NaN;
     room_types := [mkRoomTypeRevenue 1 "Closed wing" 0 0 0 (65#100)] |}.

(** ** Hotels and the catalogue methods *)

Record Hotel : Type := mkHotel {
  h_id : Z;
  h_name : string;
  address : string;
  city : string;
  state : string;
  country : string;
  zip_code : string;
  currency : string;
  timezone : string;
  logo_url : string;
  primary_color : string;
  secondary_color : string;
  monthly_fixed_costs : Q;
  is_active : bool;
  created_at : string;
  updated_at : string
}.

Definition hotels : list Hotel :=
  [ mkHotel 1 "Grand Hotel" "123 Main Street" "New York" "NY" "USA" "10001"
      "USD" "America/New_York" "https://via.placeholder.com/150" "#1E3A8A"
      "#BFDBFE" 85000 true "2025-01-15T10:30:00Z" "2025-05-10T14:20:00Z";
    mkHotel 2 "City Center Hotel" "456 Park Avenue" "Chicago" "IL" "USA"
      "60601" "USD" "America/Chicago" "https://via.placeholder.com/150"
      "#047857" "#D1FAE5" 65000 true "2025-02-20T09:15:00Z"
      "2025-05-12T11:45:00Z";
    mkHotel 3 "Business Hotel" "789 Market Street" "San Francisco" "CA" "USA"
      "94103" "USD" "America/Los_Angeles" "https://via.placeholder.com/150"
      "#7C3AED" "#EDE9FE" 75000 true "2025-03-05T08:45:00Z"
      "2025-05-15T16:30:00Z" ].

(** The result of [getHotelById]: the hotel with its room types. *)
Record HotelDetails : Type := mkHotelDetails {
  hotel : Hotel;
  hotel_room_types : list RoomType
}.

(** [mockApi.getHotelById]; [id] is the integer [parseInt(id)] reads. *)
Definition getHotelById (hotelTable : list Hotel) (table : list RoomType)
  (id : Z) : JS HotelDetails :=
  match find (fun h => (h_id h =? id)%Z) hotelTable with
  | None => throw (Error "Hotel not found")
  | Some found =>
      let hotelRoomTypes := filter (fun rt => (hotel_id rt =? id)%Z) table in
      ret {| hotel := found; hotel_room_types := hotelRoomTypes |}
  end.

(** [mockApi.getRoomTypes]: [hotelId] is [None] for [null]; 0 is falsy. *)
Definition getRoomTypes (table : list RoomType) (hotelId : option Z)
  : JS (list RoomType) :=
  match truthy hotelId with
  | Some h => ret (filter (fun rt => (hotel_id rt =? h)%Z) table)
  | None => ret table
  end.

(** [mockApi.getRoomTypeById]. *)
Definition getRoomTypeById (table : list RoomType) (roomTypeId : Z)
  : JS RoomType :=
  match find (fun rt => (id rt =? roomTypeId)%Z) table with
  | None => throw (Error "Room type not found")
  | Some roomType => ret roomType
  end.

(** ** Occupancy analytics *)






(** ** Time zones

    The definitions above read a [Date] as a whole day in UTC.  The [Date]
    methods of the source work on two clocks: [getDate], [getDay],
    [getMonth], [getFullYear], [setDate] and [new Date(year, month, day)]
    on the local time of the environment, [toISOString] on UTC.  In this
    part a [Date] is a time value, in milliseconds since
    1970-01-01T00:00:00Z, and the time zone of the environment is a
    parameter: the two offsets of the language specification, the one in
    force at a time value ([LocalTZA(t, true)]) and the one a local time is
    read with ([LocalTZA(t, false)]).  The calendar is the one of [JSDate],
    on the day number of the local time.  With both offsets zero these
    definitions are the ones above. *)

Module JSTime.

Definition msPerDay : Z := 86400000.

Record TimeZone : Type := mkTimeZone {
  offset_at : Z -> Z;
  offset_of_local : Z -> Z
}.

Definition UTC : TimeZone :=
  {| offset_at := fun _ => 0%Z; offset_of_local := fun _ => 0%Z |}.

Definition is_utc (zone : TimeZone) : Prop :=
  forall t, offset_at zone t = 0%Z /\ offset_of_local zone t = 0%Z.

(** The day number and the time within the day of a time value. *)
Definition Day (t : Z) : Date := (t / msPerDay)%Z.
Definition TimeWithinDay (t : Z) : Z := (t mod msPerDay)%Z.

(** [new Date("YYYY-MM-DD")]: midnight of that day, in UTC. *)
Definition midnight (d : Date) : Z := (d * msPerDay)%Z.

(** The local time of a time value, and the time value of a local time. *)
Definition LocalTime (zone : TimeZone) (t : Z) : Z :=
  (t + offset_at zone t)%Z.
Definition UTCTime (zone : TimeZone) (local : Z) : Z :=
  (local - offset_of_local zone local)%Z.

Definition getFullYear (zone : TimeZone) (t : Z) : Z :=
  JSDate.getFullYear (Day (LocalTime zone t)).
Definition getMonth (zone : TimeZone) (t : Z) : Z :=
  JSDate.getMonth (Day (LocalTime zone t)).
Definition getDate (zone : TimeZone) (t : Z) : Z :=
  JSDate.getDate (Day (LocalTime zone t)).
Definition getDay (zone : TimeZone) (t : Z) : Z :=
  JSDate.getDay (Day (LocalTime zone t)).

(** [d.setDate(n)]: the local day is set, the local time of day is kept,
    and the result is read back as a local time. *)
Definition setDate (zone : TimeZone) (t : Z) (n : Z) : Z :=
  let local := LocalTime zone t in
  UTCTime zone
    (JSDate.setDate (Day local) n * msPerDay + TimeWithinDay local)%Z.

(** [new Date(year, month, day)]: local midnight of that day. *)
Definition newDate (zone : TimeZone) (year month day : Z) : Z :=
  UTCTime zone (JSDate.newDate year month day * msPerDay)%Z.

(** [d.toISOString().split('T')[0]], as the day it denotes. *)
Definition toISODay (t : Z) : Date := Day t.

End JSTime.

(** The generators and [getRevenueAnalytics] on time values, in a time
    zone.  The records are the ones above: their dates are the days that
    the ["YYYY-MM-DD"] strings denote. *)

Module Zoned.
Section InZone.

Variable zone : JSTime.TimeZone.
Variable rnd : nat -> Q.

Definition pricingStep (roomTypeId : Z) (roomType : RoomType)
  (startDate : Z) (i : Z) (pricingData : list PricedDay)
  : JS (list PricedDay) :=
  let date :=
    JSTime.setDate zone startDate (JSTime.getDate zone startDate + i) in
  r <- Math_random rnd ;;
  let demand := (2#10) + r * (7#10) in
  day <- priceDay rnd roomTypeId roomType (JSTime.toISODay date) demand ;;
  ret (pricingData ++ [day]).

Definition generatePricingData (table : list RoomType) (roomTypeId : Z)
  (startDate : Z) : JS (list PricedDay) :=
  match find (fun rt => (id rt =? roomTypeId)%Z) table with
  | None => ret []
  | Some roomType =>
      forEach (indices 30) (pricingStep roomTypeId roomType startDate) []
  end.

Definition groupDateOf (groupBy : string) (date : Z) : Z :=
  if String.eqb groupBy "week" then
    let day := JSTime.getDay zone date in
    let diff :=
      (JSTime.getDate zone date - day + (if day =? 0 then -6 else 1))%Z in
    JSTime.setDate zone date diff
  else if String.eqb groupBy "month" then
    JSTime.newDate zone (JSTime.getFullYear zone date)
      (JSTime.getMonth zone date) 1
  else date.

(** The date of the entry that day [i] of the range is grouped under. *)
Definition groupDay (groupBy : string) (currentDate : Z) (i : Z) : Date :=
  JSTime.toISODay
    (groupDateOf groupBy
       (JSTime.setDate zone currentDate
          (JSTime.getDate zone currentDate + i))).

Definition analyticsStep (hotelRoomTypes : list RoomType) (groupBy : string)
  (currentDate : Z) (i : Z) (analytics : list RevenueBucket)
  : JS (list RevenueBucket) :=
  let date :=
    JSTime.setDate zone currentDate (JSTime.getDate zone currentDate + i) in
  let groupDate := groupDateOf groupBy date in
  if existsb (fun a => sameISODate (rb_date a) (JSTime.toISODay groupDate))
       analytics
  then ret analytics
  else
    t <- forEach hotelRoomTypes (revenueStep rnd)
           {| totalRevenue := 0; totalRooms := 0; totalOccupied := 0;
              roomTypeBreakdown := [] |} ;;
    ret (analytics ++ [bucketOf (JSTime.toISODay groupDate) t]).

Definition generateRevenueAnalytics (table : list RoomType) (hotelId : Z)
  (startDate : Z) (days : Z) (groupBy : string) : JS RevenueAnalytics :=
  let hotelRoomTypes := filter (fun rt => (hotel_id rt =? hotelId)%Z) table in
  if (List.length hotelRoomTypes =? 0)%nat then
    ret {| ra_hotel_id := None; start_date := None; end_date := None;
           group_by := None; analytics := [] |}
  else
    let currentDate := startDate in
    analytics <-
      forEach (indices days)
        (analyticsStep hotelRoomTypes groupBy currentDate) [] ;;
    ret {| ra_hotel_id := Some hotelId;
           start_date := Some (JSTime.toISODay startDate);
           end_date :=
             Some (JSTime.toISODay
                     (JSTime.setDate zone startDate
                        (JSTime.getDate zone startDate + days - 1)));
           group_by := Some groupBy;
           analytics := sort_by rb_date analytics |}.

(** [Math.ceil((end - start) / (1000 * 60 * 60 * 24))]. *)
Definition daysBetween (startDate endDate : Z) : Z :=
  (- ((startDate - endDate) / JSTime.msPerDay))%Z.

Definition getRevenueAnalytics (table : list RoomType) (hotelId : Z)
  (startDate : Z) (endDate : option Z) (groupBy : string)
  : JS RevenueAnalytics :=
  let days :=
    match endDate with
    | Some e => daysBetween startDate e
    | None => 30%Z
    end in
  generateRevenueAnalytics table hotelId startDate days groupBy.

End InZone.
End Zoned.

(** A zone that is five hours behind UTC until 2025-03-09T07:00:00Z and
    four hours behind from then on, as America/New_York is around its
    change to daylight time in 2025 (the local times from 02:00 to 03:00 of
    that day, which do not exist, are read with the earlier offset). *)
Definition easternTime2025 : JSTime.TimeZone :=
  {| JSTime.offset_at :=
       fun t => (if t <? 1741503600000 then -18000000 else -14400000)%Z;
     JSTime.offset_of_local :=
       fun l => (if l <? 1741489200000 then -18000000 else -14400000)%Z |}.

(** A zone two hours ahead of UTC, as Europe/Berlin is in summer. *)
Definition centralEuropeanSummer : JSTime.TimeZone :=
  {| JSTime.offset_at := fun _ => 7200000%Z;
     JSTime.offset_of_local := fun _ => 7200000%Z |}.

(** ** Magnitudes

    Prices, costs and room counts up to [limit] keep every product of the
    engine far inside the range of binary64 numbers. *)

Definition limit : Q := 1000000000.

Definition within_limits (rt : RoomType) : Prop :=
  0 <= base_price rt <= limit /\
  0 <= variable_cost rt <= limit /\
  (0 <= inventory_count rt <= 1000000000)%Z.

(** ** Auxiliary definitions of the statements *)

(** Sums of a list of integers and of a list of numbers. *)
Definition sumZ (l : list Z) : Z := fold_right Z.add 0%Z l.

(** The order of the own keys of an object: [a] may stand before [b] when
    they differ and, if [b] is an array index, [a] is a smaller one.  In a
    list sorted by it the array indices come first, in ascending order, and
    no key comes twice. *)
Definition key_before (a b : Z) : Prop :=
  a <> b /\
  (is_array_index b = true -> is_array_index a = true /\ (a < b)%Z).

(** The elements of a list at their first occurrence, in order. *)
Definition push_new (seen : list Z) (g : Z) : list Z :=
  if existsb (Z.eqb g) seen then seen else seen ++ [g].
Definition firsts (l : list Z) : list Z := fold_left push_new l [].

(** The group dates of the days of a range, day by day. *)
Definition groupDates (groupBy : string) (startDate : Date) (numDays : Z)
  : list Date :=
  map (fun i => groupDateOf groupBy (startDate + i)%Z) (indices numDays).

(** The year of the era, the month counted from March and the day of the
    month of day [doe] of a 400-year era, as [civil_from_days] computes
    them. *)
Definition era_civil (doe : Z) : Z * Z * Z :=
  let yoe := ((doe - doe / 1460 + doe / 36524 - doe / 146096) / 365)%Z in
  let doy := (doe - (365 * yoe + yoe / 4 - yoe / 100))%Z in
  let mp := ((5 * doy + 2) / 153)%Z in
  let dd := (doy - (153 * mp + 2) / 5 + 1)%Z in
  (yoe, mp, dd).

(** [f] holds of the [n] integers from [z] on. *)
Fixpoint all_from (f : Z -> bool) (n : nat) (z : Z) : bool :=
  match n with
  | O => true
  | S n' => f z && all_from f n' (z + 1)
  end.

(** The facts about a day of an era that the date lemmas use: the ranges of
    its year, month and day, the day number they add up to, and that the
    first day of its month is in the same month of the same year. *)
Definition era_check (doe : Z) : bool :=
  match era_civil doe with
  | (yoe, mp, dd) =>
      ((0 <=? yoe) && (yoe <=? 399) && (0 <=? mp) && (mp <=? 11) &&
       (1 <=? dd) && (dd <=? 31) &&
       (yoe * 365 + yoe / 4 - yoe / 100 + ((153 * mp + 2) / 5 + dd - 1)
          =? doe) &&
       (match era_civil (doe - dd + 1) with
        | (yoe', mp', dd') => (yoe' =? yoe) && (mp' =? mp) && (dd' =? 1)
        end) && (0 <=? doe - dd + 1))%Z
  end.

(** The totals before the first room type of a date. *)
Definition emptyTotals : Totals :=
  {| totalRevenue := 0; totalRooms := 0%Z; totalOccupied := 0;
     roomTypeBreakdown := [] |}.

(** The entries of a breakdown: each is keyed by its own identifier and
    describes a room type of the list. *)
Definition entry_of (hotelRoomTypes : list RoomType)
  (p : Z * RoomTypeRevenue) : Prop :=
  rt_room_type_id (snd p) = fst p /\
  (exists z, occupied (snd p) = inject_Z z) /\
  (exists c, revenue (snd p) = inject_Z c / 100) /\
  exists roomType,
    In roomType hotelRoomTypes /\ id roomType = fst p /\
    rt_room_type_name (snd p) = name roomType /\
    rooms (snd p) = inventory_count roomType.

(** * Properties *)

(** ** Numbers *)

Lemma leb_true a b : leb a b = true <-> a <= b.
Proof. apply Qle_bool_iff. Qed.

Lemma leb_false a b : leb a b = false <-> b < a.
Proof.
  unfold leb. split; intros H.
  - apply Qnot_le_lt. intros L. apply Qle_bool_iff in L. congruence.
  - destruct (Qle_bool a b) eqn:E; [|reflexivity].
    apply Qle_bool_iff in E. exfalso. apply (Qlt_not_le _ _ H E).
Qed.

Lemma Qeq_bool_false a b : Qeq_bool a b = false <-> ~ a == b.
Proof.
  split.
  - intros E H. apply Qeq_bool_iff in H. congruence.
  - intros H. destruct (Qeq_bool a b) eqn:E; [|reflexivity].
    apply Qeq_bool_iff in E. contradiction.
Qed.

Lemma Math_round_le x y : x <= y -> Math_round x <= Math_round y.
Proof.
  intros H. unfold Math_round. rewrite <- Zle_Qle.
  apply Qfloor_resp_le. lra.
Qed.

Lemma Math_round_upper x : Math_round x <= x + (1#2).
Proof. unfold Math_round. apply Qfloor_le. Qed.

Lemma Math_round_lower x : x - (1#2) < Math_round x.
Proof.
  unfold Math_round. pose proof (Qlt_floor (x + (1#2))) as H.
  rewrite inject_Z_plus in H. change (inject_Z 1) with 1 in H. lra.
Qed.

(** An integer is its own rounding. *)
Lemma Math_round_Z n : Math_round (inject_Z n) == inject_Z n.
Proof.
  unfold Math_round.
  assert (Qfloor (inject_Z n + (1#2)) = n) as ->; [|reflexivity].
  pose proof (Qfloor_le (inject_Z n + (1#2))) as L.
  pose proof (Qlt_floor (inject_Z n + (1#2))) as U.
  set (f := Qfloor (inject_Z n + (1#2))) in *.
  assert (inject_Z f < inject_Z (n + 1)) as A.
  { rewrite inject_Z_plus. change (inject_Z 1) with 1.
    apply Qle_lt_trans with (inject_Z n + (1#2)); [exact L|lra]. }
  assert (inject_Z n < inject_Z (f + 1)) as B.
  { apply Qle_lt_trans with (inject_Z n + (1#2)); [lra|exact U]. }
  rewrite <- Zlt_Qlt in A, B. lia.
Qed.

#[local] Instance Math_round_proper : Proper (Qeq ==> Qeq) Math_round.
Proof. intros x y E. unfold Math_round. rewrite E. reflexivity. Qed.

#[local] Instance round_to_proper : Proper (Qeq ==> Qeq ==> Qeq) round_to.
Proof. intros k k' Ek x y E. unfold round_to. rewrite E, Ek. reflexivity. Qed.

Lemma round_to_le k x y : 0 < k -> x <= y -> round_to k x <= round_to k y.
Proof.
  intros Hk H. unfold round_to, Qdiv.
  apply Qmult_le_compat_r.
  - apply Math_round_le. apply Qmult_le_compat_r; lra.
  - apply Qlt_le_weak, Qinv_lt_0_compat, Hk.
Qed.

(** A whole number of cents is its own rounding to two decimals. *)
Lemma round_to_cents n : round_to 100 (inject_Z n / 100) == inject_Z n / 100.
Proof.
  unfold round_to.
  assert (inject_Z n / 100 * 100 == inject_Z n) as -> by field.
  rewrite Math_round_Z. reflexivity.
Qed.

Lemma round_to_is_cents x : exists n, round_to 100 x = inject_Z n / 100.
Proof. unfold round_to, Math_round. eexists. reflexivity. Qed.

(** Rounding to two decimals moves a number by at most half a cent. *)
Lemma round_to_near x :
  x - (5#1000) < round_to 100 x /\ round_to 100 x <= x + (5#1000).
Proof.
  unfold round_to, Qdiv. change (/ 100) with (1#100).
  pose proof (Math_round_lower (x * 100)).
  pose proof (Math_round_upper (x * 100)).
  split; lra.
Qed.

Lemma Math_min_max_bounds lo hi x :
  lo <= hi -> lo <= Math_min hi (Math_max lo x) <= hi.
Proof.
  intros H. unfold Math_min, Math_max.
  destruct (Qle_bool lo x) eqn:E1.
  - apply Qle_bool_iff in E1.
    destruct (Qle_bool hi x) eqn:E2.
    + split; lra.
    + apply leb_false in E2. split; lra.
  - destruct (Qle_bool hi lo) eqn:E2; split; lra.
Qed.

(** A division is finite exactly when its denominator is not zero. *)
Lemma div_finite a b : finite (div a b) <-> ~ b == 0.
Proof.
  unfold div. destruct (Qeq_bool b 0) eqn:E.
  - apply Qeq_bool_iff in E. split; [|contradiction].
    destruct (ltb 0 a); [|destruct (ltb a 0)]; cbn; contradiction.
  - apply Qeq_bool_false in E. cbn. tauto.
Qed.

Lemma div_by_zero a b :
  b == 0 -> div a b = PInf \/ div a b = NInf \/ div a b = NaN.
Proof.
  intros H. unfold div. apply Qeq_bool_iff in H. rewrite H.
  destruct (ltb 0 a); [|destruct (ltb a 0)]; auto.
Qed.


(** Rounding to a number of decimals keeps a number finite or not. *)
Lemma nround_to_finite k x : 0 < k -> (finite (nround_to k x) <-> finite x).
Proof.
  intros Hk. unfold nround_to.
  assert (ltb 0 k = true) as Pk.
  { unfold ltb. apply negb_true_iff. apply leb_false. exact Hk. }
  assert (ltb k 0 = false) as Nk.
  { unfold ltb. apply negb_false_iff. apply Qle_bool_iff. lra. }
  destruct x as [q| | |]; cbn [mulc round divc]; rewrite ?Pk, ?Nk;
    cbn [round divc]; rewrite ?Nk; cbn [finite]; try tauto.
  split; [tauto|]. intros _. apply div_finite. lra.
Qed.

(** Rounding a finite number keeps it finite. *)
Lemma nround_to_Fin k q : 0 < k -> nround_to k (Fin q) = Fin (round_to k q).
Proof.
  intros Hk. unfold nround_to, mulc, round, divc, div, round_to.
  assert (Qeq_bool k 0 = false) as ->; [|reflexivity].
  apply Qeq_bool_false. lra.
Qed.

Lemma round_to_between k lo hi x :
  0 < k -> lo <= x <= hi -> round_to k lo <= round_to k x <= round_to k hi.
Proof. intros Hk [L U]. split; apply round_to_le; assumption. Qed.

(** ** The price tiers *)

(** Case analysis on the tier tests of [priceMultiplier], leaving linear
    arithmetic. *)
Ltac tiers :=
  unfold priceMultiplier;
  repeat match goal with
  | |- context [leb ?a ?b] =>
      let E := fresh "E" in
      destruct (leb a b) eqn:E;
      [apply leb_true in E | apply leb_false in E]
  end;
  unfold Qdiv in *; change (/ (3#10)) with (10#3) in *.

(** The multiplier never falls as demand rises, and rises by at most 10/3
    of the rise in demand (the slope of the premium tier). *)
Lemma priceMultiplier_increment x y :
  x <= y -> 0 <= priceMultiplier y - priceMultiplier x <= (10#3) * (y - x).
Proof. intros H. tiers; lra. Qed.

(** ** Loops *)

Section LoopFacts.
Context {A S : Type}.

(** A loop whose body returns on every element of the list returns, and an
    invariant of the elements done so far and the loop variables holds at
    the end. *)
Lemma forEach_prefix_in (P : list A -> S -> Prop) (body : A -> S -> JS S)
  (l : list A) :
  (forall done x s n, In x l -> P done s ->
     exists s' n', body x s n = Returned (s', n') /\ P (done ++ [x]) s') ->
  forall done s n, P done s ->
    exists s' n', forEach l body s n = Returned (s', n') /\ P (done ++ l) s'.
Proof.
  induction l as [|x rest IH]; intros Hbody done s n Hs.
  - exists s, n. rewrite app_nil_r. split; [reflexivity|exact Hs].
  - destruct (Hbody done x s n (or_introl eq_refl) Hs) as (s1 & n1 & E1 & H1).
    destruct (IH (fun d y t k Hy => Hbody d y t k (or_intror Hy))
                (done ++ [x]) s1 n1 H1) as (s2 & n2 & E2 & H2).
    exists s2, n2. rewrite <- app_assoc in H2. split; [|exact H2].
    cbn [forEach]. unfold bind. rewrite E1. exact E2.
Qed.

Lemma forEach_prefix (P : list A -> S -> Prop) (body : A -> S -> JS S) :
  (forall done x s n, P done s ->
     exists s' n', body x s n = Returned (s', n') /\ P (done ++ [x]) s') ->
  forall l done s n, P done s ->
    exists s' n', forEach l body s n = Returned (s', n') /\ P (done ++ l) s'.
Proof.
  intros Hbody l. apply forEach_prefix_in.
  intros done x s n _. apply Hbody.
Qed.

Lemma forEach_returns (P : S -> Prop) (body : A -> S -> JS S) :
  (forall x s n, P s -> exists s' n', body x s n = Returned (s', n') /\ P s') ->
  forall l s n, P s ->
    exists s' n', forEach l body s n = Returned (s', n') /\ P s'.
Proof.
  intros Hbody l s n Hs.
  apply (forEach_prefix (fun _ => P) body) with (done := []); auto.
Qed.

(** An invariant of the loop variables that every returning run of the body
    keeps holds after a returning loop. *)
Lemma forEach_preserves (P : S -> Prop) (body : A -> S -> JS S) :
  (forall x s n s' n', P s -> body x s n = Returned (s', n') -> P s') ->
  forall l s n s' n', P s -> forEach l body s n = Returned (s', n') -> P s'.
Proof.
  intros Hbody l. induction l as [|x rest IH]; intros s n s' n' Hs E.
  - cbn in E. unfold ret in E. inversion E; subst. exact Hs.
  - cbn [forEach] in E. unfold bind in E.
    destruct (body x s n) as [[s1 n1]|e] eqn:E1; [|discriminate].
    eapply IH; [|exact E]. eapply Hbody; eauto.
Qed.

End LoopFacts.

Lemma obj_set_Forall {V : Type} (P : Z * V -> Prop) k v o :
  P (k, v) -> Forall P o -> Forall P (obj_set k v o).
Proof.
  intros Hv Ho. induction Ho as [|[k' v'] rest Hx Hrest IH]; cbn [obj_set].
  - constructor; [exact Hv|constructor].
  - destruct (k =? k')%Z; [|destruct (_ && _)].
    + constructor; assumption.
    + constructor; [exact Hv|]. constructor; assumption.
    + constructor; assumption.
Qed.

Lemma insert_by_Forall {A : Type} (P : A -> Prop) (key : A -> Z) x l :
  P x -> Forall P l -> Forall P (insert_by key x l).
Proof.
  intros Hx Hl. induction Hl as [|y rest Hy Hrest IH]; cbn [insert_by].
  - constructor; [exact Hx|constructor].
  - destruct (key x <=? key y)%Z.
    + constructor; [exact Hx|]. constructor; assumption.
    + constructor; assumption.
Qed.

Lemma sort_by_Forall {A : Type} (P : A -> Prop) (key : A -> Z) l :
  Forall P l -> Forall P (sort_by key l).
Proof.
  intros Hl. induction Hl as [|y rest Hy Hrest IH]; cbn.
  - constructor.
  - apply insert_by_Forall; assumption.
Qed.

(** A room type of the table is found by its identifier. *)
Lemma find_id_in table roomType :
  In roomType table ->
  exists found,
    find (fun rt => (id rt =? id roomType)%Z) table = Some found.
Proof.
  intros Hin.
  destruct (find (fun rt => (id rt =? id roomType)%Z) table) as [found|] eqn:F.
  - exists found. reflexivity.
  - pose proof (find_none _ _ F roomType Hin) as H. cbn in H.
    rewrite Z.eqb_refl in H. discriminate.
Qed.

(** ** One priced day *)

Section PriceDayFacts.
Variable rnd : nat -> Q.

(** What one run of [priceDay] returns, field by field: it always returns. *)
Lemma priceDay_returns roomTypeId roomType date demand n :
  exists pd n',
    priceDay rnd roomTypeId roomType date demand n = Returned (pd, n') /\
    demand_probability pd = round_to 100 demand /\
    price_multiplier pd = round_to 100 (priceMultiplier demand) /\
    suggested_price pd =
      round_to 100 (base_price roomType * priceMultiplier demand) /\
    (is_override pd = false /\ final_price pd = suggested_price pd \/
     is_override pd = true /\
     final_price pd =
       round_to 100
         (suggested_price pd * (1 + (- (1#10) + rnd (S n) * (25#100))))) /\
    pd_variable_cost pd = variable_cost roomType /\
    contribution_margin pd =
      round_to 100 (final_price pd - variable_cost roomType) /\
    contribution_margin_percentage pd =
      nround_to 100
        (mulc (div (final_price pd - variable_cost roomType) (final_price pd))
           100) /\
    (exists r,
       expected_occupancy pd =
         round_to 100
           (Math_min (95#100)
              (Math_max (1#10) (demand * ((8#10) + r * (4#10)))))).
Proof.
  unfold priceDay, bind, Math_random, ret.
  destruct (ltb (rnd n) (1#10)); cbn [fst snd];
    eexists; eexists; (split; [reflexivity|]); cbn;
    repeat (split; try reflexivity); eauto.
Qed.




End PriceDayFacts.

Section PriceDayBounds.
Variable rnd : nat -> Q.
Hypothesis Hrnd : forall k, 0 <= rnd k < 1.


End PriceDayBounds.

(** ** The 30-day schedule *)

Section ScheduleFacts.
Variable rnd : nat -> Q.

Lemma pricingStep_returns (P : PricedDay -> Prop) roomTypeId roomType
  startDate :
  (forall date demand n pd n',
     priceDay rnd roomTypeId roomType date demand n = Returned (pd, n') ->
     P pd) ->
  forall done i acc n,
    map date acc = map (fun k => (startDate + k)%Z) done /\ Forall P acc ->
    exists acc' n',
      pricingStep rnd roomTypeId roomType startDate i acc n =
        Returned (acc', n') /\
      (map date acc' = map (fun k => (startDate + k)%Z) (done ++ [i]) /\
       Forall P acc').
Proof.
  intros HP done i acc n [Hd Hall].
  unfold pricingStep, bind, Math_random.
  destruct (priceDay_returns rnd roomTypeId roomType
              (setDate startDate (getDate startDate + i))
              ((2#10) + rnd n * (7#10)) (S n)) as (pd & n' & E & _).
  rewrite E. exists (acc ++ [pd]), n'. split; [reflexivity|]. split.
  - rewrite !map_app, Hd. cbn [map]. f_equal. f_equal.
    unfold priceDay, bind, Math_random, ret in E.
    destruct (ltb (rnd (S n)) (1#10)); inversion E; subst; cbn [date];
      unfold setDate; lia.
  - apply Forall_app. split; [exact Hall|]. constructor; [|constructor].
    eapply HP. exact E.
Qed.

(** For a room type of the table, [generatePricingData] returns one priced
    day for each of the 30 days from [startDate] on, in order. *)
Lemma generatePricingData_returns (P : PricedDay -> Prop) table roomTypeId
  roomType startDate n :
  find (fun rt => (id rt =? roomTypeId)%Z) table = Some roomType ->
  (forall date demand n pd n',
     priceDay rnd roomTypeId roomType date demand n = Returned (pd, n') ->
     P pd) ->
  exists l n',
    generatePricingData rnd table roomTypeId startDate n = Returned (l, n') /\
    map date l = map (fun k => (startDate + k)%Z) (indices 30) /\
    Forall P l.
Proof.
  intros Hfind HP. unfold generatePricingData. rewrite Hfind.
  apply (forEach_prefix
           (fun done acc =>
              map date acc = map (fun k => (startDate + k)%Z) done /\
              Forall P acc)
           (pricingStep rnd roomTypeId roomType startDate)
           (fun done i acc n H =>
              pricingStep_returns P roomTypeId roomType startDate HP
                done i acc n H)
           (indices 30) [] [] n).
  split; [reflexivity|constructor].
Qed.

(** Whatever number of days is asked for, every room type of the response
    of [getPricingRecommendations] carries the 30 days from [startDate]
    on. *)
Lemma getPricingRecommendations_thirty_days table hotelId startDate numDays
  roomTypeId n r n' :
  getPricingRecommendations rnd table hotelId startDate numDays roomTypeId n =
    Returned (r, n') ->
  days r = numDays /\
  Forall (fun p => map date (prices (snd p)) =
                   map (fun k => (startDate + k)%Z) (indices 30))
    (recommendations r).
Proof.
  unfold getPricingRecommendations.
  set (hotelRoomTypes := match truthy roomTypeId with
                         | Some r0 => _ | None => _ end).
  assert (forall rt, In rt hotelRoomTypes -> In rt table) as Hsub.
  { intros rt. subst hotelRoomTypes.
    destruct (truthy roomTypeId); intros H; apply filter_In in H; tauto. }
  destruct (List.length hotelRoomTypes =? 0)%nat; [discriminate|].
  unfold bind.
  destruct (forEach_prefix_in
              (fun _ recs =>
                 Forall (fun p => map date (prices (snd p)) =
                                  map (fun k => (startDate + k)%Z)
                                    (indices 30))
                   recs)
              (recommendationStep rnd table startDate) hotelRoomTypes)
    with (done := @nil RoomType) (s := @nil (Z * Recommendation)) (n := n)
    as (recs & k & E & Hrecs); [|constructor|].
  - intros done rt recs k Hin Hrecs. unfold recommendationStep, bind.
    destruct (find_id_in table rt (Hsub rt Hin)) as [found F].
    destruct (generatePricingData_returns (fun _ => True) table (id rt)
                found startDate k F (fun _ _ _ _ _ _ => I))
      as (l & k' & El & Hl & _).
    rewrite El. eexists. eexists. split; [reflexivity|].
    apply obj_set_Forall; [exact Hl|exact Hrecs].
  - rewrite E. unfold ret. intros R. inversion R; subst. cbn. auto.
Qed.

End ScheduleFacts.

(** ** Analytics *)

Section AnalyticsFacts.
Variable rnd : nat -> Q.

Lemma revenueStep_returns roomType t n :
  exists t' n', revenueStep rnd roomType t n = Returned (t', n').
Proof. unfold revenueStep, bind, Math_random, ret. eauto. Qed.


(** A day whose group date already has an entry adds nothing and draws
    nothing. *)
Lemma analyticsStep_skip hotelRoomTypes groupBy currentDate i acc n :
  existsb
    (fun a => sameISODate (rb_date a)
                (groupDateOf groupBy
                   (setDate currentDate (getDate currentDate + i)))) acc =
    true ->
  analyticsStep rnd hotelRoomTypes groupBy currentDate i acc n =
    Returned (acc, n).
Proof. intros H. unfold analyticsStep. rewrite H. reflexivity. Qed.

Lemma analyticsStep_returns (P : RevenueBucket -> Prop) hotelRoomTypes groupBy
  currentDate i acc n :
  (forall groupDate t, P (bucketOf groupDate t)) ->
  Forall P acc ->
  exists acc' n',
    analyticsStep rnd hotelRoomTypes groupBy currentDate i acc n =
      Returned (acc', n') /\
    Forall P acc'.
Proof.
  intros HP Hacc. unfold analyticsStep.
  destruct (existsb _ acc).
  - exists acc, n. split; [reflexivity|exact Hacc].
  - unfold bind.
    destruct (forEach_returns (fun _ => True) (revenueStep rnd)) with
      (l := hotelRoomTypes)
      (s := {| totalRevenue := 0; totalRooms := 0%Z; totalOccupied := 0;
               roomTypeBreakdown := [] |}) (n := n)
      as (t & n' & E & _); [|exact I|].
    + intros x s k _. destruct (revenueStep_returns x s k) as (t' & k' & E').
      exists t', k'. auto.
    + rewrite E. eexists. eexists. split; [reflexivity|].
      apply Forall_app. split; [exact Hacc|].
      constructor; [apply HP|constructor].
Qed.

(** [generateRevenueAnalytics] always returns, and every entry of its
    result was built by [bucketOf]. *)
Lemma generateRevenueAnalytics_returns (P : RevenueBucket -> Prop) table
  hotelId startDate numDays groupBy n :
  (forall groupDate t, P (bucketOf groupDate t)) ->
  exists r n',
    generateRevenueAnalytics rnd table hotelId startDate numDays groupBy n =
      Returned (r, n') /\
    Forall P (analytics r).
Proof.
  intros HP. unfold generateRevenueAnalytics.
  destruct (List.length _ =? 0)%nat.
  - eexists. eexists. split; [reflexivity|constructor].
  - unfold bind.
    destruct (forEach_returns (Forall P)
                (analyticsStep rnd
                   (filter (fun rt => (hotel_id rt =? hotelId)%Z) table)
                   groupBy startDate))
      with (l := indices numDays) (s := @nil RevenueBucket) (n := n)
      as (acc & n' & E & Hacc); [|constructor|].
    + intros i acc k Hacc. apply analyticsStep_returns; assumption.
    + rewrite E. eexists. eexists. split; [reflexivity|].
      cbn [analytics]. apply sort_by_Forall. exact Hacc.
Qed.

End AnalyticsFacts.

(** The group date of a day under weekly grouping is the Monday of its
    week: a Monday, at most six days back. *)
Lemma week_group_is_monday (d : Date) :
  getDay (groupDateOf "week" d) = 1%Z /\
  (groupDateOf "week" d <= d < groupDateOf "week" d + 7)%Z.
Proof.
  unfold groupDateOf. cbn [String.eqb Ascii.eqb Bool.eqb].
  unfold setDate, getDay.
  destruct ((d + 4) mod 7 =? 0)%Z eqn:E.
  - apply Z.eqb_eq in E. split; [|rewrite E; lia].
    rewrite E. Z.div_mod_to_equations. lia.
  - apply Z.eqb_neq in E. split; Z.div_mod_to_equations; lia.
Qed.

Lemma contributionStep_returns hotelRoomTypes rt t n :
  find (fun r => (id r =? rt_room_type_id rt)%Z) hotelRoomTypes <> None ->
  exists t', contributionStep hotelRoomTypes rt t n = Returned (t', n).
Proof.
  intros F. unfold contributionStep.
  destruct (find _ hotelRoomTypes); [|contradiction].
  eexists. reflexivity.
Qed.

Lemma contributionStep_margins hotelRoomTypes rt t n t' n' :
  contributionStep hotelRoomTypes rt t n = Returned (t', n') ->
  Forall (fun rc => finite (rc_contribution_margin rc) <->
                    ~ revenue (rc_revenue rc) == 0)
    (roomTypesWithContribution t) ->
  Forall (fun rc => finite (rc_contribution_margin rc) <->
                    ~ revenue (rc_revenue rc) == 0)
    (roomTypesWithContribution t').
Proof.
  unfold contributionStep. destruct (find _ hotelRoomTypes); [|discriminate].
  unfold ret. intros E Hall. inversion E; subst.
  cbn [roomTypesWithContribution]. apply Forall_app. split; [exact Hall|].
  constructor; [|constructor]. cbn [rc_contribution_margin rc_revenue].
  rewrite nround_to_finite by reflexivity. apply div_finite.
Qed.

(** What [contributionItem] returns when it returns. *)
Lemma contributionItem_inv hotelRoomTypes item n cb n' :
  contributionItem hotelRoomTypes item n = Returned (cb, n') ->
  exists t,
    cb_total_revenue cb = total_revenue item /\
    cb_contribution_margin cb =
      nround_to 10000 (div (totalContribution t) (total_revenue item)) /\
    cb_room_types cb = roomTypesWithContribution t /\
    Forall (fun rc => finite (rc_contribution_margin rc) <->
                      ~ revenue (rc_revenue rc) == 0)
      (roomTypesWithContribution t).
Proof.
  unfold contributionItem, bind. intros E.
  destruct (forEach _ _ _ n) as [[t k]|e] eqn:F; [|discriminate].
  unfold ret in E. inversion E; subst. exists t.
  cbn. repeat split.
  refine (forEach_preserves
            (fun t => Forall (fun rc => finite (rc_contribution_margin rc) <->
                                        ~ revenue (rc_revenue rc) == 0)
                        (roomTypesWithContribution t))
            (contributionStep hotelRoomTypes) _ _ _ _ _ _ _ F).
  - intros x s k s' k' Hs Es. eapply contributionStep_margins; eauto.
  - constructor.
Qed.

(** [contributionItem] returns when every room type of the entry is one of
    the hotel's. *)
Lemma contributionItem_returns hotelRoomTypes item n :
  (forall rt, In rt (room_types item) ->
     find (fun r => (id r =? rt_room_type_id rt)%Z) hotelRoomTypes <> None) ->
  exists cb n', contributionItem hotelRoomTypes item n = Returned (cb, n').
Proof.
  intros Hfind. unfold contributionItem, bind.
  destruct (forEach_prefix_in (fun _ _ => True)
              (contributionStep hotelRoomTypes) (room_types item))
    with (done := @nil RoomTypeRevenue)
         (s := {| totalVariableCost := 0; totalContribution := 0;
                  roomTypesWithContribution := [] |}) (n := n)
    as (t & n' & E & _); [|exact I|].
  - intros done x s k Hin _.
    destruct (contributionStep_returns hotelRoomTypes x s k (Hfind x Hin))
      as (t' & E').
    exists t', k. auto.
  - rewrite E. eexists. eexists. reflexivity.
Qed.

(** * The claims *)

(** ** Price tiers (C1, C10) *)

(** C1.  For every demand probability in [[0,1]] the multiplier computed by
    [priceDay] is the three-piece linear function of the specification
    (one clause per tier), and it is what prices the day: the reported
    multiplier and the suggested price are computed from it.  It takes the
    values 0.6, 1, 1 and 2 at demand 0, 0.30, 0.70 and 1, and it is
    continuous: between two demands it changes by at most 10/3 of their
    distance, so there is no jump at either tier boundary. *)
Theorem priceMultiplier_three_piece :
  forall demandProbability : Q,
    0 <= demandProbability <= 1 ->
    spec_price_multiplier demandProbability
      (priceMultiplier demandProbability) /\
    (forall rnd roomTypeId roomType date n,
       exists pd n',
         priceDay rnd roomTypeId roomType date demandProbability n =
           Returned (pd, n') /\
         price_multiplier pd =
           round_to 100 (priceMultiplier demandProbability) /\
         suggested_price pd =
           round_to 100
             (base_price roomType * priceMultiplier demandProbability)) /\
    priceMultiplier 0 == 6#10 /\
    priceMultiplier (3#10) == 1 /\
    priceMultiplier (7#10) == 1 /\
    priceMultiplier 1 == 2 /\
    (forall x y, x <= y ->
       0 <= priceMultiplier y - priceMultiplier x <= (10#3) * (y - x)).
Proof.
  intros d _. split; [|split; [|split; [|split; [|split; [|split]]]]].
  - unfold spec_price_multiplier. repeat split; intros; tiers; lra.
  - intros rnd roomTypeId roomType date n.
    destruct (priceDay_returns rnd roomTypeId roomType date d n)
      as (pd & n' & E & _ & Hm & Hs & _).
    exists pd, n'. auto.
  - reflexivity.
  - reflexivity.
  - reflexivity.
  - reflexivity.
  - intros x y H. apply priceMultiplier_increment. exact H.
Qed.

Lemma priceMultiplier_three_piece_witness :
  spec_price_multiplier (1#4) (priceMultiplier (1#4)) /\
  priceMultiplier (1#4) == 28#30.
Proof.
  split.
  - apply (priceMultiplier_three_piece (1#4)). split; discriminate.
  - reflexivity.
Defined.

#[local] Set Warnings "-inexact-float".

(** The four tier points and the clamp bounds of the occupancy, on binary64
    numbers: the values are the same as on exact numbers. *)
Lemma binary64_tier_points :
  (Binary64.priceMultiplier 0 = 0.6 /\
   Binary64.priceMultiplier 0.3 = 1 /\
   Binary64.priceMultiplier 0.7 = 1 /\
   Binary64.priceMultiplier 1 = 2 /\
   0.1 * 100 = 10 /\ 10 / 100 = 0.1 /\
   0.95 * 100 = 95 /\ 95 / 100 = 0.95)%float.
Proof. repeat split; vm_compute; reflexivity. Qed.

(** Binary64 numbers where they part from exact ones.  A product that
    should be a tie falls just below it: an override of -10% on a suggested
    price of 173.35 gives 156.01, where 0.9 * 173.35 = 156.015, and a demand
    of 0.2 + 0.75 * 0.7 is reported as 0.72.  And products overflow: at a
    base price of 1e308 the suggested price is [Infinity], and at a
    variable cost of 1e308 the margin of a room type is [-Infinity]. *)
Lemma binary64_ties_and_overflow :
  (Binary64.Math_round 2.5 = 3 /\ Binary64.Math_round (-2.5) = -2 /\
   173.35 * (1 + (-0.1 + 0 * 0.25)) * 100 = 15601.499999999998 /\
   Binary64.overridePrice 173.35 0 = 156.01 /\
   Binary64.Math_round (Binary64.demandOf 0.75 * 100) / 100 = 0.72 /\
   Binary64.suggestedPrice 1e308 (Binary64.demandOf 0.5) = infinity /\
   Binary64.contributionMarginPercentage infinity 45 = nan /\
   Binary64.roomTypeMargin 199 1 1e308 = neg_infinity)%float.
Proof. repeat split; vm_compute; reflexivity. Qed.

(** C10, as stated, fails for a base price near the top of the range of
    binary64 numbers: at a base price of 1e307 and a demand of 0.55 (the
    draw 0.5) the multiplier is 1 and twice the base price is a finite
    number, but [base_price * priceMultiplier * 100] overflows and the
    suggested price is [Infinity]. *)
Lemma suggested_price_overflow_counterexample :
  ((0 <=? 1e307) = true /\ (2 * 1e307 <? infinity) = true /\
   Binary64.priceMultiplier (Binary64.demandOf 0.5) = 1 /\
   Binary64.suggestedPrice 1e307 (Binary64.demandOf 0.5) = infinity /\
   (Binary64.suggestedPrice 1e307 (Binary64.demandOf 0.5) <=?
      2 * 1e307 + 0.005) = false)%float.
Proof. repeat split; vm_compute; reflexivity. Qed.

(** C10, amended.  The multiplier is non-decreasing in the demand
    probability over [[0,1]] and lies in [[0.6, 2.0]]; so for a room type
    with a base price between 0 and [limit] the suggested price lies
    between 0.6 and 2.0 times the base price, to within a cent. *)
Theorem priceMultiplier_monotone_bounded :
  forall (x y : Q) rnd roomTypeId roomType date n,
    0 <= x -> x <= y -> y <= 1 -> 0 <= base_price roomType <= limit ->
    priceMultiplier x <= priceMultiplier y /\
    6#10 <= priceMultiplier x <= 2 /\
    exists pd n',
      priceDay rnd roomTypeId roomType date x n = Returned (pd, n') /\
      (6#10) * base_price roomType - (1#100) <= suggested_price pd /\
      suggested_price pd <= 2 * base_price roomType + (1#100).
Proof.
  intros x y rnd roomTypeId roomType date n Hx Hxy Hy [Hb _].
  assert (6#10 <= priceMultiplier x <= 2) as Hm by (tiers; lra).
  split; [|split; [exact Hm|]].
  - pose proof (priceMultiplier_increment x y Hxy). lra.
  - destruct (priceDay_returns rnd roomTypeId roomType date x n)
      as (pd & n' & E & _ & _ & Hs & _).
    exists pd, n'. split; [exact E|]. rewrite Hs.
    set (b := base_price roomType) in *. set (m := priceMultiplier x) in *.
    assert ((6#10) * b <= b * m) as L by nra.
    assert (b * m <= 2 * b) as U by nra.
    pose proof (round_to_near (b * m)) as [N1 N2].
    split; lra.
Qed.

Lemma priceMultiplier_monotone_bounded_witness :
  priceMultiplier (1#4) <= priceMultiplier (3#4) /\
  6#10 <= priceMultiplier (1#4) <= 2.
Proof.
  destruct (priceMultiplier_monotone_bounded (1#4) (3#4) half 1
              standardRoom monday 0%nat)
    as (M & B & _); try discriminate.
  - split; discriminate.
  - split; [exact M|exact B].
Defined.

(** ** Occupancy clamp (C2) *)

(** C2.  Whatever the demand probability and whatever the random draws,
    [priceDay] returns a priced day whose [expected_occupancy] lies in
    [[0.10, 0.95]], and so does every priced day of the list
    [generatePricingData] returns. *)
Theorem expected_occupancy_clamped :
  forall rnd roomTypeId roomType date demand n,
    (exists pd n',
       priceDay rnd roomTypeId roomType date demand n = Returned (pd, n') /\
       1#10 <= expected_occupancy pd <= 95#100) /\
    (forall table startDate,
       exists l n',
         generatePricingData rnd table roomTypeId startDate n =
           Returned (l, n') /\
         Forall (fun pd => 1#10 <= expected_occupancy pd <= 95#100) l).
Proof.
  intros rnd roomTypeId roomType date demand n.
  assert (forall rt date demand n pd n',
            priceDay rnd roomTypeId rt date demand n = Returned (pd, n') ->
            1#10 <= expected_occupancy pd <= 95#100) as Hclamp.
  { intros rt dt dm k pd k' E.
    destruct (priceDay_returns rnd roomTypeId rt dt dm k)
      as (pd0 & k0 & E0 & _ & _ & _ & _ & _ & _ & _ & r & Hocc).
    rewrite E0 in E. inversion E; subst pd0 k0. rewrite Hocc.
    destruct (Math_min_max_bounds (1#10) (95#100)
                (dm * ((8#10) + r * (4#10)))) as [L U]; [discriminate|].
    split.
    - apply Qle_trans with (round_to 100 (1#10)); [discriminate|].
      apply round_to_le; [reflexivity|exact L].
    - apply Qle_trans with (round_to 100 (95#100)); [|discriminate].
      apply round_to_le; [reflexivity|exact U]. }
  split.
  - destruct (priceDay_returns rnd roomTypeId roomType date demand n)
      as (pd & n' & E & _).
    exists pd, n'. split; [exact E|]. eapply Hclamp. exact E.
  - intros table startDate.
    destruct (find (fun rt => (id rt =? roomTypeId)%Z) table) as [rt|] eqn:F.
    + destruct (generatePricingData_returns rnd
                  (fun pd => 1#10 <= expected_occupancy pd <= 95#100)
                  table roomTypeId rt startDate n F (Hclamp rt))
        as (l & n' & E & _ & Hall).
      exists l, n'. auto.
    + exists [], n. unfold generatePricingData. rewrite F.
      split; [reflexivity|constructor].
Qed.

(** ** Contribution margin (C3) *)




(** On binary64 numbers the difference itself is inexact, also for a cost
    in whole cents: a final price of 155.30 less the cost of 45 is
    110.30000000000001, while the reported margin, 11030 / 100, is 110.3. *)
Lemma binary64_margin_not_exact :
  (Binary64.contributionMargin 155.3 45 = 110.30000000000001 /\
   (Binary64.contributionMargin 155.3 45 =? 110.3) = false /\
   11030 / 100 = 110.3)%float.
Proof. repeat split; vm_compute; reflexivity. Qed.

(** ** The schedule (C4) *)

(** C4.  Asked for 7 days from Monday 2025-06-02 for hotel 1,
    [getPricingRecommendations] answers [days = 7] and yet returns 30 priced
    days for each of the three room types: the days 2025-06-02 to
    2025-07-01, consecutive and in order.  (By
    [getPricingRecommendations_thirty_days] the same holds for every
    requested number of days.) *)
Theorem pricing_recommendations_days_ignored :
  exists r n',
    getPricingRecommendations half roomTypes 1 monday 7 None 0%nat =
      Returned (r, n') /\
    days r = 7%Z /\
    map (fun p => List.length (prices (snd p))) (recommendations r) =
      [30; 30; 30]%nat /\
    Forall (fun p => map date (prices (snd p)) =
                     map (fun k => (monday + k)%Z) (indices 30))
      (recommendations r).
Proof.
  eexists. eexists. split; [vm_compute; reflexivity|].
  split; [reflexivity|]. split; [reflexivity|].
  repeat constructor.
Qed.

(** ** Buckets (C5) *)

(** C5.  Over the week from Monday 2025-06-02, grouped by week, hotel 1
    gets a single entry, dated that Monday, and its totals are those of the
    Monday alone: revenue 16951.20 and 56 occupied rooms, after 6 random
    draws.  Grouped by day the same range gets seven entries (42 draws),
    all of that week, and the sums over them, which the specification asks
    of the week's bucket, are 118658.40 and 392. *)
Theorem weekly_bucket_keeps_first_day_only :
  exists weekly daily n1 n2 b,
    generateRevenueAnalytics half roomTypes 1 monday 7 "week" 0%nat =
      Returned (weekly, n1) /\
    generateRevenueAnalytics half roomTypes 1 monday 7 "day" 0%nat =
      Returned (daily, n2) /\
    analytics weekly = [b] /\
    toISODate (rb_date b) = (2025, 6, 2)%Z /\
    map (fun d => toISODate (groupDateOf "week" (rb_date d)))
      (analytics daily) = repeat (2025, 6, 2)%Z 7 /\
    total_revenue b == 1695120#100 /\
    spec_bucket_sum "week" (rb_date b) total_revenue (analytics daily) ==
      11865840#100 /\
    total_occupied b == 56 /\
    spec_bucket_sum "week" (rb_date b) total_occupied (analytics daily) ==
      392 /\
    (n1 = 6 /\ n2 = 42)%nat.
Proof.
  eexists. eexists. eexists. eexists. eexists.
  split; [vm_compute; reflexivity|].
  split; [vm_compute; reflexivity|].
  split; [reflexivity|].
  repeat split; vm_compute; reflexivity.
Qed.

(** The variable cost of the same week: 3420.00 reported, the Monday's,
    against 23940.00 summed over the seven days. *)
Lemma weekly_variable_cost_keeps_first_day_only :
  exists weekly daily n1 n2 b,
    getContributionMarginAnalytics half roomTypes 1 monday
      (Some (monday + 7)%Z) "week" 0%nat = Returned (weekly, n1) /\
    getContributionMarginAnalytics half roomTypes 1 monday
      (Some (monday + 7)%Z) "day" 0%nat = Returned (daily, n2) /\
    ca_analytics weekly = [b] /\
    total_variable_cost b == 3420 /\
    spec_bucket_variable_cost "week" (cb_date b) (ca_analytics daily) ==
      23940.
Proof.
  eexists. eexists. eexists. eexists. eexists.
  split; [vm_compute; reflexivity|].
  split; [vm_compute; reflexivity|].
  split; [reflexivity|].
  split; vm_compute; reflexivity.
Qed.

(** ** Finite outputs (C7) *)


(** The unguarded divisions on binary64 numbers, at a final price of 0 and
    at a revenue of 0. *)
Lemma binary64_unguarded_divisions :
  (Binary64.contributionMarginPercentage 0 45 = neg_infinity /\
   Binary64.contributionMarginPercentage 0 0 = nan /\
   Binary64.overallContributionMargin 0 0 = nan /\
   Binary64.overallContributionMargin (-45) 0 = neg_infinity)%float.
Proof. repeat split; vm_compute; reflexivity. Qed.

(** The amended claim is proved further down, after the lemmas on the
    analytics that it uses. *)

(** ** Zero revenue (C8) *)

(** C8, as stated, fails: for a hotel whose only room type has no rooms to
    sell, the day's entry has a total revenue of 0.00 and its contribution
    margin is [NaN], not zero. *)
Lemma zero_revenue_margin_counterexample :
  exists r n' cb,
    getContributionMarginAnalytics half [closedWing] 1 monday
      (Some (monday + 1)%Z) "day" 0%nat = Returned (r, n') /\
    ca_analytics r = [cb] /\
    cb_total_revenue cb == 0 /\
    cb_contribution_margin cb = NaN /\
    ~ num_eq (cb_contribution_margin cb) (Fin 0).
Proof.
  eexists. eexists. eexists.
  split; [vm_compute; reflexivity|].
  split; [reflexivity|]. split; [reflexivity|]. split; [reflexivity|].
  cbn. tauto.
Qed.

(** C8, amended.  For every analytics entry whose total revenue is 0 (and
    whose room types are the hotel's), [contributionItem] returns without
    an error, but the division by the revenue is not guarded: the reported
    contribution margin is [NaN], [Infinity] or [-Infinity], never zero or
    any other finite number. *)
Theorem zero_revenue_margin_not_recovered :
  forall hotelRoomTypes item n,
    total_revenue item == 0 ->
    (forall rt, In rt (room_types item) ->
       find (fun r => (id r =? rt_room_type_id rt)%Z) hotelRoomTypes <>
         None) ->
    exists cb n',
      contributionItem hotelRoomTypes item n = Returned (cb, n') /\
      cb_total_revenue cb == 0 /\
      (cb_contribution_margin cb = NaN \/
       cb_contribution_margin cb = PInf \/
       cb_contribution_margin cb = NInf) /\
      ~ finite (cb_contribution_margin cb) /\
      ~ num_eq (cb_contribution_margin cb) (Fin 0).
Proof.
  intros hotelRoomTypes item n Hzero Hfind.
  destruct (contributionItem_returns hotelRoomTypes item n Hfind)
    as (cb & n' & E).
  exists cb, n'. split; [exact E|].
  destruct (contributionItem_inv _ _ _ _ _ E) as (t & Hr & Hm & _).
  rewrite Hr, Hm. split; [exact Hzero|].
  destruct (div_by_zero (totalContribution t) (total_revenue item) Hzero)
    as [D|[D|D]]; rewrite D; cbn; tauto.
Qed.

Lemma zero_revenue_margin_not_recovered_witness :
  exists cb n',
    contributionItem [closedWing] vacantBucket 0%nat = Returned (cb, n') /\
    ~ finite (cb_contribution_margin cb).
Proof.
  destruct (zero_revenue_margin_not_recovered [closedWing] vacantBucket 0%nat)
    as (cb & n' & E & _ & _ & H & _).
  - reflexivity.
  - intros rt [<-|[]]. discriminate.
  - exists cb, n'. split; [exact E|exact H].
Defined.

(** ** A hotel without room types (C9) *)

(** C9, as stated, fails: the table has no room type for hotel 99, and
    [generateRevenueAnalytics] does not throw for it: it returns. *)
Lemma empty_hotel_returns_counterexample :
  filter (fun rt => (hotel_id rt =? 99)%Z) roomTypes = [] /\
  (exists r n',
     generateRevenueAnalytics half roomTypes 99 monday 7 "day" 0%nat =
       Returned (r, n') /\
     analytics r = []) /\
  ~ throws (generateRevenueAnalytics half roomTypes 99 monday 7 "day" 0%nat).
Proof.
  split; [reflexivity|]. split.
  - eexists. eexists. split; reflexivity.
  - intros [e He]. vm_compute in He. discriminate.
Qed.

(** C9, amended.  For a hotel without room types the analytics do not
    fail: [generateRevenueAnalytics] returns an object with an empty
    [analytics] list and nothing else, and so does
    [getContributionMarginAnalytics], without a random draw.  Only
    [getPricingRecommendations] fails on it, with the error "No room types
    found for the specified criteria". *)
Theorem empty_hotel_analytics_empty_pricing_throws :
  forall rnd table hotelId startDate numDays endDate groupBy n,
    filter (fun rt => (hotel_id rt =? hotelId)%Z) table = [] ->
    generateRevenueAnalytics rnd table hotelId startDate numDays groupBy n =
      Returned ({| ra_hotel_id := None; start_date := None; end_date := None;
                   group_by := None; analytics := [] |}, n) /\
    getContributionMarginAnalytics rnd table hotelId startDate endDate groupBy
      n =
      Returned ({| ca_hotel_id := None; ca_start_date := None;
                   ca_end_date := None; ca_group_by := None;
                   ca_analytics := [] |}, n) /\
    getPricingRecommendations rnd table hotelId startDate numDays None n =
      Thrown (Error "No room types found for the specified criteria").
Proof.
  intros rnd table hotelId startDate numDays endDate groupBy n H.
  assert (forall d,
            generateRevenueAnalytics rnd table hotelId startDate d groupBy n =
            Returned ({| ra_hotel_id := None; start_date := None;
                         end_date := None; group_by := None;
                         analytics := [] |}, n)) as G.
  { intros d. unfold generateRevenueAnalytics. rewrite H. reflexivity. }
  split; [apply G|]. split.
  - unfold getContributionMarginAnalytics, getRevenueAnalytics, bind.
    rewrite G. reflexivity.
  - unfold getPricingRecommendations. cbn [truthy]. rewrite H. reflexivity.
Qed.

Lemma empty_hotel_analytics_empty_pricing_throws_witness :
  getPricingRecommendations half roomTypes 99 monday 7 None 0%nat =
    Thrown (Error "No room types found for the specified criteria") /\
  generateRevenueAnalytics half roomTypes 99 monday 7 "day" 0%nat =
    Returned ({| ra_hotel_id := None; start_date := None; end_date := None;
                 group_by := None; analytics := [] |}, 0%nat).
Proof.
  destruct (empty_hotel_analytics_empty_pricing_throws half roomTypes 99
              monday 7 None "day" 0%nat eq_refl) as (A & _ & B).
  split; [exact B|exact A].
Defined.

(** * Further properties *)

(** ** Dates *)

Lemma all_from_spec f n : forall z k,
  all_from f n z = true -> (z <= k < z + Z.of_nat n)%Z -> f k = true.
Proof.
  induction n as [|n IH]; intros z k H Hk.
  - lia.
  - cbn [all_from] in H. apply andb_true_iff in H. destruct H as [H0 H1].
    destruct (Z.eq_dec k z) as [->|Hne]; [exact H0|].
    apply (IH (z + 1)%Z k H1). lia.
Qed.

(** Every day of a 400-year era passes the check, by evaluation. *)
Lemma era_check_all : all_from era_check (Z.to_nat 146097) 0 = true.
Proof. vm_compute. reflexivity. Qed.

(** The facts of [era_check], for the days of an era. *)
Lemma era_facts doe :
  (0 <= doe < 146097)%Z ->
  match era_civil doe with
  | (yoe, mp, dd) =>
      (0 <= yoe <= 399 /\ 0 <= mp <= 11 /\ 1 <= dd <= 31 /\
       yoe * 365 + yoe / 4 - yoe / 100 + ((153 * mp + 2) / 5 + dd - 1) = doe /\
       era_civil (doe - dd + 1) = (yoe, mp, 1) /\ 0 <= doe - dd + 1)%Z
  end.
Proof.
  intros H.
  pose proof (all_from_spec era_check (Z.to_nat 146097) 0 doe era_check_all) as C.
  assert (era_check doe = true) as E by (apply C; lia).
  unfold era_check in E.
  destruct (era_civil doe) as [[yoe mp] dd].
  destruct (era_civil (doe - dd + 1)) as [[yoe' mp'] dd'].
  repeat match goal with
         | H : (_ && _)%bool = true |- _ =>
             apply andb_true_iff in H; destruct H
         | H : (_ <=? _)%Z = true |- _ => apply Z.leb_le in H
         | H : (_ =? _)%Z = true |- _ => apply Z.eqb_eq in H
         end.
  subst yoe' mp' dd'. repeat split; lia.
Qed.

(** [civil_from_days] by era and day of the era. *)
Lemma civil_from_days_era d :
  civil_from_days d =
  match era_civil ((d + 719468) mod 146097) with
  | (yoe, mp, dd) =>
      let m := (if mp <? 10 then mp + 3 else mp - 9)%Z in
      ((yoe + (d + 719468) / 146097 * 400 + (if m <=? 2 then 1 else 0))%Z,
       m, dd)
  end.
Proof.
  unfold civil_from_days, era_civil. cbv zeta.
  replace (d + 719468 - (d + 719468) / 146097 * 146097)%Z
    with ((d + 719468) mod 146097)%Z; [reflexivity|].
  rewrite Z.mod_eq by lia. lia.
Qed.

(** The day number of the civil date of a day is that day, and the civil
    date has a month from 1 to 12 and a day from 1 to 31. *)
Lemma days_from_civil_civil_from_days d :
  match civil_from_days d with
  | (y, m, dd) => days_from_civil y m dd = d /\ (1 <= m <= 12)%Z /\ (1 <= dd <= 31)%Z
  end.
Proof.
  rewrite civil_from_days_era.
  pose proof (Z.mod_pos_bound (d + 719468) 146097 eq_refl) as Hdoe.
  pose proof (era_facts _ Hdoe) as F.
  pose proof (Z.div_mod (d + 719468) 146097) as DM.
  set (doe := ((d + 719468) mod 146097)%Z) in *.
  set (era := ((d + 719468) / 146097)%Z) in *.
  destruct (era_civil doe) as [[yoe mp] dd].
  destruct F as (Hy & Hm & Hd & Heq & _ & _).
  cbv zeta. unfold days_from_civil.
  destruct (mp <? 10)%Z eqn:E10;
    [apply Z.ltb_lt in E10 | apply Z.ltb_ge in E10].
  - assert ((mp + 3 <=? 2)%Z = false) as -> by (apply Z.leb_gt; lia).
    assert ((2 <? mp + 3)%Z = true) as -> by (apply Z.ltb_lt; lia).
    cbv zeta.
    replace ((yoe + era * 400 + 0) / 400)%Z with era
      by (apply Z.div_unique with (r := yoe); lia).
    replace (mp + 3 - 3)%Z with mp by lia.
    split; [|lia].
    replace (yoe + era * 400 + 0 - era * 400)%Z with yoe by lia. lia.
  - assert ((mp - 9 <=? 2)%Z = true) as -> by (apply Z.leb_le; lia).
    assert ((2 <? mp - 9)%Z = false) as -> by (apply Z.ltb_ge; lia).
    cbv zeta.
    replace ((yoe + era * 400 + 1 - 1) / 400)%Z with era
      by (apply Z.div_unique with (r := yoe); lia).
    replace (mp - 9 + 9)%Z with mp by lia.
    split; [|lia].
    replace (yoe + era * 400 + 1 - 1 - era * 400)%Z with yoe by lia. lia.
Qed.

(** Different days are rendered differently. *)
Lemma toISODate_injective a b : toISODate a = toISODate b -> a = b.
Proof.
  unfold toISODate. intros H.
  pose proof (days_from_civil_civil_from_days a) as Ha.
  pose proof (days_from_civil_civil_from_days b) as Hb.
  rewrite H in Ha. destruct (civil_from_days b) as [[y m] dd].
  destruct Ha as [Ha _], Hb as [Hb _]. congruence.
Qed.

Lemma sameISODate_eq a b : sameISODate a b = true <-> a = b.
Proof.
  unfold sameISODate. split.
  - intros H. apply toISODate_injective.
    destruct (toISODate a) as [[y m] dd], (toISODate b) as [[y' m'] dd'].
    apply andb_true_iff in H. destruct H as [H H3].
    apply andb_true_iff in H. destruct H as [H1 H2].
    apply Z.eqb_eq in H1, H2, H3. congruence.
  - intros ->. destruct (toISODate b) as [[y m] dd].
    rewrite !Z.eqb_refl. reflexivity.
Qed.


(** ** Sorting and first occurrences *)

Lemma map_insert_by {A : Type} (key : A -> Z) x l :
  map key (insert_by key x l) = insert_by (fun z => z) (key x) (map key l).
Proof.
  induction l as [|y rest IH]; cbn [insert_by map]; [reflexivity|].
  destruct (key x <=? key y)%Z; cbn [map]; [reflexivity|].
  rewrite IH. reflexivity.
Qed.

Lemma map_sort_by {A : Type} (key : A -> Z) l :
  map key (sort_by key l) = sort_by (fun z => z) (map key l).
Proof.
  induction l as [|y rest IH]; [reflexivity|].
  cbn [sort_by fold_right map]. rewrite map_insert_by. f_equal. exact IH.
Qed.

Lemma insert_by_Permutation {A : Type} (key : A -> Z) x l :
  Permutation (x :: l) (insert_by key x l).
Proof.
  induction l as [|y rest IH]; cbn [insert_by]; [reflexivity|].
  destruct (key x <=? key y)%Z; [reflexivity|].
  rewrite perm_swap. apply perm_skip. exact IH.
Qed.

(** [sort] rearranges the list it sorts. *)
Lemma sort_by_Permutation {A : Type} (key : A -> Z) l :
  Permutation l (sort_by key l).
Proof.
  induction l as [|y rest IH]; [reflexivity|].
  cbn [sort_by fold_right]. rewrite <- insert_by_Permutation.
  apply perm_skip. exact IH.
Qed.

Lemma insert_by_sorted x l :
  StronglySorted Z.le l -> StronglySorted Z.le (insert_by (fun z => z) x l).
Proof.
  intros H. induction H as [|y rest Hrest IH Hy]; cbn [insert_by].
  - constructor; constructor.
  - destruct (x <=? y)%Z eqn:E.
    + apply Z.leb_le in E. constructor.
      * constructor; assumption.
      * constructor; [exact E|].
        eapply Forall_impl; [|exact Hy]. intros a Ha. lia.
    + apply Z.leb_gt in E. constructor; [exact IH|].
      eapply Permutation_Forall; [apply insert_by_Permutation|].
      constructor; [lia|exact Hy].
Qed.

Lemma sort_by_sorted l : StronglySorted Z.le (sort_by (fun z => z) l).
Proof.
  induction l as [|y rest IH]; [constructor|].
  cbn [sort_by fold_right]. apply insert_by_sorted. exact IH.
Qed.

(** A list in ascending order is left as it is. *)
Lemma sort_by_of_sorted l :
  StronglySorted Z.le l -> sort_by (fun z => z) l = l.
Proof.
  intros H. induction H as [|y rest Hrest IH Hy]; [reflexivity|].
  cbn [sort_by fold_right]. fold (sort_by (fun z : Z => z) rest). rewrite IH.
  destruct rest as [|y' rest']; [reflexivity|].
  cbn [insert_by]. inversion Hy; subst.
  destruct (y <=? y')%Z eqn:E; [reflexivity|]. apply Z.leb_gt in E. lia.
Qed.

Lemma sorted_NoDup_lt l :
  StronglySorted Z.le l -> NoDup l -> StronglySorted Z.lt l.
Proof.
  intros H. induction H as [|y rest Hrest IH Hy]; intros Hnd.
  - constructor.
  - inversion Hnd; subst. constructor; [apply IH; assumption|].
    apply Forall_forall. intros a Ha.
    pose proof (proj1 (Forall_forall _ _) Hy a Ha) as L.
    assert (a <> y) by (intros ->; contradiction). lia.
Qed.

Lemma existsb_eqb_In g l : existsb (Z.eqb g) l = true <-> In g l.
Proof.
  rewrite existsb_exists. split.
  - intros (x & Hx & E). apply Z.eqb_eq in E. subst. exact Hx.
  - intros H. exists g. split; [exact H|apply Z.eqb_refl].
Qed.

Lemma push_new_In seen g x : In x (push_new seen g) <-> In x seen \/ x = g.
Proof.
  unfold push_new. destruct (existsb (Z.eqb g) seen) eqn:E.
  - apply existsb_eqb_In in E. split; [auto|]. intros [H| ->]; assumption.
  - rewrite in_app_iff. cbn. intuition.
Qed.

Lemma push_new_NoDup seen g : NoDup seen -> NoDup (push_new seen g).
Proof.
  intros H. unfold push_new. destruct (existsb (Z.eqb g) seen) eqn:E.
  - exact H.
  - apply NoDup_app; [exact H|constructor; [intros []|constructor]|].
    intros x Hx [Heq|[]]. subst x.
    assert (existsb (Z.eqb g) seen = true) by (apply existsb_eqb_In; exact Hx).
    congruence.
Qed.

Lemma fold_push_new_In l : forall seen x,
  In x (fold_left push_new l seen) <-> In x seen \/ In x l.
Proof.
  induction l as [|g rest IH]; intros seen x; cbn [fold_left].
  - cbn. tauto.
  - rewrite IH, push_new_In. cbn. intuition.
Qed.

Lemma fold_push_new_NoDup l : forall seen,
  NoDup seen -> NoDup (fold_left push_new l seen).
Proof.
  induction l as [|g rest IH]; intros seen H; cbn [fold_left]; [exact H|].
  apply IH. apply push_new_NoDup. exact H.
Qed.

Lemma fold_push_new_fresh l : forall seen,
  NoDup (seen ++ l) -> fold_left push_new l seen = seen ++ l.
Proof.
  induction l as [|g rest IH]; intros seen H; cbn [fold_left].
  - rewrite app_nil_r. reflexivity.
  - assert (push_new seen g = seen ++ [g]) as ->.
    { unfold push_new. destruct (existsb (Z.eqb g) seen) eqn:E; [|reflexivity].
      apply existsb_eqb_In in E. apply NoDup_remove_2 in H.
      exfalso. apply H. apply in_or_app. left. exact E. }
    rewrite IH; rewrite <- app_assoc; [reflexivity|exact H].
Qed.

Lemma firsts_In l x : In x (firsts l) <-> In x l.
Proof. unfold firsts. rewrite fold_push_new_In. cbn. tauto. Qed.

Lemma firsts_NoDup l : NoDup (firsts l).
Proof. apply fold_push_new_NoDup. constructor. Qed.

Lemma firsts_of_NoDup l : NoDup l -> firsts l = l.
Proof. intros H. apply (fold_push_new_fresh l []). exact H. Qed.

Lemma firsts_snoc l g : firsts (l ++ [g]) = push_new (firsts l) g.
Proof. unfold firsts. rewrite fold_left_app. reflexivity. Qed.

(** ** More on loops *)

Section MoreLoopFacts.
Context {A S : Type}.

(** An invariant of the elements done so far and the loop variables that
    every returning run of the body extends holds after a returning loop. *)
Lemma forEach_prefix_preserves (P : list A -> S -> Prop)
  (body : A -> S -> JS S) (l : list A) :
  (forall done x s n s' n', In x l -> P done s ->
     body x s n = Returned (s', n') -> P (done ++ [x]) s') ->
  forall done s n s' n', P done s ->
    forEach l body s n = Returned (s', n') -> P (done ++ l) s'.
Proof.
  induction l as [|x rest IH]; intros Hbody done s n s' n' Hs E.
  - cbn in E. unfold ret in E. inversion E; subst. rewrite app_nil_r. exact Hs.
  - cbn [forEach] in E. unfold bind in E.
    destruct (body x s n) as [[s1 n1]|e] eqn:E1; [|discriminate].
    rewrite (app_assoc done [x] rest : done ++ x :: rest = (done ++ [x]) ++ rest).
    eapply IH; [|eapply Hbody; [left; reflexivity|exact Hs|exact E1]|exact E].
    intros d y t k t' k' Hy. apply Hbody. right. exact Hy.
Qed.

(** The draws of a loop, counted against a measure of the loop variables:
    if each run of the body draws [c] times per unit the measure grows, so
    does the loop. *)
Lemma forEach_draws (m : S -> nat) (c : nat) (body : A -> S -> JS S) :
  (forall x s n s' n', body x s n = Returned (s', n') ->
     (n' + c * m s = n + c * m s')%nat) ->
  forall l s n s' n', forEach l body s n = Returned (s', n') ->
    (n' + c * m s = n + c * m s')%nat.
Proof.
  intros Hbody l. induction l as [|x rest IH]; intros s n s' n' E.
  - cbn in E. unfold ret in E. inversion E; subst. reflexivity.
  - cbn [forEach] in E. unfold bind in E.
    destruct (body x s n) as [[s1 n1]|e] eqn:E1; [|discriminate].
    pose proof (Hbody _ _ _ _ _ E1). pose proof (IH _ _ _ _ E). lia.
Qed.

End MoreLoopFacts.

(** [mapJS] over a callback that always returns and draws nothing returns
    the mapped list. *)
Lemma mapJS_returns {A B : Type} (f : A -> JS B) (l : list A) n :
  (forall x, In x l -> exists y, f x n = Returned (y, n)) ->
  exists ys, mapJS f l n = Returned (ys, n) /\
             Forall2 (fun x y => f x n = Returned (y, n)) l ys.
Proof.
  induction l as [|x rest IH]; intros H.
  - exists []. split; [reflexivity|constructor].
  - destruct (H x (or_introl eq_refl)) as [y Ey].
    destruct (IH (fun z Hz => H z (or_intror Hz))) as (ys & Eys & F).
    exists (y :: ys). split; [|constructor; assumption].
    cbn [mapJS]. unfold bind. rewrite Ey, Eys. reflexivity.
Qed.

(** ** The figures of one analytics entry *)

Section EntryFacts.
Variable rnd : nat -> Q.

(** One run of [revenueStep], spelled out: two draws. *)
Lemma revenueStep_run roomType t n :
  revenueStep rnd roomType t n =
  Returned
    (let occupancy := (4#10) + rnd n * (5#10) in
     let occupiedRooms :=
       Math_round (inject_Z (inventory_count roomType) * occupancy) in
     let revenue :=
       occupiedRooms * (base_price roomType * ((9#10) + rnd (S n) * (3#10))) in
     {| totalRevenue := totalRevenue t + revenue;
        totalRooms := (totalRooms t + inventory_count roomType)%Z;
        totalOccupied := totalOccupied t + occupiedRooms;
        roomTypeBreakdown :=
          obj_set (id roomType)
            {| rt_room_type_id := id roomType;
               rt_room_type_name := name roomType;
               revenue := round_to 100 revenue;
               rooms := inventory_count roomType;
               occupied := occupiedRooms;
               rt_occupancy_rate := round_to 100 occupancy |}
            (roomTypeBreakdown t) |}, S (S n)).
Proof. reflexivity. Qed.

Lemma obj_set_keys_In {V : Type} k (v : V) o x :
  In x (map fst (obj_set k v o)) <-> x = k \/ In x (map fst o).
Proof.
  induction o as [|[k' v'] rest IH]; cbn [obj_set map fst].
  - cbn. intuition.
  - destruct (k =? k')%Z eqn:E; [apply Z.eqb_eq in E; subst k'|].
    + cbn. intuition.
    + destruct (_ && _).
      * cbn. intuition.
      * cbn [map fst In]. rewrite IH. intuition.
Qed.

(** Writing a key keeps the keys in the order of enumeration. *)
Lemma obj_set_keys_sorted {V : Type} k (v : V) o :
  StronglySorted key_before (map fst o) ->
  StronglySorted key_before (map fst (obj_set k v o)) /\
  (forall x, In x (map fst (obj_set k v o)) <-> x = k \/ In x (map fst o)).
Proof.
  intros H. split; [|intros x; apply obj_set_keys_In].
  induction o as [|[k' v'] rest IH]; cbn [obj_set map fst].
  - repeat constructor.
  - cbn [map fst] in H. inversion H as [|? ? Hrest Hk']; subst.
    destruct (k =? k')%Z eqn:E1;
      [apply Z.eqb_eq in E1; subst k'|apply Z.eqb_neq in E1].
    { cbn [map fst]. constructor; assumption. }
    destruct (is_array_index k && (negb (is_array_index k') || (k <? k')%Z))
      eqn:E2.
    + apply andb_true_iff in E2. destruct E2 as [Ik E2].
      apply orb_true_iff in E2.
      cbn [map fst]. constructor; [exact H|].
      constructor.
      * split; [exact E1|]. intros Ik'. split; [exact Ik|].
        destruct E2 as [E2|E2]; [rewrite Ik' in E2; discriminate|].
        apply Z.ltb_lt. exact E2.
      * apply Forall_forall. intros y Hy.
        destruct (proj1 (Forall_forall _ _) Hk' y Hy) as [Hne Hidx].
        split.
        -- intros ->. destruct (is_array_index y) eqn:Iy; [|discriminate].
           destruct (Hidx eq_refl) as [Ik' Hlt].
           destruct E2 as [E2|E2]; [rewrite Ik' in E2; discriminate|].
           apply Z.ltb_lt in E2. lia.
        -- intros Iy. split; [exact Ik|].
           destruct (Hidx Iy) as [Ik' Hlt].
           destruct E2 as [E2|E2]; [rewrite Ik' in E2; discriminate|].
           apply Z.ltb_lt in E2. lia.
    + cbn [map fst]. constructor; [apply IH; exact Hrest|].
      apply Forall_forall. intros y Hy. apply obj_set_keys_In in Hy.
      destruct Hy as [->|Hy];
        [|exact (proj1 (Forall_forall _ _) Hk' y Hy)].
      split; [congruence|]. intros Ik. rewrite Ik in E2. cbn [andb] in E2.
      apply orb_false_iff in E2. destruct E2 as [E2 E3].
      apply negb_false_iff in E2. apply Z.ltb_ge in E3.
      split; [exact E2|lia].
Qed.

(** Keys in the order of enumeration are distinct, and ascending when all
    of them are array indices. *)
Lemma key_before_NoDup l : StronglySorted key_before l -> NoDup l.
Proof.
  intros H. induction H as [|y rest Hrest IH Hy]; constructor; [|exact IH].
  intros Hin. destruct (proj1 (Forall_forall _ _) Hy y Hin) as [Hne _].
  congruence.
Qed.

Lemma key_before_ascending l :
  StronglySorted key_before l ->
  Forall (fun k => is_array_index k = true) l ->
  StronglySorted Z.lt l.
Proof.
  intros H Hidx. induction H as [|y rest Hrest IH Hy]; [constructor|].
  inversion Hidx as [|? ? Iy Irest]; subst.
  constructor; [apply IH; exact Irest|].
  apply Forall_forall. intros x Hx.
  destruct (proj1 (Forall_forall _ _) Hy x Hx) as [_ Hlt].
  apply Hlt. exact (proj1 (Forall_forall _ _) Irest x Hx).
Qed.

(** Keys that are not array indices keep the order in which they were
    written, after the array indices; writing a key again keeps its
    place. *)
Lemma obj_set_enumeration_examples :
  map fst (obj_set 2 tt (obj_set (-1) tt (obj_set 3 tt []))) = [2; 3; -1]%Z /\
  map fst (obj_set 7 tt (obj_set 4294967296 tt (obj_set 5000000000 tt []))) =
    [7; 5000000000; 4294967296]%Z /\
  obj_set 3 "c"%string
    (obj_set 2 "b"%string (obj_set (-1) "a"%string (obj_set 3 "z"%string
       []))) =
    [(2, "b"); (3, "c"); (-1, "a")]%Z%string.
Proof. repeat split. Qed.

Lemma obj_set_In {V : Type} k (v : V) o p :
  In p (obj_set k v o) -> p = (k, v) \/ In p o.
Proof.
  induction o as [|[k' v'] rest IH]; cbn [obj_set].
  - cbn. intuition.
  - destruct (k =? k')%Z; [cbn; intuition|].
    destruct (_ && _); [cbn; intuition|].
    cbn [In]. intros [H|H]; [auto|]. apply IH in H. intuition.
Qed.

(** What the loop over the room types leaves in the totals: four draws per
    pair of room types, the rooms summed, and a breakdown in the order of
    enumeration of its keys with one entry for each identifier. *)
Lemma totals_of_forEach hotelRoomTypes n t n' :
  forEach hotelRoomTypes (revenueStep rnd) emptyTotals n = Returned (t, n') ->
  n' = (n + 2 * List.length hotelRoomTypes)%nat /\
  totalRooms t = sumZ (map inventory_count hotelRoomTypes) /\
  StronglySorted key_before (map fst (roomTypeBreakdown t)) /\
  (forall k, In k (map fst (roomTypeBreakdown t)) <->
             In k (map id hotelRoomTypes)) /\
  Forall (entry_of hotelRoomTypes) (roomTypeBreakdown t).
Proof.
  intros E. split.
  - assert (forall l s k s' k',
              forEach l (revenueStep rnd) s k = Returned (s', k') ->
              k' = (k + 2 * List.length l)%nat) as C.
    { induction l as [|x rest IH]; intros s k s' k' R.
      - cbn in R. unfold ret in R. inversion R. cbn. lia.
      - cbn [forEach] in R. unfold bind in R. rewrite revenueStep_run in R.
        apply IH in R. cbn [List.length]. lia. }
    apply (C _ _ _ _ _ E).
  - pose proof (forEach_prefix_preserves
                  (fun done t =>
                     totalRooms t = sumZ (map inventory_count done) /\
                     StronglySorted key_before
                       (map fst (roomTypeBreakdown t)) /\
                     (forall k, In k (map fst (roomTypeBreakdown t)) <->
                                In k (map id done)) /\
                     Forall (fun p =>
                               rt_room_type_id (snd p) = fst p /\
                               (exists z, occupied (snd p) = inject_Z z) /\
                               (exists c, revenue (snd p) = inject_Z c / 100) /\
                               exists roomType,
                                 In roomType done /\ id roomType = fst p /\
                                 rt_room_type_name (snd p) = name roomType /\
                                 rooms (snd p) = inventory_count roomType)
                       (roomTypeBreakdown t))
                  (revenueStep rnd) hotelRoomTypes) as L.
    specialize (L) with (done := @nil RoomType) (s := emptyTotals) (n := n)
                        (s' := t) (n' := n').
    cbn [app] in L. apply L; [| |exact E].
    + clear. intros done x s n s' n' _ (Hr & Hs & Hk & Hall) R.
      rewrite revenueStep_run in R. cbv zeta in R. inversion R; subst s' n'.
      clear R. cbn [totalRooms roomTypeBreakdown].
      destruct (obj_set_keys_sorted (id x)
                  {| rt_room_type_id := id x;
                     rt_room_type_name := name x;
                     revenue :=
                       round_to 100
                         (Math_round
                            (inject_Z (inventory_count x) *
                             ((4#10) + rnd n * (5#10))) *
                          (base_price x * ((9#10) + rnd (S n) * (3#10))));
                     rooms := inventory_count x;
                     occupied :=
                       Math_round
                         (inject_Z (inventory_count x) *
                          ((4#10) + rnd n * (5#10)));
                     rt_occupancy_rate :=
                       round_to 100 ((4#10) + rnd n * (5#10)) |}
                  (roomTypeBreakdown s) Hs) as [Ks Ki].
      split; [|split; [exact Ks|split]].
      * rewrite map_app. unfold sumZ. rewrite fold_right_app. cbn.
        fold (sumZ (map inventory_count done)).
        assert (forall l a, fold_right Z.add a l = (sumZ l + a)%Z) as F.
        { induction l as [|y r IHl]; intros a; cbn; [lia|].
          rewrite IHl. fold (sumZ r). lia. }
        rewrite F. lia.
      * intros k. rewrite Ki, Hk, map_app, in_app_iff. cbn. intuition.
      * apply Forall_forall. intros p Hp. apply obj_set_In in Hp.
        destruct Hp as [->|Hp].
        -- cbn [fst snd rt_room_type_id occupied revenue rt_room_type_name rooms].
           split; [reflexivity|]. split; [eexists; reflexivity|].
           split; [apply round_to_is_cents|].
           exists x. rewrite in_app_iff. cbn. auto.
        -- pose proof (proj1 (Forall_forall _ _) Hall p Hp)
             as (H1 & H2 & H3 & rt & Hin & H4).
           split; [exact H1|]. split; [exact H2|]. split; [exact H3|].
           exists rt. rewrite in_app_iff. auto.
    + cbn. split; [reflexivity|]. split; [constructor|].
      split; [tauto|constructor].
Qed.

End EntryFacts.






Section EntryBounds.
Variable rnd : nat -> Q.

(** With draws in [[0,1)], the occupancy drawn for a room type is between
    40% and 90%, and the occupied rooms are a whole number between 0 and the
    rooms there are. *)
Lemma occupied_bounds (inventory : Z) r :
  0 <= r < 1 -> (0 <= inventory)%Z ->
  4#10 <= (4#10) + r * (5#10) <= 9#10 /\
  0 <= Math_round (inject_Z inventory * ((4#10) + r * (5#10))) <=
    inject_Z inventory.
Proof.
  intros [R0 R1] Hinv. split; [split; lra|].
  assert (0 <= inject_Z inventory) as Hi.
  { change 0 with (inject_Z 0). rewrite <- Zle_Qle. exact Hinv. }
  split.
  - apply Qle_trans with (Math_round 0); [discriminate|].
    apply Math_round_le. nra.
  - rewrite <- (Math_round_Z inventory) at 2.
    apply Math_round_le. nra.
Qed.

Lemma totals_bounds hotelRoomTypes n t n' :
  (forall k, 0 <= rnd k < 1) ->
  (forall rt, In rt hotelRoomTypes ->
     (0 <= inventory_count rt)%Z /\ 0 <= base_price rt) ->
  forEach hotelRoomTypes (revenueStep rnd) emptyTotals n = Returned (t, n') ->
  0 <= totalOccupied t <= inject_Z (totalRooms t) /\
  0 <= totalRevenue t /\
  Forall (fun p =>
            0 <= occupied (snd p) <= inject_Z (rooms (snd p)) /\
            0 <= revenue (snd p) /\
            4#10 <= rt_occupancy_rate (snd p) <= 9#10)
    (roomTypeBreakdown t).
Proof.
  intros Hrnd Hrt E.
  pose proof (forEach_prefix_preserves
                (fun (_ : list RoomType) t =>
                   0 <= totalOccupied t <= inject_Z (totalRooms t) /\
                   0 <= totalRevenue t /\
                   Forall (fun p =>
                             0 <= occupied (snd p) <=
                               inject_Z (rooms (snd p)) /\
                             0 <= revenue (snd p) /\
                             4#10 <= rt_occupancy_rate (snd p) <= 9#10)
                     (roomTypeBreakdown t))
                (revenueStep rnd) hotelRoomTypes) as L.
  apply (L) with (done := @nil RoomType) (s := emptyTotals) (n := n) (n' := n');
    [| |exact E].
  - clear L E. intros done x s k s' k' Hin (Ho & Hr & Hall) R.
    rewrite revenueStep_run in R. cbv zeta in R. inversion R; subst s' k'.
    clear R. cbn [totalOccupied totalRooms totalRevenue roomTypeBreakdown].
    destruct (Hrt x Hin) as [Hinv Hbase].
    destruct (occupied_bounds (inventory_count x) (rnd k) (Hrnd k) Hinv)
      as [Hocc Hround].
    set (o := Math_round (inject_Z (inventory_count x) *
                          ((4#10) + rnd k * (5#10)))) in *.
    pose proof (Hrnd (S k)) as [R0 R1].
    assert (0 <= o * (base_price x * ((9#10) + rnd (S k) * (3#10)))) as Hrev.
    { apply Qmult_le_0_compat; [lra|]. apply Qmult_le_0_compat; lra. }
    split; [|split].
    + rewrite inject_Z_plus. split; lra.
    + lra.
    + apply Forall_forall. intros p Hp. apply obj_set_In in Hp.
      destruct Hp as [->|Hp];
        [|exact (proj1 (Forall_forall _ _) Hall p Hp)].
      cbn [snd occupied rooms revenue rt_occupancy_rate].
      split; [exact Hround|]. split.
      * apply Qle_trans with (round_to 100 0); [discriminate|].
        apply round_to_le; [reflexivity|exact Hrev].
      * split.
        -- apply Qle_trans with (round_to 100 (4#10)); [discriminate|].
           apply round_to_le; [reflexivity|lra].
        -- apply Qle_trans with (round_to 100 (9#10)); [|discriminate].
           apply round_to_le; [reflexivity|lra].
  - cbn. repeat split; try discriminate. constructor.
Qed.


End EntryBounds.

(** ** The entries of the revenue analytics *)

Lemma setDate_add (d : Date) (i : Z) : setDate d (getDate d + i) = (d + i)%Z.
Proof. unfold setDate. lia. Qed.

Lemma existsb_sameISODate gd acc :
  existsb (fun a => sameISODate (rb_date a) gd) acc =
  existsb (Z.eqb gd) (map rb_date acc).
Proof.
  induction acc as [|a rest IH]; [reflexivity|].
  cbn [existsb map]. rewrite IH. f_equal.
  destruct (sameISODate (rb_date a) gd) eqn:E.
  - apply sameISODate_eq in E. rewrite E. symmetry. apply Z.eqb_refl.
  - symmetry. apply Z.eqb_neq. intros ->.
    assert (sameISODate (rb_date a) (rb_date a) = true) as T
      by (apply sameISODate_eq; reflexivity).
    congruence.
Qed.

Section AnalyticsEntries.
Variable rnd : nat -> Q.

Lemma forEach_revenueStep_returns hotelRoomTypes t n :
  exists t' n',
    forEach hotelRoomTypes (revenueStep rnd) t n = Returned (t', n').
Proof.
  destruct (forEach_returns (fun _ => True) (revenueStep rnd)) with
    (l := hotelRoomTypes) (s := t) (n := n) as (t' & n' & E & _);
    [|exact I|eauto].
  intros x s k _. destruct (revenueStep_returns rnd x s k) as (s' & k' & E').
  exists s', k'. auto.
Qed.

(** The loop over the days: it returns; the dates of its entries are the
    group dates of the days at their first occurrence, in the order of the
    days; every entry is the [bucketOf] of a run of the loop over the room
    types; and it draws twice per room type and entry. *)
Lemma analytics_loop (Pe : RevenueBucket -> Prop) hotelRoomTypes groupBy
  startDate l n :
  (forall groupDate t k k',
     forEach hotelRoomTypes (revenueStep rnd) emptyTotals k =
       Returned (t, k') -> Pe (bucketOf groupDate t)) ->
  exists acc n',
    forEach l (analyticsStep rnd hotelRoomTypes groupBy startDate) [] n =
      Returned (acc, n') /\
    map rb_date acc =
      firsts (map (fun i => groupDateOf groupBy (startDate + i)%Z) l) /\
    Forall Pe acc /\
    n' = (n + 2 * List.length hotelRoomTypes * List.length acc)%nat.
Proof.
  intros HPe.
  destruct (forEach_prefix
              (fun done acc =>
                 map rb_date acc =
                   firsts (map (fun i => groupDateOf groupBy (startDate + i)%Z)
                             done) /\
                 Forall Pe acc)
              (analyticsStep rnd hotelRoomTypes groupBy startDate))
    with (l := l) (done := @nil Z) (s := @nil RevenueBucket) (n := n)
    as (acc & n' & E & Hd & Hall).
  - intros done i acc k [Hd Hall]. unfold analyticsStep.
    rewrite setDate_add, existsb_sameISODate, Hd.
    assert (firsts (map (fun i => groupDateOf groupBy (startDate + i)%Z)
                      (done ++ [i])) =
            push_new
              (firsts (map (fun i => groupDateOf groupBy (startDate + i)%Z)
                         done))
              (groupDateOf groupBy (startDate + i)%Z)) as Hsnoc.
    { rewrite map_app. cbn [map]. rewrite firsts_snoc. reflexivity. }
    unfold push_new in Hsnoc.
    destruct (existsb _ (firsts _)) eqn:Ex.
    + exists acc, k. split; [reflexivity|]. rewrite Hsnoc.
      split; assumption.
    + unfold bind.
      destruct (forEach_revenueStep_returns hotelRoomTypes emptyTotals k)
        as (t & k' & Et).
      unfold emptyTotals in Et. rewrite Et.
      eexists. eexists. split; [reflexivity|]. split.
      * rewrite map_app, Hd, Hsnoc. reflexivity.
      * apply Forall_app. split; [exact Hall|].
        constructor; [|constructor]. eapply HPe. exact Et.
  - split; [reflexivity|constructor].
  - exists acc, n'. split; [exact E|]. split; [exact Hd|].
    split; [exact Hall|].
    pose proof (forEach_draws (@List.length RevenueBucket)
                  (2 * List.length hotelRoomTypes)
                  (analyticsStep rnd hotelRoomTypes groupBy startDate)) as D.
    assert (n' + 2 * List.length hotelRoomTypes * List.length (@nil RevenueBucket)
            = n + 2 * List.length hotelRoomTypes * List.length acc)%nat as C.
    { apply (D) with (l := l); [|exact E].
      clear. intros i acc k acc' k'. unfold analyticsStep.
      destruct (existsb _ acc).
      - unfold ret. intros R. inversion R; subst. reflexivity.
      - unfold bind.
        destruct (forEach hotelRoomTypes (revenueStep rnd) _ k)
          as [[t k1]|e] eqn:Et; [|discriminate].
        unfold ret. intros R. inversion R; subst.
        apply (totals_of_forEach rnd) in Et. destruct Et as [-> _].
        rewrite length_app. cbn [List.length]. lia. }
    cbn [List.length] in C. lia.
Qed.

(** What [generateRevenueAnalytics] returns for a hotel with room types. *)
Lemma generateRevenueAnalytics_entries (Pe : RevenueBucket -> Prop) table
  hotelId startDate numDays groupBy n :
  let hotelRoomTypes := filter (fun rt => (hotel_id rt =? hotelId)%Z) table in
  hotelRoomTypes <> [] ->
  (forall groupDate t k k',
     forEach hotelRoomTypes (revenueStep rnd) emptyTotals k =
       Returned (t, k') -> Pe (bucketOf groupDate t)) ->
  exists r n',
    generateRevenueAnalytics rnd table hotelId startDate numDays groupBy n =
      Returned (r, n') /\
    ra_hotel_id r = Some hotelId /\
    start_date r = Some startDate /\
    end_date r = Some (startDate + numDays - 1)%Z /\
    group_by r = Some groupBy /\
    map rb_date (analytics r) =
      sort_by (fun z => z) (firsts (groupDates groupBy startDate numDays)) /\
    Forall Pe (analytics r) /\
    n' = (n + 2 * List.length hotelRoomTypes * List.length (analytics r))%nat.
Proof.
  intros hotelRoomTypes Hne HPe. unfold generateRevenueAnalytics.
  fold hotelRoomTypes.
  destruct hotelRoomTypes as [|rt0 rest] eqn:Eh; [contradiction|].
  rewrite <- Eh in *. assert ((List.length hotelRoomTypes =? 0)%nat = false) as ->.
  { rewrite Eh. reflexivity. }
  destruct (analytics_loop Pe hotelRoomTypes groupBy startDate
              (indices numDays) n HPe) as (acc & n' & E & Hd & Hall & Hn).
  unfold bind. rewrite E. eexists. eexists. split; [reflexivity|].
  cbn [ra_hotel_id start_date end_date group_by analytics].
  split; [reflexivity|]. split; [reflexivity|].
  split; [unfold setDate; f_equal; lia|]. split; [reflexivity|].
  split; [rewrite map_sort_by; unfold groupDates; rewrite <- Hd; reflexivity|].
  split; [apply sort_by_Forall; exact Hall|].
  rewrite <- (Permutation_length (sort_by_Permutation rb_date acc)). exact Hn.
Qed.

End AnalyticsEntries.

Lemma indices_In i n : In i (indices n) <-> (0 <= i < n)%Z.
Proof.
  unfold indices. rewrite in_map_iff. split.
  - intros (k & <- & Hk). apply in_seq in Hk. lia.
  - intros H. exists (Z.to_nat i). split; [lia|]. apply in_seq. lia.
Qed.

Lemma indices_length n : List.length (indices n) = Z.to_nat n.
Proof. unfold indices. rewrite length_map, length_seq. reflexivity. Qed.

Lemma shifted_indices_sorted (startDate : Date) n :
  StronglySorted Z.lt (map (fun i => (startDate + i)%Z) (indices n)).
Proof.
  unfold indices. generalize 0%nat. induction (Z.to_nat n) as [|m IH];
    intros a; cbn [seq map]; [constructor|].
  constructor; [apply IH|].
  apply Forall_forall. intros x Hx.
  apply in_map_iff in Hx. destruct Hx as (i & <- & Hi).
  apply in_map_iff in Hi. destruct Hi as (k & <- & Hk).
  apply in_seq in Hk. lia.
Qed.

Lemma sorted_lt_le l : StronglySorted Z.lt l -> StronglySorted Z.le l.
Proof.
  intros H. induction H; constructor; [assumption|].
  eapply Forall_impl; [|eassumption]. intros; lia.
Qed.

Lemma sorted_lt_NoDup l : StronglySorted Z.lt l -> NoDup l.
Proof.
  intros H. induction H as [|y rest Hrest IH Hy]; constructor; [|exact IH].
  intros Hin. pose proof (proj1 (Forall_forall _ _) Hy y Hin). lia.
Qed.

Lemma groupDateOf_day groupBy d :
  groupBy <> "week"%string -> groupBy <> "month"%string ->
  groupDateOf groupBy d = d.
Proof.
  intros Hw Hm. unfold groupDateOf.
  apply String.eqb_neq in Hw, Hm. rewrite Hw, Hm. reflexivity.
Qed.

(** The dates left by sorting the first occurrences of a list are the
    dates of the list. *)
Lemma sorted_firsts_In l g : In g (sort_by (fun z => z) (firsts l)) <-> In g l.
Proof.
  pose proof (sort_by_Permutation (fun z : Z => z) (firsts l)) as Pm.
  split.
  - intros H. apply firsts_In.
    exact (Permutation_in _ (Permutation_sym Pm) H).
  - intros H. apply (Permutation_in _ Pm). apply firsts_In. exact H.
Qed.

Lemma groupDates_In groupBy startDate numDays g :
  In g (groupDates groupBy startDate numDays) <->
  exists i, (0 <= i < numDays)%Z /\ g = groupDateOf groupBy (startDate + i)%Z.
Proof.
  unfold groupDates. rewrite in_map_iff. split.
  - intros (i & <- & Hi). exists i. split; [apply indices_In; exact Hi|auto].
  - intros (i & Hi & ->). exists i. split; [auto|apply indices_In; exact Hi].
Qed.

(** Grouped by day, the sorted first occurrences of the group dates are the
    days of the range in order. *)
Lemma day_group_dates groupBy (startDate : Date) numDays :
  groupBy <> "week"%string -> groupBy <> "month"%string ->
  sort_by (fun z => z) (firsts (groupDates groupBy startDate numDays)) =
    map (fun i => (startDate + i)%Z) (indices numDays).
Proof.
  intros Hw Hm.
  assert (groupDates groupBy startDate numDays =
          map (fun i => (startDate + i)%Z) (indices numDays)) as ->.
  { unfold groupDates. apply map_ext. intros i.
    apply groupDateOf_day; assumption. }
  pose proof (shifted_indices_sorted startDate numDays) as S.
  rewrite (firsts_of_NoDup _ (sorted_lt_NoDup _ S)).
  apply sort_by_of_sorted. apply sorted_lt_le. exact S.
Qed.

(** ** Time zones *)

Lemma Day_midnight (d : Date) : JSTime.Day (JSTime.midnight d) = d.
Proof.
  unfold JSTime.Day, JSTime.midnight, JSTime.msPerDay.
  apply Z.div_mul. discriminate.
Qed.

Lemma Day_with_time (d : Date) (t : Z) :
  JSTime.Day (d * JSTime.msPerDay + JSTime.TimeWithinDay t) = d.
Proof.
  unfold JSTime.Day, JSTime.TimeWithinDay, JSTime.msPerDay.
  rewrite Z.add_comm, Z.div_add by discriminate.
  rewrite Z.div_small; [reflexivity|].
  apply Z.mod_pos_bound. reflexivity.
Qed.

Section UTCFacts.
Variable zone : JSTime.TimeZone.
Hypothesis Hutc : JSTime.is_utc zone.

Lemma LocalTime_utc t : JSTime.LocalTime zone t = t.
Proof. unfold JSTime.LocalTime. rewrite (proj1 (Hutc t)). lia. Qed.

Lemma UTCTime_utc l : JSTime.UTCTime zone l = l.
Proof. unfold JSTime.UTCTime. rewrite (proj2 (Hutc l)). lia. Qed.

Lemma getDate_utc t : JSTime.getDate zone t = getDate (JSTime.Day t).
Proof. unfold JSTime.getDate. rewrite LocalTime_utc. reflexivity. Qed.

Lemma getDay_utc t : JSTime.getDay zone t = getDay (JSTime.Day t).
Proof. unfold JSTime.getDay. rewrite LocalTime_utc. reflexivity. Qed.

Lemma getMonth_utc t : JSTime.getMonth zone t = getMonth (JSTime.Day t).
Proof. unfold JSTime.getMonth. rewrite LocalTime_utc. reflexivity. Qed.

Lemma getFullYear_utc t :
  JSTime.getFullYear zone t = getFullYear (JSTime.Day t).
Proof. unfold JSTime.getFullYear. rewrite LocalTime_utc. reflexivity. Qed.

Lemma setDate_utc t n :
  JSTime.toISODay (JSTime.setDate zone t n) = setDate (JSTime.Day t) n.
Proof.
  unfold JSTime.toISODay, JSTime.setDate. cbv zeta.
  rewrite UTCTime_utc, LocalTime_utc. apply Day_with_time.
Qed.

Lemma newDate_utc year month day :
  JSTime.toISODay (JSTime.newDate zone year month day) =
  newDate year month day.
Proof.
  unfold JSTime.toISODay, JSTime.newDate. rewrite UTCTime_utc.
  apply Day_midnight.
Qed.

(** In UTC day [i] of a range is [i] days after its first day, and it is
    grouped as [groupDateOf] groups that day. *)
Lemma day_of_range_utc t i :
  JSTime.toISODay (JSTime.setDate zone t (JSTime.getDate zone t + i)) =
  (JSTime.Day t + i)%Z.
Proof. rewrite setDate_utc, getDate_utc. apply setDate_add. Qed.

Lemma groupDay_utc groupBy t i :
  Zoned.groupDay zone groupBy t i = groupDateOf groupBy (JSTime.Day t + i)%Z.
Proof.
  unfold Zoned.groupDay, Zoned.groupDateOf, groupDateOf.
  pose proof (day_of_range_utc t i) as D. unfold JSTime.toISODay in D.
  set (date := JSTime.setDate zone t (JSTime.getDate zone t + i)) in *.
  destruct (String.eqb groupBy "week").
  - rewrite setDate_utc, getDay_utc, getDate_utc, D. reflexivity.
  - destruct (String.eqb groupBy "month").
    + rewrite newDate_utc, getFullYear_utc, getMonth_utc, D. reflexivity.
    + exact D.
Qed.

End UTCFacts.

Lemma forEach_ext {A S : Type} (body body' : A -> S -> JS S) (l : list A) :
  (forall x s n, In x l -> body x s n = body' x s n) ->
  forall s n, forEach l body s n = forEach l body' s n.
Proof.
  induction l as [|x rest IH]; intros H s n; [reflexivity|].
  cbn [forEach]. unfold bind. rewrite (H x s n) by (left; reflexivity).
  destruct (body' x s n) as [[s' n']|e]; [|reflexivity].
  apply IH. intros y s0 n0 Hy. apply H. right. exact Hy.
Qed.

(** In UTC the generators on time values are the generators on days. *)
Section UTCGenerators.
Variable zone : JSTime.TimeZone.
Hypothesis Hutc : JSTime.is_utc zone.
Variable rnd : nat -> Q.

Lemma generatePricingData_utc table roomTypeId t n :
  Zoned.generatePricingData zone rnd table roomTypeId t n =
  generatePricingData rnd table roomTypeId (JSTime.Day t) n.
Proof.
  unfold Zoned.generatePricingData, generatePricingData.
  destruct (find _ table) as [roomType|]; [|reflexivity].
  apply forEach_ext. intros i acc k _.
  unfold Zoned.pricingStep, pricingStep. cbv zeta.
  rewrite (day_of_range_utc zone Hutc), setDate_add. reflexivity.
Qed.

Lemma generateRevenueAnalytics_utc table hotelId t numDays groupBy n :
  Zoned.generateRevenueAnalytics zone rnd table hotelId t numDays groupBy n =
  generateRevenueAnalytics rnd table hotelId (JSTime.Day t) numDays groupBy n.
Proof.
  unfold Zoned.generateRevenueAnalytics, generateRevenueAnalytics.
  destruct (List.length _ =? 0)%nat; [reflexivity|].
  unfold bind.
  rewrite (forEach_ext
             (Zoned.analyticsStep zone rnd
                (filter (fun rt => (hotel_id rt =? hotelId)%Z) table)
                groupBy t)
             (analyticsStep rnd
                (filter (fun rt => (hotel_id rt =? hotelId)%Z) table)
                groupBy (JSTime.Day t))).
  - destruct (forEach _ _ _ n) as [[acc n']|e]; [|reflexivity].
    unfold ret. rewrite (setDate_utc zone Hutc), (getDate_utc zone Hutc).
    unfold JSTime.toISODay. reflexivity.
  - intros i acc k _. unfold Zoned.analyticsStep, analyticsStep.
    pose proof (groupDay_utc zone Hutc groupBy t i) as G.
    unfold Zoned.groupDay in G. cbv zeta. rewrite G, setDate_add.
    reflexivity.
Qed.

Lemma daysBetween_midnight (startDate endDate : Date) :
  Zoned.daysBetween (JSTime.midnight startDate) (JSTime.midnight endDate) =
  (endDate - startDate)%Z.
Proof.
  unfold Zoned.daysBetween, JSTime.midnight.
  rewrite <- Z.mul_sub_distr_r, Z.div_mul by discriminate. lia.
Qed.

Lemma getRevenueAnalytics_utc table hotelId (startDate : Date) endDate
  groupBy n :
  Zoned.getRevenueAnalytics zone rnd table hotelId (JSTime.midnight startDate)
    (option_map JSTime.midnight endDate) groupBy n =
  getRevenueAnalytics rnd table hotelId startDate endDate groupBy n.
Proof.
  unfold Zoned.getRevenueAnalytics, getRevenueAnalytics.
  rewrite generateRevenueAnalytics_utc, Day_midnight.
  destruct endDate as [e|]; cbn [option_map];
    [rewrite daysBetween_midnight|]; reflexivity.
Qed.

End UTCGenerators.

(** ** The generators in a time zone *)

Section ZonedEntries.
Variable zone : JSTime.TimeZone.
Variable rnd : nat -> Q.

(** The loop over the days in a time zone: as on days, with the group date
    of each day computed in the zone. *)
Lemma zoned_analytics_loop (Pe : RevenueBucket -> Prop) hotelRoomTypes groupBy
  startDate l n :
  (forall groupDate t k k',
     forEach hotelRoomTypes (revenueStep rnd) emptyTotals k =
       Returned (t, k') -> Pe (bucketOf groupDate t)) ->
  exists acc n',
    forEach l (Zoned.analyticsStep zone rnd hotelRoomTypes groupBy startDate)
      [] n = Returned (acc, n') /\
    map rb_date acc = firsts (map (Zoned.groupDay zone groupBy startDate) l) /\
    Forall Pe acc /\
    n' = (n + 2 * List.length hotelRoomTypes * List.length acc)%nat.
Proof.
  intros HPe.
  destruct (forEach_prefix
              (fun done acc =>
                 map rb_date acc =
                   firsts (map (Zoned.groupDay zone groupBy startDate) done) /\
                 Forall Pe acc)
              (Zoned.analyticsStep zone rnd hotelRoomTypes groupBy startDate))
    with (l := l) (done := @nil Z) (s := @nil RevenueBucket) (n := n)
    as (acc & n' & E & Hd & Hall).
  - intros done i acc k [Hd Hall]. unfold Zoned.analyticsStep. cbv zeta.
    fold (Zoned.groupDay zone groupBy startDate i).
    rewrite existsb_sameISODate, Hd.
    assert (firsts (map (Zoned.groupDay zone groupBy startDate) (done ++ [i])) =
            push_new
              (firsts (map (Zoned.groupDay zone groupBy startDate) done))
              (Zoned.groupDay zone groupBy startDate i)) as Hsnoc.
    { rewrite map_app. cbn [map]. rewrite firsts_snoc. reflexivity. }
    unfold push_new in Hsnoc.
    destruct (existsb _ (firsts _)) eqn:Ex.
    + exists acc, k. split; [reflexivity|]. rewrite Hsnoc.
      split; assumption.
    + unfold bind.
      destruct (forEach_revenueStep_returns rnd hotelRoomTypes emptyTotals k)
        as (t & k' & Et).
      unfold emptyTotals in Et. rewrite Et.
      eexists. eexists. split; [reflexivity|]. split.
      * rewrite map_app, Hd, Hsnoc. reflexivity.
      * apply Forall_app. split; [exact Hall|].
        constructor; [|constructor]. eapply HPe. exact Et.
  - split; [reflexivity|constructor].
  - exists acc, n'. split; [exact E|]. split; [exact Hd|].
    split; [exact Hall|].
    pose proof (forEach_draws (@List.length RevenueBucket)
                  (2 * List.length hotelRoomTypes)
                  (Zoned.analyticsStep zone rnd hotelRoomTypes groupBy
                     startDate)) as D.
    assert (n' + 2 * List.length hotelRoomTypes * List.length (@nil RevenueBucket)
            = n + 2 * List.length hotelRoomTypes * List.length acc)%nat as C.
    { apply (D) with (l := l); [|exact E].
      clear. intros i acc k acc' k'. unfold Zoned.analyticsStep. cbv zeta.
      destruct (existsb _ acc).
      - unfold ret. intros R. inversion R; subst. reflexivity.
      - unfold bind.
        destruct (forEach hotelRoomTypes (revenueStep rnd) _ k)
          as [[t k1]|e] eqn:Et; [|discriminate].
        unfold ret. intros R. inversion R; subst.
        apply (totals_of_forEach rnd) in Et. destruct Et as [-> _].
        rewrite length_app. cbn [List.length]. lia. }
    cbn [List.length] in C. lia.
Qed.

(** What [generateRevenueAnalytics] returns in a time zone for a hotel with
    room types. *)
Lemma zoned_generateRevenueAnalytics_entries table hotelId startDate numDays
  groupBy n :
  let hotelRoomTypes := filter (fun rt => (hotel_id rt =? hotelId)%Z) table in
  hotelRoomTypes <> [] ->
  exists r n',
    Zoned.generateRevenueAnalytics zone rnd table hotelId startDate numDays
      groupBy n = Returned (r, n') /\
    start_date r = Some (JSTime.toISODay startDate) /\
    map rb_date (analytics r) =
      sort_by (fun z => z)
        (firsts (map (Zoned.groupDay zone groupBy startDate)
                   (indices numDays))) /\
    n' = (n + 2 * List.length hotelRoomTypes * List.length (analytics r))%nat.
Proof.
  intros hotelRoomTypes Hne. unfold Zoned.generateRevenueAnalytics.
  fold hotelRoomTypes.
  destruct hotelRoomTypes as [|rt0 rest] eqn:Eh; [contradiction|].
  rewrite <- Eh in *. assert ((List.length hotelRoomTypes =? 0)%nat = false) as ->.
  { rewrite Eh. reflexivity. }
  destruct (zoned_analytics_loop (fun _ => True) hotelRoomTypes groupBy
              startDate (indices numDays) n (fun _ _ _ _ _ => I))
    as (acc & n' & E & Hd & _ & Hn).
  unfold bind. rewrite E. eexists. eexists. split; [reflexivity|].
  cbn [start_date analytics].
  split; [reflexivity|].
  split; [rewrite map_sort_by, <- Hd; reflexivity|].
  rewrite <- (Permutation_length (sort_by_Permutation rb_date acc)). exact Hn.
Qed.

End ZonedEntries.

Section AnalyticsDates.
Variable zone : JSTime.TimeZone.
Variable rnd : nat -> Q.

(** In every time zone the entries of the revenue analytics are in
    strictly ascending order of date, so no date comes twice; their dates
    are the group dates of the days of the range as the zone has them:
    each day's group date has an entry, and every entry is the group date
    of some day; and two draws were made per room type and entry. *)
Theorem analytics_dates_ascending_distinct :
  forall table hotelId startDate numDays groupBy n,
    filter (fun rt => (hotel_id rt =? hotelId)%Z) table <> [] ->
    exists r n',
      Zoned.generateRevenueAnalytics zone rnd table hotelId startDate numDays
        groupBy n = Returned (r, n') /\
      StronglySorted Z.lt (map rb_date (analytics r)) /\
      (forall g, In g (map rb_date (analytics r)) <->
                 exists i, (0 <= i < numDays)%Z /\
                           g = Zoned.groupDay zone groupBy startDate i) /\
      n' = (n + 2 * List.length
                      (filter (fun rt => (hotel_id rt =? hotelId)%Z) table) *
                  List.length (analytics r))%nat.
Proof.
  intros table hotelId startDate numDays groupBy n Hne.
  destruct (zoned_generateRevenueAnalytics_entries zone rnd table hotelId
              startDate numDays groupBy n Hne) as (r & n' & E & _ & Hd & Hn).
  exists r, n'. split; [exact E|]. rewrite Hd. split; [|split; [|exact Hn]].
  - apply sorted_NoDup_lt; [apply sort_by_sorted|].
    eapply Permutation_NoDup; [apply sort_by_Permutation|apply firsts_NoDup].
  - intros g. rewrite sorted_firsts_In, in_map_iff. split.
    + intros (i & <- & Hi). exists i. split; [apply indices_In; exact Hi|auto].
    + intros (i & Hi & ->). exists i. split; [auto|apply indices_In; exact Hi].
Qed.

Hypothesis Hutc : JSTime.is_utc zone.

(** In UTC, grouped by anything but "week" and "month", the analytics have
    one entry for each day of the range, dated day by day from the day of
    [startDate] on, and two draws were made per room type and day; the
    reported end date is the last of these days. *)
Theorem day_grouping_one_entry_per_day :
  forall table hotelId startDate numDays groupBy n,
    filter (fun rt => (hotel_id rt =? hotelId)%Z) table <> [] ->
    groupBy <> "week"%string -> groupBy <> "month"%string ->
    exists r n',
      Zoned.generateRevenueAnalytics zone rnd table hotelId startDate numDays
        groupBy n = Returned (r, n') /\
      map rb_date (analytics r) =
        map (fun i => (JSTime.Day startDate + i)%Z) (indices numDays) /\
      List.length (analytics r) = Z.to_nat numDays /\
      end_date r = Some (JSTime.Day startDate + numDays - 1)%Z /\
      n' = (n + 2 * List.length
                      (filter (fun rt => (hotel_id rt =? hotelId)%Z) table) *
                  Z.to_nat numDays)%nat.
Proof.
  intros table hotelId startDate numDays groupBy n Hne Hw Hm.
  rewrite (generateRevenueAnalytics_utc zone Hutc).
  destruct (generateRevenueAnalytics_entries rnd (fun _ => True) table hotelId
              (JSTime.Day startDate) numDays groupBy n Hne
              (fun _ _ _ _ _ => I))
    as (r & n' & E & _ & _ & He & _ & Hd & _ & Hn).
  exists r, n'. split; [exact E|].
  assert (map rb_date (analytics r) =
          map (fun i => (JSTime.Day startDate + i)%Z) (indices numDays)) as D.
  { rewrite Hd. apply day_group_dates; assumption. }
  assert (List.length (analytics r) = Z.to_nat numDays) as L.
  { rewrite <- (length_map rb_date), D, length_map. apply indices_length. }
  split; [exact D|]. split; [exact L|]. split; [exact He|].
  rewrite Hn, L. reflexivity.
Qed.

(** In UTC, grouped by week, every entry is dated a Monday, and every day
    of the range falls in the seven days from the date of some entry. *)
Theorem week_grouping_entries_are_mondays :
  forall table hotelId startDate numDays n,
    filter (fun rt => (hotel_id rt =? hotelId)%Z) table <> [] ->
    exists r n',
      Zoned.generateRevenueAnalytics zone rnd table hotelId startDate numDays
        "week" n = Returned (r, n') /\
      Forall (fun b => getDay (rb_date b) = 1%Z) (analytics r) /\
      (forall i, (0 <= i < numDays)%Z ->
         exists b, In b (analytics r) /\
                   (rb_date b <= JSTime.Day startDate + i < rb_date b + 7)%Z).
Proof.
  intros table hotelId startDate numDays n Hne.
  rewrite (generateRevenueAnalytics_utc zone Hutc).
  destruct (generateRevenueAnalytics_entries rnd (fun _ => True) table hotelId
              (JSTime.Day startDate) numDays "week" n Hne
              (fun _ _ _ _ _ => I))
    as (r & n' & E & _ & _ & _ & _ & Hdates & _ & _).
  assert (forall g, In g (map rb_date (analytics r)) <->
            exists i, (0 <= i < numDays)%Z /\
                      g = groupDateOf "week" (JSTime.Day startDate + i)%Z)
    as Hin.
  { intros g. rewrite Hdates, sorted_firsts_In. apply groupDates_In. }
  clear Hdates.
  exists r, n'. split; [exact E|]. split.
  - apply Forall_forall. intros b Hb.
    assert (In (rb_date b) (map rb_date (analytics r))) as Hd
      by (apply in_map; exact Hb).
    apply Hin in Hd. destruct Hd as (i & _ & ->).
    apply week_group_is_monday.
  - intros i Hi.
    assert (In (groupDateOf "week" (JSTime.Day startDate + i)%Z)
              (map rb_date (analytics r))) as Hd
      by (apply Hin; exists i; auto).
    apply in_map_iff in Hd. destruct Hd as (b & Hb & Hbin).
    exists b. split; [exact Hbin|]. rewrite Hb.
    apply week_group_is_monday.
Qed.


(** In UTC and grouped by day, [getRevenueAnalytics] from the day
    [startDate] to an end date covers the days from [startDate] up to the
    day before [endDate], which is also the end date it reports; an end
    date on or before [startDate] gives no entry.  Without an end date it
    covers 30 days. *)
Theorem revenue_analytics_range_excludes_end_date :
  forall table hotelId (startDate : Date) (endDate : option Date) n,
    filter (fun rt => (hotel_id rt =? hotelId)%Z) table <> [] ->
    exists r n',
      Zoned.getRevenueAnalytics zone rnd table hotelId
        (JSTime.midnight startDate) (option_map JSTime.midnight endDate)
        "day" n = Returned (r, n') /\
      match endDate with
      | Some e =>
          map rb_date (analytics r) =
            map (fun i => (startDate + i)%Z) (indices (e - startDate)) /\
          end_date r = Some (e - 1)%Z /\
          ((e <= startDate)%Z -> analytics r = []) /\
          Forall (fun b => (startDate <= rb_date b < e)%Z) (analytics r)
      | None =>
          map rb_date (analytics r) =
            map (fun i => (startDate + i)%Z) (indices 30) /\
          end_date r = Some (startDate + 29)%Z
      end.
Proof.
  intros table hotelId startDate endDate n Hne.
  rewrite (getRevenueAnalytics_utc zone Hutc). unfold getRevenueAnalytics.
  destruct endDate as [e|].
  - destruct (generateRevenueAnalytics_entries rnd (fun _ => True) table
                hotelId startDate (e - startDate) "day" n Hne
                (fun _ _ _ _ _ => I))
      as (r & n' & E & _ & _ & He & _ & Hd & _ & _).
    rewrite day_group_dates in Hd by discriminate.
    assert (List.length (analytics r) = Z.to_nat (e - startDate)) as Hl.
    { rewrite <- (length_map rb_date), Hd, length_map. apply indices_length. }
    exists r, n'. split; [exact E|]. split; [exact Hd|]. split.
    + rewrite He. f_equal. lia.
    + split.
      * intros Hle. apply length_zero_iff_nil. rewrite Hl. lia.
      * apply Forall_forall. intros b Hb.
        assert (In (rb_date b) (map rb_date (analytics r))) as Hin
          by (apply in_map; exact Hb).
        rewrite Hd in Hin. apply in_map_iff in Hin.
        destruct Hin as (i & <- & Hi). apply indices_In in Hi. lia.
  - destruct (generateRevenueAnalytics_entries rnd (fun _ => True) table
                hotelId startDate 30 "day" n Hne (fun _ _ _ _ _ => I))
      as (r & n' & E & _ & _ & He & _ & Hd & _ & _).
    rewrite day_group_dates in Hd by discriminate.
    exists r, n'. split; [exact E|]. split; [exact Hd|].
    rewrite He. f_equal. lia.
Qed.

End AnalyticsDates.

Section AnalyticsFigures.
Variable rnd : nat -> Q.

(** [generateRevenueAnalytics] returns, and every entry is the [bucketOf]
    of a run of the loop over the room types of the hotel. *)
Lemma generateRevenueAnalytics_Forall (Pe : RevenueBucket -> Prop) table
  hotelId startDate numDays groupBy n :
  (forall groupDate t k k',
     forEach (filter (fun rt => (hotel_id rt =? hotelId)%Z) table)
       (revenueStep rnd) emptyTotals k = Returned (t, k') ->
     Pe (bucketOf groupDate t)) ->
  exists r n',
    generateRevenueAnalytics rnd table hotelId startDate numDays groupBy n =
      Returned (r, n') /\
    Forall Pe (analytics r).
Proof.
  intros HPe.
  destruct (filter (fun rt => (hotel_id rt =? hotelId)%Z) table)
    as [|rt0 rest] eqn:Eh.
  - unfold generateRevenueAnalytics. rewrite Eh.
    eexists. eexists. split; [reflexivity|constructor].
  - destruct (generateRevenueAnalytics_entries rnd Pe table hotelId startDate
                numDays groupBy n) as (r & n' & E & _ & _ & _ & _ & _ & H & _).
    + rewrite Eh. discriminate.
    + rewrite Eh. exact HPe.
    + exists r, n'. auto.
Qed.



End AnalyticsFigures.

(** ** The contribution analytics on the revenue analytics *)

(** What the inner loop of [contributionItem] builds: one entry for each
    room type of the item, in order, without a draw. *)
Lemma contributionItem_shape hotelRoomTypes item n cb n' :
  contributionItem hotelRoomTypes item n = Returned (cb, n') ->
  n' = n /\
  cb_date cb = rb_date item /\
  cb_total_revenue cb = total_revenue item /\
  cb_total_rooms cb = total_rooms item /\
  cb_total_occupied cb = total_occupied item /\
  map rc_revenue (cb_room_types cb) = room_types item.
Proof.
  unfold contributionItem, bind. intros E.
  destruct (forEach _ _ _ n) as [[t k]|e] eqn:F; [|discriminate].
  unfold ret in E. inversion E; subst. cbn.
  assert (forall x s a s' a',
            contributionStep hotelRoomTypes x s a = Returned (s', a') ->
            a' = a /\
            roomTypesWithContribution s' = roomTypesWithContribution s ++
              [last (roomTypesWithContribution s')
                 {| rc_revenue := x; rc_variable_cost := 0;
                    rc_contribution := 0; rc_contribution_margin := NaN |}] /\
            rc_revenue (last (roomTypesWithContribution s')
                 {| rc_revenue := x; rc_variable_cost := 0;
                    rc_contribution := 0; rc_contribution_margin := NaN |}) = x)
    as Hstep.
  { intros x s a s' a'. unfold contributionStep.
    destruct (find _ hotelRoomTypes); [|discriminate].
    unfold ret. intros R. inversion R; subst.
    cbn [roomTypesWithContribution]. rewrite last_last.
    split; [reflexivity|]. split; reflexivity. }
  split.
  - pose proof (forEach_draws (fun _ : ContributionTotals => 0%nat) 0
                  (contributionStep hotelRoomTypes)) as D.
    specialize (D) with (l := room_types item) (n := n) (n' := n')
                        (1 := fun x s a s' a' R =>
                                f_equal (fun z => (z + 0)%nat)
                                  (proj1 (Hstep x s a s' a' R))).
    specialize (D _ _ F). lia.
  - repeat split.
    pose proof (forEach_prefix_preserves
                  (fun done t => map rc_revenue (roomTypesWithContribution t)
                                 = done)
                  (contributionStep hotelRoomTypes) (room_types item)) as L.
    apply (L) with (done := @nil RoomTypeRevenue)
                   (s := {| totalVariableCost := 0; totalContribution := 0;
                            roomTypesWithContribution := [] |})
                   (n := n) (n' := n'); [|reflexivity|exact F].
    intros done x s a s' a' _ Hd R.
    destruct (Hstep x s a s' a' R) as (_ & Hl & Hx).
    rewrite Hl, map_app, Hd. cbn [map]. rewrite Hx. reflexivity.
Qed.



Lemma round_to_of_cents x c : x == inject_Z c / 100 -> round_to 100 x == x.
Proof. intros H. rewrite H. apply round_to_cents. Qed.


Section ContributionFigures.
Variable rnd : nat -> Q.

(** One run of the contribution analytics over the revenue analytics. *)
Lemma contribution_run (Pi : RevenueBucket -> Prop) table hotelId startDate
  endDate groupBy n :
  (forall groupDate t k k',
     forEach (filter (fun rt => (hotel_id rt =? hotelId)%Z) table)
       (revenueStep rnd) emptyTotals k = Returned (t, k') ->
     Pi (bucketOf groupDate t)) ->
  exists rev r n',
    getRevenueAnalytics rnd table hotelId startDate endDate groupBy n =
      Returned (rev, n') /\
    getContributionMarginAnalytics rnd table hotelId startDate endDate groupBy
      n = Returned (r, n') /\
    ca_hotel_id r = ra_hotel_id rev /\
    ca_start_date r = start_date rev /\
    ca_end_date r = end_date rev /\
    ca_group_by r = group_by rev /\
    Forall2
      (fun item cb =>
         Pi item /\
         contributionItem
           (filter (fun rt => (hotel_id rt =? hotelId)%Z) table) item n' =
           Returned (cb, n'))
      (analytics rev) (ca_analytics r).
Proof.
  intros HPi.
  unfold getContributionMarginAnalytics, getRevenueAnalytics, bind.
  set (numDays := match endDate with
                  | Some e => (e - startDate)%Z | None => 30%Z end).
  set (hotelRoomTypes := filter (fun rt => (hotel_id rt =? hotelId)%Z) table)
    in *.
  destruct (generateRevenueAnalytics_Forall rnd
              (fun b => Pi b /\
                 forall rt, In rt (room_types b) ->
                 find (fun r => (id r =? rt_room_type_id rt)%Z) hotelRoomTypes
                   <> None)
              table hotelId startDate numDays groupBy n)
    as (rev & n' & E & Hfound).
  { intros groupDate t k k' Et. split; [eapply HPi; exact Et|].
    destruct (totals_of_forEach rnd _ _ _ _ Et) as (_ & _ & _ & _ & Hall).
    unfold bucketOf. cbn [room_types]. unfold Object_values.
    intros rt Hrt. apply in_map_iff in Hrt. destruct Hrt as (p & <- & Hp).
    destruct (proj1 (Forall_forall _ _) Hall p Hp)
      as (H1 & _ & _ & roomType & Hin & H4 & _).
    destruct (find_id_in _ _ Hin) as [found F].
    rewrite H1, <- H4. fold hotelRoomTypes in F. rewrite F. discriminate. }
  rewrite E.
  destruct (mapJS_returns (contributionItem hotelRoomTypes) (analytics rev) n')
    as (items & Em & F2).
  { intros item Hitem.
    destruct (contributionItem_returns hotelRoomTypes item n'
                (proj2 (proj1 (Forall_forall _ _) Hfound item Hitem)))
      as (cb & k & Ec).
    destruct (contributionItem_shape _ _ _ _ _ Ec) as [-> _].
    exists cb. exact Ec. }
  rewrite Em. exists rev. eexists. exists n'.
  split; [reflexivity|]. split; [reflexivity|].
  cbn [ca_hotel_id ca_start_date ca_end_date ca_group_by ca_analytics].
  repeat (split; [reflexivity|]).
  clear Em E. induction F2 as [|item cb l l' Hc F2 IH]; constructor.
  - inversion Hfound; subst. split; [tauto|exact Hc].
  - apply IH. inversion Hfound; subst. assumption.
Qed.

Lemma Forall2_Forall_r {A B : Type} (R : A -> B -> Prop) (P : B -> Prop) l l' :
  Forall2 R l l' -> (forall a b, R a b -> P b) -> Forall P l'.
Proof.
  intros F H. induction F; constructor; eauto.
Qed.

(** [getContributionMarginAnalytics] never fails: every room type of an
    entry of the revenue analytics is found among the hotel's.  It returns
    after the draws of [getRevenueAnalytics] alone, with one entry for each
    entry of the revenue analytics, in order, carrying its date, revenue,
    rooms and occupied rooms and one line for each of its room types. *)
Theorem contribution_analytics_follow_revenue :
  forall table hotelId startDate endDate groupBy n,
    exists rev r n',
      getRevenueAnalytics rnd table hotelId startDate endDate groupBy n =
        Returned (rev, n') /\
      getContributionMarginAnalytics rnd table hotelId startDate endDate
        groupBy n = Returned (r, n') /\
      ca_hotel_id r = ra_hotel_id rev /\
      ca_start_date r = start_date rev /\
      ca_end_date r = end_date rev /\
      ca_group_by r = group_by rev /\
      Forall2
        (fun item cb =>
           cb_date cb = rb_date item /\
           cb_total_revenue cb = total_revenue item /\
           cb_total_rooms cb = total_rooms item /\
           cb_total_occupied cb = total_occupied item /\
           map rc_revenue (cb_room_types cb) = room_types item)
        (analytics rev) (ca_analytics r).
Proof.
  intros table hotelId startDate endDate groupBy n.
  destruct (contribution_run (fun _ => True) table hotelId startDate endDate
              groupBy n (fun _ _ _ _ _ => I))
    as (rev & r & n' & E1 & E2 & H1 & H2 & H3 & H4 & F2).
  exists rev, r, n'. repeat (split; [assumption|]).
  eapply Forall2_impl; [|exact F2].
  intros item cb [_ Ec]. apply contributionItem_shape in Ec. tauto.
Qed.


End ContributionFigures.

(** The lines of one contribution entry, for variable costs within the
    limit and an item with occupied rooms within the limit and revenues in
    whole cents. *)
Lemma contributionItem_lines_bounded hotelRoomTypes item n cb n' :
  (forall rt, In rt hotelRoomTypes -> 0 <= variable_cost rt <= limit) ->
  (forall e, In e (room_types item) ->
     0 <= occupied e <= limit /\ 0 <= revenue e /\
     exists c, revenue e = inject_Z c / 100) ->
  contributionItem hotelRoomTypes item n = Returned (cb, n') ->
  Forall (fun rc =>
            0 <= rc_variable_cost rc <= limit * limit /\
            - (limit * limit) <= rc_contribution rc /\
            rc_contribution rc <= revenue (rc_revenue rc) /\
            (0 < revenue (rc_revenue rc) ->
             exists q, rc_contribution_margin rc = Fin q /\
                       - (100 * limit * limit) <= q <= 1))
    (cb_room_types cb).
Proof.
  intros Hvc Hitem. unfold contributionItem, bind. intros E.
  destruct (forEach _ _ _ n) as [[t k]|e] eqn:F; [|discriminate].
  unfold ret in E. inversion E; subst. clear E. cbn [cb_room_types].
  pose proof (forEach_prefix_preserves
                (fun (_ : list RoomTypeRevenue) t =>
                   Forall (fun rc =>
                             0 <= rc_variable_cost rc <= limit * limit /\
                             - (limit * limit) <= rc_contribution rc /\
                             rc_contribution rc <= revenue (rc_revenue rc) /\
                             (0 < revenue (rc_revenue rc) ->
                              exists q, rc_contribution_margin rc = Fin q /\
                                        - (100 * limit * limit) <= q <= 1))
                     (roomTypesWithContribution t))
                (contributionStep hotelRoomTypes) (room_types item)) as L.
  apply (L) with (done := @nil RoomTypeRevenue) (n := n) (n' := n')
                 (s := {| totalVariableCost := 0; totalContribution := 0;
                          roomTypesWithContribution := [] |});
    [|constructor|exact F].
  clear F L. intros done x s a s' a' Hx Hall. unfold contributionStep.
  destruct (find _ hotelRoomTypes) as [roomType|] eqn:Ff; [|discriminate].
  unfold ret. intros R. inversion R; subst s' a'. clear R.
  cbn [roomTypesWithContribution].
  apply find_some in Ff. destruct Ff as [Hin _].
  pose proof (Hvc roomType Hin) as [Hv0 Hv1].
  destruct (Hitem x Hx) as ([Ho0 Ho1] & Hr0 & [c Hc]).
  unfold limit in *.
  set (v := variable_cost roomType) in *. set (o := occupied x) in *.
  assert (0 <= o * v <= 1000000000 * 1000000000) as Hcost by (split; nra).
  apply Forall_app. split; [exact Hall|]. constructor; [|constructor].
  cbn [rc_variable_cost rc_contribution rc_revenue rc_contribution_margin].
  fold o v.
  split; [|split; [|split]].
  - destruct (round_to_between 100 0 (1000000000 * 1000000000) (o * v))
      as [L U]; [reflexivity|exact Hcost|].
    split; [eapply Qle_trans; [|exact L]|eapply Qle_trans; [exact U|]];
      discriminate.
  - apply Qle_trans with (round_to 100 (- (1000000000 * 1000000000)));
      [discriminate|].
    apply round_to_le; [reflexivity|lra].
  - rewrite <- (round_to_of_cents (revenue x) c) at 2
      by (rewrite Hc; reflexivity).
    apply round_to_le; [reflexivity|lra].
  - intros Hpos. unfold div.
    assert (Qeq_bool (revenue x) 0 = false) as ->
      by (apply Qeq_bool_false; lra).
    rewrite nround_to_Fin by reflexivity. eexists. split; [reflexivity|].
    assert (1#100 <= revenue x) as Hcent.
    { rewrite Hc in *. revert Hpos. unfold Qdiv. change (/ 100) with (1#100).
      intros Hpos.
      assert (0 < c)%Z as Hz.
      { rewrite Zlt_Qlt. change (inject_Z 0) with 0.
        revert Hpos. generalize (inject_Z c). intros y Hy. lra. }
      assert (1 <= inject_Z c) as C2.
      { change 1 with (inject_Z 1). rewrite <- Zle_Qle. lia. }
      revert C2. generalize (inject_Z c). intros y Hy. lra. }
    set (r := revenue x) in *.
    assert (- (100 * 1000000000 * 1000000000) <= (r - o * v) / r <= 1) as Hq.
    { split.
      - apply Qle_shift_div_l; [lra|]. nra.
      - apply Qle_shift_div_r; [lra|]. lra. }
    destruct (round_to_between 10000 _ _ _ eq_refl Hq) as [L U].
    split; [eapply Qle_trans; [|exact L]|eapply Qle_trans; [exact U|]];
      discriminate.
Qed.

Section ContributionBounds.
Variable rnd : nat -> Q.

(** The room types of an entry of the revenue analytics, with draws in
    [[0,1)] and room types within the limits: the occupied rooms are within
    the limit and the revenue is in whole cents. *)
Lemma bucket_lines_within_limits hotelRoomTypes groupDate t k k' :
  (forall k, 0 <= rnd k < 1) ->
  (forall rt, In rt hotelRoomTypes -> within_limits rt) ->
  forEach hotelRoomTypes (revenueStep rnd) emptyTotals k = Returned (t, k') ->
  forall e, In e (room_types (bucketOf groupDate t)) ->
    0 <= occupied e <= limit /\ 0 <= revenue e /\
    exists c, revenue e = inject_Z c / 100.
Proof.
  intros Hrnd Hrt Et e He.
  destruct (totals_of_forEach rnd _ _ _ _ Et) as (_ & _ & _ & _ & Hall).
  destruct (totals_bounds rnd _ _ _ _ Hrnd
              (fun rt Hin =>
                 conj (proj1 (proj2 (proj2 (Hrt rt Hin))))
                      (proj1 (proj1 (Hrt rt Hin)))) Et)
    as (_ & _ & Hb).
  unfold bucketOf in He. cbn [room_types] in He. unfold Object_values in He.
  apply in_map_iff in He. destruct He as (p & <- & Hp).
  destruct (proj1 (Forall_forall _ _) Hall p Hp)
    as (_ & _ & H3 & roomType & Hin & _ & _ & Hrooms).
  destruct (proj1 (Forall_forall _ _) Hb p Hp) as ([O0 O1] & R0 & _).
  split; [|split; [exact R0|exact H3]]. split; [exact O0|].
  apply Qle_trans with (inject_Z (rooms (snd p))); [exact O1|].
  rewrite Hrooms. unfold limit. change 1000000000 with (inject_Z 1000000000).
  rewrite <- Zle_Qle. exact (proj2 (proj2 (proj2 (Hrt roomType Hin)))).
Qed.

(** With draws in [[0,1)] and room types within the limits, no line of the
    contribution analytics has a negative variable cost or a contribution
    above its revenue, both are bounded, and wherever the revenue of a room
    type is positive its contribution margin is a number, at most 1. *)
Theorem room_type_margin_at_most_one :
  forall table hotelId startDate endDate groupBy n,
    (forall k, 0 <= rnd k < 1) ->
    (forall rt, In rt table -> within_limits rt) ->
    exists r n',
      getContributionMarginAnalytics rnd table hotelId startDate endDate
        groupBy n = Returned (r, n') /\
      Forall
        (fun cb =>
           Forall (fun rc =>
                     0 <= rc_variable_cost rc <= limit * limit /\
                     - (limit * limit) <= rc_contribution rc /\
                     rc_contribution rc <= revenue (rc_revenue rc) /\
                     (0 < revenue (rc_revenue rc) ->
                      exists q, rc_contribution_margin rc = Fin q /\
                                - (100 * limit * limit) <= q <= 1))
             (cb_room_types cb))
        (ca_analytics r).
Proof.
  intros table hotelId startDate endDate groupBy n Hrnd Hrt.
  assert (forall rt,
            In rt (filter (fun rt => (hotel_id rt =? hotelId)%Z) table) ->
            within_limits rt) as Hrt'.
  { intros rt Hin. apply Hrt. apply filter_In in Hin. tauto. }
  destruct (contribution_run rnd
              (fun b => forall e, In e (room_types b) ->
                 0 <= occupied e <= limit /\ 0 <= revenue e /\
                 exists c, revenue e = inject_Z c / 100)
              table hotelId startDate endDate groupBy n)
    as (rev & r & n' & _ & E & _ & _ & _ & _ & F2).
  { intros groupDate t k k' Et.
    exact (bucket_lines_within_limits _ groupDate t k k' Hrnd Hrt' Et). }
  exists r, n'. split; [exact E|].
  apply (Forall2_Forall_r _ _ _ _ F2).
  intros item cb [Hitem Ec].
  exact (contributionItem_lines_bounded _ item n' cb n'
           (fun rt Hin => proj1 (proj2 (Hrt' rt Hin))) Hitem Ec).
Qed.

End ContributionBounds.

(** ** The generated schedule *)

Section ScheduleRecords.
Variable rnd : nat -> Q.

(** One run of [priceDay], by the override draw: the fields that identify
    the day, the override with its note, the draws made, and the expected
    bookings and their revenue. *)
Lemma priceDay_fields roomTypeId roomType day demand n pd n' :
  priceDay rnd roomTypeId roomType day demand n = Returned (pd, n') ->
  date pd = day /\
  room_type_id pd = roomTypeId /\
  room_type_name pd = name roomType /\
  pd_base_price pd = base_price roomType /\
  pd_variable_cost pd = variable_cost roomType /\
  is_override pd = ltb (rnd n) (1#10) /\
  override_notes pd =
    (if is_override pd
     then Some "Manual adjustment for market conditions"%string else None) /\
  n' = (n + 2 + (if is_override pd then 1 else 0))%nat /\
  (exists occupancy,
     1#10 <= occupancy <= 95#100 /\
     expected_occupancy pd = round_to 100 occupancy /\
     expected_bookings pd =
       round_to 10 (occupancy * inject_Z (inventory_count roomType))) /\
  expected_revenue pd = round_to 100 (expected_bookings pd * final_price pd).
Proof.
  unfold priceDay, bind, Math_random, ret.
  destruct (ltb (rnd n) (1#10)) eqn:Eo; cbn [fst snd]; intros R;
    inversion R; subst pd n'; clear R; cbn;
    repeat (split; [first [reflexivity | lia]|]);
    (split; [|reflexivity]);
    eexists; (split; [|split; reflexivity]);
    apply Math_min_max_bounds; discriminate.
Qed.

Lemma pricingStep_inv roomTypeId roomType startDate i acc n acc' n' :
  pricingStep rnd roomTypeId roomType startDate i acc n = Returned (acc', n') ->
  exists pd,
    acc' = acc ++ [pd] /\
    priceDay rnd roomTypeId roomType (startDate + i)%Z
      ((2#10) + rnd n * (7#10)) (S n) = Returned (pd, n').
Proof.
  unfold pricingStep, bind, Math_random. rewrite setDate_add.
  destruct (priceDay _ _ _ _ _ _) as [[pd k]|e]; [|discriminate].
  unfold ret. intros R. inversion R; subst. exists pd. auto.
Qed.

(** Every record of the schedule of a room type of the table is a priced
    day at a demand drawn between 0.2 and 0.9. *)
Lemma generatePricingData_Forall (P : PricedDay -> Prop) table roomTypeId
  roomType startDate n :
  find (fun rt => (id rt =? roomTypeId)%Z) table = Some roomType ->
  (forall day k pd k',
     priceDay rnd roomTypeId roomType day ((2#10) + rnd k * (7#10)) (S k) =
       Returned (pd, k') -> P pd) ->
  exists l n',
    generatePricingData rnd table roomTypeId startDate n = Returned (l, n') /\
    map date l = map (fun k => (startDate + k)%Z) (indices 30) /\
    Forall P l.
Proof.
  intros Hfind HP.
  destruct (generatePricingData_returns rnd (fun _ => True) table roomTypeId
              roomType startDate n Hfind (fun _ _ _ _ _ _ => I))
    as (l & n' & E & Hd & _).
  exists l, n'. split; [exact E|]. split; [exact Hd|].
  unfold generatePricingData in E. rewrite Hfind in E.
  refine (forEach_preserves (Forall P)
            (pricingStep rnd roomTypeId roomType startDate) _ _ _ _ _ _ _ E);
    [|constructor].
  intros i acc k acc' k' Hacc R. apply pricingStep_inv in R.
  destruct R as (pd & -> & Epd). apply Forall_app. split; [exact Hacc|].
  constructor; [|constructor]. eapply HP. exact Epd.
Qed.

End ScheduleRecords.

Section ScheduleTheorems.
Variable rnd : nat -> Q.

(** With draws in [[0,1)], every record of the schedule has a demand
    probability between 0.20 and 0.90 and a multiplier between 0.87 and
    1.67; for a base price between 0 and [limit] the suggested price lies
    between 13/15 and 5/3 of the base price, to within a cent. *)
Theorem schedule_demand_and_multiplier_range :
  forall table roomTypeId roomType startDate n,
    (forall k, 0 <= rnd k < 1) ->
    find (fun rt => (id rt =? roomTypeId)%Z) table = Some roomType ->
    0 <= base_price roomType <= limit ->
    exists l n',
      generatePricingData rnd table roomTypeId startDate n = Returned (l, n') /\
      Forall (fun pd =>
                2#10 <= demand_probability pd <= 9#10 /\
                87#100 <= price_multiplier pd <= 167#100 /\
                (13#15) * base_price roomType - (1#100) <=
                  suggested_price pd /\
                suggested_price pd <=
                  (5#3) * base_price roomType + (1#100))
        l.
Proof.
  intros table roomTypeId roomType startDate n Hrnd Hfind [Hb _].
  destruct (generatePricingData_Forall rnd
              (fun pd =>
                 2#10 <= demand_probability pd <= 9#10 /\
                 87#100 <= price_multiplier pd <= 167#100 /\
                 (13#15) * base_price roomType - (1#100) <=
                   suggested_price pd /\
                 suggested_price pd <=
                   (5#3) * base_price roomType + (1#100))
              table roomTypeId roomType startDate n Hfind)
    as (l & n' & E & _ & Hall); [|exists l, n'; auto].
  intros day k pd k' Epd.
  destruct (priceDay_returns rnd roomTypeId roomType day
              ((2#10) + rnd k * (7#10)) (S k))
    as (pd0 & k0 & E0 & Hd & Hm & Hs & _).
  rewrite E0 in Epd. inversion Epd; subst pd0 k0. rewrite Hd, Hm, Hs.
  pose proof (Hrnd k) as [R0 R1].
  set (d := (2#10) + rnd k * (7#10)) in *.
  assert (2#10 <= d <= 9#10) as Hdr by (subst d; split; lra).
  assert (13#15 <= priceMultiplier d <= 5#3) as Hmr by (tiers; lra).
  set (m := priceMultiplier d) in *. set (b := base_price roomType) in *.
  pose proof (round_to_near (b * m)) as [N1 N2].
  split; [|split; [|split]].
  - split.
    + apply Qle_trans with (round_to 100 (2#10)); [discriminate|].
      apply round_to_le; [reflexivity|lra].
    + apply Qle_trans with (round_to 100 (9#10)); [|discriminate].
      apply round_to_le; [reflexivity|lra].
  - split.
    + apply Qle_trans with (round_to 100 (13#15)); [discriminate|].
      apply round_to_le; [reflexivity|lra].
    + apply Qle_trans with (round_to 100 (5#3)); [|discriminate].
      apply round_to_le; [reflexivity|lra].
  - nra.
  - nra.
Qed.

(** Every record of the schedule either is no override, has no note and a
    final price equal to the suggested price, or is an override, carries
    the note "Manual adjustment for market conditions" and, with draws in
    [[0,1)] and a base price between 0 and [limit], a final price between
    90% and 115% of the suggested price, to within a cent. *)
Theorem schedule_override_adjustment :
  forall table roomTypeId roomType startDate n,
    (forall k, 0 <= rnd k < 1) ->
    find (fun rt => (id rt =? roomTypeId)%Z) table = Some roomType ->
    0 <= base_price roomType <= limit ->
    exists l n',
      generatePricingData rnd table roomTypeId startDate n = Returned (l, n') /\
      Forall (fun pd =>
                (is_override pd = false /\ override_notes pd = None /\
                 final_price pd = suggested_price pd) \/
                (is_override pd = true /\
                 override_notes pd =
                   Some "Manual adjustment for market conditions"%string /\
                 (90#100) * suggested_price pd - (1#100) <= final_price pd /\
                 final_price pd <=
                   (115#100) * suggested_price pd + (1#100)))
        l.
Proof.
  intros table roomTypeId roomType startDate n Hrnd Hfind [Hb _].
  destruct (generatePricingData_Forall rnd
              (fun pd =>
                 (is_override pd = false /\ override_notes pd = None /\
                  final_price pd = suggested_price pd) \/
                 (is_override pd = true /\
                  override_notes pd =
                    Some "Manual adjustment for market conditions"%string /\
                  (90#100) * suggested_price pd - (1#100) <= final_price pd /\
                  final_price pd <=
                    (115#100) * suggested_price pd + (1#100)))
              table roomTypeId roomType startDate n Hfind)
    as (l & n' & E & _ & Hall); [|exists l, n'; auto].
  intros day k pd k' Epd.
  destruct (priceDay_fields rnd _ _ _ _ _ _ _ Epd)
    as (_ & _ & _ & _ & _ & _ & Hnote & _).
  destruct (priceDay_returns rnd roomTypeId roomType day
              ((2#10) + rnd k * (7#10)) (S k))
    as (pd0 & k0 & E0 & _ & _ & Hs & Hf & _).
  rewrite E0 in Epd. inversion Epd; subst pd0 k0.
  destruct Hf as [[Ho Hf]|[Ho Hf]]; rewrite Ho in Hnote.
  - left. auto.
  - right. split; [exact Ho|]. split; [exact Hnote|]. rewrite Hf.
    pose proof (Hrnd k) as [R0 R1]. pose proof (Hrnd (S (S k))) as [A0 A1].
    assert (13#15 <= priceMultiplier ((2#10) + rnd k * (7#10))) as Hm
      by (tiers; lra).
    assert (0 <= suggested_price pd) as Hsp.
    { rewrite Hs. apply Qle_trans with (round_to 100 0); [discriminate|].
      apply round_to_le; [reflexivity|]. apply Qmult_le_0_compat; lra. }
    set (s := suggested_price pd) in *.
    pose proof (round_to_near (s * (1 + (- (1#10) + rnd (S (S k)) * (25#100)))))
      as [N1 N2].
    split; nra.
Qed.

(** For a room type with a room count between 0 and 10^9, the expected
    bookings of every record of the schedule lie between 10% and 95% of the
    rooms, rounded to one decimal, so between 0 and the rooms, whatever the
    draws. *)
Theorem schedule_bookings_within_inventory :
  forall table roomTypeId roomType startDate n,
    find (fun rt => (id rt =? roomTypeId)%Z) table = Some roomType ->
    (0 <= inventory_count roomType <= 1000000000)%Z ->
    exists l n',
      generatePricingData rnd table roomTypeId startDate n = Returned (l, n') /\
      Forall (fun pd =>
                round_to 10 ((1#10) * inject_Z (inventory_count roomType)) <=
                  expected_bookings pd /\
                expected_bookings pd <=
                  round_to 10 ((95#100) * inject_Z (inventory_count roomType)) /\
                0 <= expected_bookings pd <=
                  inject_Z (inventory_count roomType))
        l.
Proof.
  intros table roomTypeId roomType startDate n Hfind [Hinv _].
  destruct (generatePricingData_Forall rnd
              (fun pd =>
                 round_to 10 ((1#10) * inject_Z (inventory_count roomType)) <=
                   expected_bookings pd /\
                 expected_bookings pd <=
                   round_to 10 ((95#100) * inject_Z (inventory_count roomType))
                 /\
                 0 <= expected_bookings pd <=
                   inject_Z (inventory_count roomType))
              table roomTypeId roomType startDate n Hfind)
    as (l & n' & E & _ & Hall); [|exists l, n'; auto].
  intros day k pd k' Epd.
  destruct (priceDay_fields rnd _ _ _ _ _ _ _ Epd)
    as (_ & _ & _ & _ & _ & _ & _ & _ & (occ & [O0 O1] & _ & Hb) & _).
  assert (0 <= inject_Z (inventory_count roomType)) as Hi.
  { change 0 with (inject_Z 0). rewrite <- Zle_Qle. exact Hinv. }
  set (v := inject_Z (inventory_count roomType)) in *.
  assert (round_to 10 ((1#10) * v) <= expected_bookings pd) as L
    by (rewrite Hb; apply round_to_le; [reflexivity|nra]).
  assert (expected_bookings pd <= round_to 10 ((95#100) * v)) as U
    by (rewrite Hb; apply round_to_le; [reflexivity|nra]).
  split; [exact L|]. split; [exact U|]. split.
  - apply Qle_trans with (round_to 10 ((1#10) * v)); [|exact L].
    apply Qle_trans with (round_to 10 0); [discriminate|].
    apply round_to_le; [reflexivity|nra].
  - apply Qle_trans with (round_to 10 ((95#100) * v)); [exact U|].
    apply Qle_trans with (round_to 10 v).
    + apply round_to_le; [reflexivity|nra].
    + unfold round_to, v.
      assert (inject_Z (inventory_count roomType) * 10 ==
              inject_Z (inventory_count roomType * 10)) as ->
        by (rewrite inject_Z_mult; reflexivity).
      rewrite Math_round_Z, inject_Z_mult. apply Qle_lteq. right. field.
Qed.

End ScheduleTheorems.

Section ScheduleDates.
Variable zone : JSTime.TimeZone.
Variable rnd : nat -> Q.

Lemma zoned_pricingStep_inv roomTypeId roomType startDate i acc n acc' n' :
  Zoned.pricingStep zone rnd roomTypeId roomType startDate i acc n =
    Returned (acc', n') ->
  exists pd,
    acc' = acc ++ [pd] /\
    priceDay rnd roomTypeId roomType
      (JSTime.toISODay
         (JSTime.setDate zone startDate (JSTime.getDate zone startDate + i)))
      ((2#10) + rnd n * (7#10)) (S n) = Returned (pd, n').
Proof.
  unfold Zoned.pricingStep, bind, Math_random. cbv zeta.
  destruct (priceDay _ _ _ _ _ _) as [[pd k]|e]; [|discriminate].
  unfold ret. intros R. inversion R; subst. exists pd. auto.
Qed.

(** For a room type of the table, [generatePricingData] returns in any time
    zone one priced day for each of 30 days, dated as the zone has it. *)
Lemma zoned_generatePricingData_Forall (P : PricedDay -> Prop) table
  roomTypeId roomType startDate n :
  find (fun rt => (id rt =? roomTypeId)%Z) table = Some roomType ->
  (forall day k pd k',
     priceDay rnd roomTypeId roomType day ((2#10) + rnd k * (7#10)) (S k) =
       Returned (pd, k') -> P pd) ->
  exists l n',
    Zoned.generatePricingData zone rnd table roomTypeId startDate n =
      Returned (l, n') /\
    map date l =
      map (fun i =>
             JSTime.toISODay
               (JSTime.setDate zone startDate
                  (JSTime.getDate zone startDate + i)))
        (indices 30) /\
    Forall P l.
Proof.
  intros Hfind HP. unfold Zoned.generatePricingData. rewrite Hfind.
  apply (forEach_prefix
           (fun done acc =>
              map date acc =
                map (fun i =>
                       JSTime.toISODay
                         (JSTime.setDate zone startDate
                            (JSTime.getDate zone startDate + i)))
                  done /\
              Forall P acc)
           (Zoned.pricingStep zone rnd roomTypeId roomType startDate))
    with (l := indices 30) (done := @nil Z) (s := @nil PricedDay) (n := n);
    [|split; [reflexivity|constructor]].
  intros done i acc k [Hd Hall].
  unfold Zoned.pricingStep, bind, Math_random. cbv zeta.
  destruct (priceDay_returns rnd roomTypeId roomType
              (JSTime.toISODay
                 (JSTime.setDate zone startDate
                    (JSTime.getDate zone startDate + i)))
              ((2#10) + rnd k * (7#10)) (S k)) as (pd & k' & E & _).
  rewrite E. exists (acc ++ [pd]), k'. split; [reflexivity|]. split.
  - rewrite !map_app, Hd. cbn [map]. f_equal. f_equal.
    exact (proj1 (priceDay_fields rnd _ _ _ _ _ _ _ E)).
  - apply Forall_app. split; [exact Hall|]. constructor; [|constructor].
    eapply HP. exact E.
Qed.

(** In every time zone [generatePricingData] for an identifier that no room
    type of the table has returns an empty list without a draw; otherwise
    it returns 30 records, each carrying the identifier asked for and the
    name, base price and variable cost of the first room type of the table
    with that identifier, and dated as the zone has the 30 days from
    [startDate] on: in UTC, day by day from the day of [startDate]. *)
Theorem schedule_of_known_and_unknown_room_type :
  forall table roomTypeId startDate n,
    exists l n',
      Zoned.generatePricingData zone rnd table roomTypeId startDate n =
        Returned (l, n') /\
      ((forall rt, In rt table -> id rt <> roomTypeId) -> l = [] /\ n' = n) /\
      (forall roomType,
         find (fun rt => (id rt =? roomTypeId)%Z) table = Some roomType ->
         List.length l = 30%nat /\
         map date l =
           map (fun i =>
                  JSTime.toISODay
                    (JSTime.setDate zone startDate
                       (JSTime.getDate zone startDate + i)))
             (indices 30) /\
         (JSTime.is_utc zone ->
          map date l =
            map (fun i => (JSTime.Day startDate + i)%Z) (indices 30)) /\
         Forall (fun pd =>
                   room_type_id pd = roomTypeId /\
                   room_type_name pd = name roomType /\
                   pd_base_price pd = base_price roomType /\
                   pd_variable_cost pd = variable_cost roomType)
           l).
Proof.
  intros table roomTypeId startDate n.
  destruct (find (fun rt => (id rt =? roomTypeId)%Z) table) as [rt|] eqn:F.
  - destruct (zoned_generatePricingData_Forall
                (fun pd =>
                   room_type_id pd = roomTypeId /\
                   room_type_name pd = name rt /\
                   pd_base_price pd = base_price rt /\
                   pd_variable_cost pd = variable_cost rt)
                table roomTypeId rt startDate n F)
      as (l & n' & E & Hd & Hall).
    + intros day k pd k' Epd.
      destruct (priceDay_fields rnd _ _ _ _ _ _ _ Epd)
        as (_ & H1 & H2 & H3 & H4 & _). auto.
    + exists l, n'. split; [exact E|]. split.
      * intros Hnone. apply find_some in F. destruct F as [Hin Hid].
        apply Z.eqb_eq in Hid. exfalso. exact (Hnone rt Hin Hid).
      * intros roomType Hrt. inversion Hrt; subst roomType.
        split; [|split; [exact Hd|split; [|exact Hall]]].
        -- rewrite <- (length_map date), Hd, length_map. reflexivity.
        -- intros Hutc. rewrite Hd. apply map_ext. intros i.
           apply (day_of_range_utc zone Hutc).
  - exists [], n. unfold Zoned.generatePricingData. rewrite F.
    split; [reflexivity|]. split; [auto|]. intros roomType Hrt. discriminate.
Qed.

End ScheduleDates.

Section ScheduleIdentity.
Variable rnd : nat -> Q.

(** The schedule of a room type of the table draws three times per day and
    once more for each override: between 90 and 120 draws in all. *)
Theorem schedule_draws :
  forall table roomTypeId roomType startDate n,
    find (fun rt => (id rt =? roomTypeId)%Z) table = Some roomType ->
    exists l n',
      generatePricingData rnd table roomTypeId startDate n = Returned (l, n') /\
      n' = (n + 90 + List.length (filter is_override l))%nat /\
      (n + 90 <= n' <= n + 120)%nat.
Proof.
  intros table roomTypeId roomType startDate n Hfind.
  destruct (generatePricingData_returns rnd (fun _ => True) table roomTypeId
              roomType startDate n Hfind (fun _ _ _ _ _ _ => I))
    as (l & n' & E & Hd & _).
  exists l, n'. split; [exact E|].
  assert (List.length l = 30%nat) as Hlen
    by (rewrite <- (length_map date), Hd, length_map; reflexivity).
  unfold generatePricingData in E. rewrite Hfind in E.
  pose proof (forEach_draws
                (fun acc : list PricedDay =>
                   (3 * List.length acc + List.length (filter is_override acc))%nat)
                1 (pricingStep rnd roomTypeId roomType startDate)) as D.
  assert (n' + 1 * (3 * 0 + 0) =
          n + 1 * (3 * List.length l + List.length (filter is_override l)))%nat
    as C.
  { apply (D) with (l := indices 30) (s := @nil PricedDay); [|exact E].
    clear. intros i acc k acc' k' R. apply pricingStep_inv in R.
    destruct R as (pd & -> & Epd).
    destruct (priceDay_fields rnd _ _ _ _ _ _ _ Epd)
      as (_ & _ & _ & _ & _ & _ & _ & Hk & _).
    rewrite filter_app, !length_app. cbn [filter List.length].
    destruct (is_override pd); cbn [List.length]; lia. }
  pose proof (filter_length_le is_override l). split; lia.
Qed.

(** [getPricingRecommendations] fails with "No room types found for the
    specified criteria" exactly when no room type of the table is of the
    hotel (and has the identifier asked for, when one is).  Otherwise the
    recommendations are keyed by the identifiers of those room types, once
    each, in the order in which an object enumerates its keys: the array
    indices first, in ascending order, then the others; so the keys are in
    strictly ascending order when every identifier of those room types is
    an array index (an integer from 0 to 2^32 - 2).  The recommendation
    under a key carries that identifier and 30 priced days for it. *)
Theorem recommendations_keyed_by_room_type :
  forall table hotelId startDate numDays roomTypeId n,
    ((forall rt, In rt table ->
        ~ (hotel_id rt = hotelId /\
           forall r, truthy roomTypeId = Some r -> id rt = r)) ->
     getPricingRecommendations rnd table hotelId startDate numDays roomTypeId n
       = Thrown (Error "No room types found for the specified criteria")) /\
    ((exists rt, In rt table /\ hotel_id rt = hotelId /\
                 forall r, truthy roomTypeId = Some r -> id rt = r) ->
     exists r n',
       getPricingRecommendations rnd table hotelId startDate numDays
         roomTypeId n = Returned (r, n') /\
       pr_hotel_id r = hotelId /\ pr_start_date r = startDate /\
       StronglySorted key_before (map fst (recommendations r)) /\
       ((forall rt, In rt table -> hotel_id rt = hotelId ->
           is_array_index (id rt) = true) ->
        StronglySorted Z.lt (map fst (recommendations r))) /\
       (forall k, In k (map fst (recommendations r)) <->
          exists rt, In rt table /\ hotel_id rt = hotelId /\ id rt = k /\
                     forall r, truthy roomTypeId = Some r -> id rt = r) /\
       Forall (fun p =>
                 rec_room_type_id (snd p) = fst p /\
                 List.length (prices (snd p)) = 30%nat /\
                 Forall (fun pd => room_type_id pd = fst p) (prices (snd p)))
         (recommendations r)).
Proof.
  intros table hotelId startDate numDays roomTypeId n.
  unfold getPricingRecommendations.
  set (hotelRoomTypes := match truthy roomTypeId with
                         | Some r0 => _ | None => _ end).
  assert (forall rt, In rt hotelRoomTypes <->
            In rt table /\ hotel_id rt = hotelId /\
            forall r, truthy roomTypeId = Some r -> id rt = r) as Hsel.
  { intros rt. subst hotelRoomTypes. destruct (truthy roomTypeId) as [r0|].
    - rewrite filter_In, andb_true_iff, !Z.eqb_eq. split.
      + intros (Hin & Hid & Hh). split; [exact Hin|]. split; [exact Hh|].
        intros r Hr. inversion Hr as [Hr']. rewrite <- Hr'. exact Hid.
      + intros (Hin & Hh & Hid). split; [exact Hin|].
        split; [apply Hid; reflexivity|exact Hh].
    - rewrite filter_In, Z.eqb_eq. split.
      + intros (Hin & Hh). split; [exact Hin|]. split; [exact Hh|].
        intros r Hr. discriminate.
      + tauto. }
  split.
  - intros Hnone. destruct hotelRoomTypes as [|rt0 rest]; [reflexivity|].
    exfalso. apply (Hnone rt0); apply (Hsel rt0); left; reflexivity.
  - intros (rt0 & Hrt0). apply Hsel in Hrt0.
    destruct hotelRoomTypes as [|rt1 rest] eqn:Eh; [destruct Hrt0|].
    rewrite <- Eh in *. clear Hrt0.
    assert ((List.length hotelRoomTypes =? 0)%nat = false) as ->
      by (rewrite Eh; reflexivity).
    unfold bind.
    destruct (forEach_prefix_in
                (fun done recs =>
                   StronglySorted key_before (map fst recs) /\
                   (forall k, In k (map fst recs) <-> In k (map id done)) /\
                   Forall (fun p =>
                             rec_room_type_id (snd p) = fst p /\
                             List.length (prices (snd p)) = 30%nat /\
                             Forall (fun pd => room_type_id pd = fst p)
                               (prices (snd p)))
                     recs)
                (recommendationStep rnd table startDate) hotelRoomTypes)
      with (done := @nil RoomType) (s := @nil (Z * Recommendation)) (n := n)
      as (recs & k & E & Hs & Hk & Hall).
    + intros done rt recs k Hin (Hs & Hk & Hall).
      unfold recommendationStep, bind.
      destruct (find_id_in table rt (proj1 (proj1 (Hsel rt) Hin)))
        as [found F].
      destruct (generatePricingData_Forall rnd
                  (fun pd => room_type_id pd = id rt) table (id rt) found
                  startDate k F) as (l & k' & El & Hdates & Hids).
      { intros day a pd a' Epd.
        exact (proj1 (proj2 (priceDay_fields rnd _ _ _ _ _ _ _ Epd))). }
      assert (List.length l = 30%nat) as Hlen
        by (rewrite <- (length_map date), Hdates, length_map; reflexivity).
      rewrite El. eexists. eexists. split; [reflexivity|].
      match goal with
      | |- context [obj_set ?key ?v recs] =>
          destruct (obj_set_keys_sorted key v recs Hs) as [Ks Ki]
      end.
      split; [exact Ks|]. split.
      * intros j. rewrite Ki, Hk, map_app, in_app_iff. cbn. intuition.
      * apply obj_set_Forall; [|exact Hall].
        cbn [fst snd rec_room_type_id prices].
        split; [reflexivity|]. split; [exact Hlen|].
        exact Hids.
    + cbn. split; [constructor|]. split; [tauto|constructor].
    + rewrite E. eexists. eexists. split; [reflexivity|].
      cbn [pr_hotel_id pr_start_date recommendations].
      split; [reflexivity|]. split; [reflexivity|]. split; [exact Hs|].
      split; [|split; [|exact Hall]].
      { intros Hidx. apply key_before_ascending; [exact Hs|].
        apply Forall_forall. intros j Hj. apply Hk in Hj. cbn [app] in Hj.
        apply in_map_iff in Hj. destruct Hj as (rt & <- & Hin).
        apply Hsel in Hin. apply Hidx; tauto. }
      intros j. rewrite Hk, in_map_iff. cbn [app]. split.
      * intros (rt & <- & Hin). apply Hsel in Hin. exists rt.
        destruct Hin as (H1 & H2 & H3). auto.
      * intros (rt & Hin & Hh & <- & Hid). exists rt.
        split; [reflexivity|]. apply Hsel. tauto.
Qed.

End ScheduleIdentity.

(** ** Occupancy analytics *)

Section OccupancyFacts.
Variable rnd : nat -> Q.



End OccupancyFacts.

(** ** The catalogue *)

(** [getHotelById] fails with "Hotel not found" exactly when no hotel of
    the table has the identifier.  Otherwise it returns a hotel with that
    identifier together with the room types of the table that belong to
    it, which for an identifier other than 0 are the room types
    [getRoomTypes] returns for it; for the identifier 0, as for none,
    [getRoomTypes] returns the whole table. *)
Theorem hotel_details_lookup :
  forall hotelTable table hotelId n,
    ((forall h, In h hotelTable -> h_id h <> hotelId) ->
     getHotelById hotelTable table hotelId n =
       Thrown (Error "Hotel not found")) /\
    ((exists h, In h hotelTable /\ h_id h = hotelId) ->
     exists d,
       getHotelById hotelTable table hotelId n = Returned (d, n) /\
       In (hotel d) hotelTable /\ h_id (hotel d) = hotelId /\
       (forall rt, In rt (hotel_room_types d) <->
                   In rt table /\ hotel_id rt = hotelId) /\
       (hotelId <> 0%Z ->
        getRoomTypes table (Some hotelId) n =
          Returned (hotel_room_types d, n))) /\
    getRoomTypes table (Some 0%Z) n = Returned (table, n) /\
    getRoomTypes table None n = Returned (table, n).
Proof.
  intros hotelTable table hotelId n. unfold getHotelById.
  split; [|split; [|split; reflexivity]].
  - intros Hnone.
    destruct (find (fun h => (h_id h =? hotelId)%Z) hotelTable) as [h|] eqn:F;
      [|reflexivity].
    apply find_some in F. destruct F as [Hin Hid]. apply Z.eqb_eq in Hid.
    exfalso. exact (Hnone h Hin Hid).
  - intros (h & Hin & Hid).
    destruct (find (fun h => (h_id h =? hotelId)%Z) hotelTable) as [h'|] eqn:F.
    + apply find_some in F. destruct F as [Hin' Hid']. apply Z.eqb_eq in Hid'.
      eexists. split; [reflexivity|]. cbn [hotel hotel_room_types].
      split; [exact Hin'|]. split; [exact Hid'|]. split.
      * intros rt. rewrite filter_In, Z.eqb_eq. tauto.
      * intros Hnz. unfold getRoomTypes, truthy.
        destruct (hotelId =? 0)%Z eqn:Ez; [|reflexivity].
        apply Z.eqb_eq in Ez. contradiction.
    + pose proof (find_none _ _ F h Hin) as Hf. cbn in Hf.
      rewrite Hid, Z.eqb_refl in Hf. discriminate.
Qed.

(** [getRoomTypeById] fails with "Room type not found" exactly when no room
    type of the table has the identifier; otherwise it returns a room type
    of the table with that identifier, and when the identifiers of the
    table are distinct, looking up the identifier of a room type of the
    table returns that room type. *)
Theorem room_type_lookup :
  forall table roomTypeId n,
    ((forall rt, In rt table -> id rt <> roomTypeId) ->
     getRoomTypeById table roomTypeId n =
       Thrown (Error "Room type not found")) /\
    ((exists rt, In rt table /\ id rt = roomTypeId) ->
     exists found,
       getRoomTypeById table roomTypeId n = Returned (found, n) /\
       In found table /\ id found = roomTypeId) /\
    (NoDup (map id table) ->
     forall rt, In rt table ->
       getRoomTypeById table (id rt) n = Returned (rt, n)).
Proof.
  intros table roomTypeId n. unfold getRoomTypeById. split; [|split].
  - intros Hnone.
    destruct (find (fun rt => (id rt =? roomTypeId)%Z) table) as [rt|] eqn:F;
      [|reflexivity].
    apply find_some in F. destruct F as [Hin Hid]. apply Z.eqb_eq in Hid.
    exfalso. exact (Hnone rt Hin Hid).
  - intros (rt & Hin & Hid).
    destruct (find (fun rt => (id rt =? roomTypeId)%Z) table) as [rt'|] eqn:F.
    + apply find_some in F. destruct F as [Hin' Hid']. apply Z.eqb_eq in Hid'.
      exists rt'. auto.
    + pose proof (find_none _ _ F rt Hin) as Hf. cbn in Hf.
      rewrite Hid, Z.eqb_refl in Hf. discriminate.
  - intros Hnd rt Hin.
    destruct (find_id_in table rt Hin) as [found F]. rewrite F.
    apply find_some in F. destruct F as [Hin' Hid']. apply Z.eqb_eq in Hid'.
    assert (found = rt) as ->; [|reflexivity].
    clear n roomTypeId. induction table as [|x rest IH]; [destruct Hin|].
    cbn [map] in Hnd. inversion Hnd as [|? ? Hx Hrest]; subst.
    destruct Hin as [->|Hin], Hin' as [->|Hin']; try reflexivity.
    + exfalso. apply Hx. rewrite <- Hid'. apply in_map. exact Hin'.
    + exfalso. apply Hx. rewrite Hid'. apply in_map. exact Hin.
    + apply IH; assumption.
Qed.


(** ** Finite outputs within the limits (C7) *)

Section FiniteOutputs.
Variable rnd : nat -> Q.


End FiniteOutputs.

(** ** The properties at the mock data *)

Lemma half_draws : forall k, 0 <= half k < 1.
Proof. intros k. split; [discriminate|reflexivity]. Qed.


Lemma roomTypes_within_limits rt : In rt roomTypes -> within_limits rt.
Proof.
  intros Hin. cbn in Hin.
  repeat (destruct Hin as [<-|Hin];
          [repeat split; discriminate|]).
  destruct Hin.
Qed.

Lemma roomTypes_distinct : NoDup (map id roomTypes).
Proof.
  cbn. repeat (constructor; [cbn; intuition discriminate|]). constructor.
Qed.

Lemma roomTypes_array_indices rt :
  In rt roomTypes -> is_array_index (id rt) = true.
Proof.
  intros Hin. cbn in Hin.
  repeat (destruct Hin as [<-|Hin]; [reflexivity|]). destruct Hin.
Qed.

Lemma hotel1_has_room_types :
  filter (fun rt => (hotel_id rt =? 1)%Z) roomTypes <> [].
Proof. cbn. discriminate. Qed.

Lemma utc_is_utc : JSTime.is_utc JSTime.UTC.
Proof. intros t. split; reflexivity. Qed.

Lemma analytics_dates_ascending_distinct_witness :
  exists r n',
    Zoned.generateRevenueAnalytics easternTime2025 half roomTypes 1
      (JSTime.midnight monday) 7 "week" 0%nat = Returned (r, n') /\
    StronglySorted Z.lt (map rb_date (analytics r)).
Proof.
  destruct (analytics_dates_ascending_distinct easternTime2025 half roomTypes
              1 (JSTime.midnight monday) 7 "week" 0%nat hotel1_has_room_types)
    as (r & n' & E & S & _).
  exists r, n'. split; [exact E|exact S].
Defined.

Lemma day_grouping_one_entry_per_day_witness :
  exists r n',
    Zoned.generateRevenueAnalytics JSTime.UTC half roomTypes 1
      (JSTime.midnight monday) 7 "day" 0%nat = Returned (r, n') /\
    List.length (analytics r) = 7%nat /\ n' = 42%nat.
Proof.
  destruct (day_grouping_one_entry_per_day JSTime.UTC half utc_is_utc
              roomTypes 1 (JSTime.midnight monday) 7 "day" 0%nat
              hotel1_has_room_types)
    as (r & n' & E & _ & L & _ & N); [discriminate|discriminate|].
  exists r, n'. split; [exact E|]. split; [exact L|exact N].
Defined.

Lemma week_grouping_entries_are_mondays_witness :
  exists r n',
    Zoned.generateRevenueAnalytics JSTime.UTC half roomTypes 1
      (JSTime.midnight monday) 7 "week" 0%nat = Returned (r, n') /\
    Forall (fun b => getDay (rb_date b) = 1%Z) (analytics r).
Proof.
  destruct (week_grouping_entries_are_mondays JSTime.UTC half utc_is_utc
              roomTypes 1 (JSTime.midnight monday) 7 0%nat
              hotel1_has_room_types) as (r & n' & E & M & _).
  exists r, n'. split; [exact E|exact M].
Defined.





Lemma room_type_margin_at_most_one_witness :
  exists r n',
    getContributionMarginAnalytics half roomTypes 1 monday
      (Some (monday + 7)%Z) "day" 0%nat = Returned (r, n') /\
    Forall (fun cb =>
              Forall (fun rc => rc_contribution rc <= revenue (rc_revenue rc))
                (cb_room_types cb))
      (ca_analytics r).
Proof.
  destruct (room_type_margin_at_most_one half roomTypes 1 monday
              (Some (monday + 7)%Z) "day" 0%nat half_draws
              roomTypes_within_limits)
    as (r & n' & E & H).
  exists r, n'. split; [exact E|].
  eapply Forall_impl; [|exact H]. intros cb Hcb.
  eapply Forall_impl; [|exact Hcb]. intros rc Hrc.
  exact (proj1 (proj2 (proj2 Hrc))).
Defined.


Lemma schedule_demand_and_multiplier_range_witness :
  exists l n',
    generatePricingData half roomTypes 1 monday 0%nat = Returned (l, n') /\
    Forall (fun pd => 2#10 <= demand_probability pd <= 9#10) l.
Proof.
  destruct (schedule_demand_and_multiplier_range half roomTypes 1 standardRoom
              monday 0%nat half_draws eq_refl) as (l & n' & E & H);
    [split; discriminate|].
  exists l, n'. split; [exact E|].
  eapply Forall_impl; [|exact H]. intros pd Hpd. exact (proj1 Hpd).
Defined.

Lemma schedule_override_adjustment_witness :
  exists l n',
    generatePricingData (constantDraws (1#20)) roomTypes 1 monday 0%nat =
      Returned (l, n') /\
    Forall (fun pd =>
              is_override pd = false \/
              (90#100) * suggested_price pd - (1#100) <= final_price pd)
      l.
Proof.
  destruct (schedule_override_adjustment (constantDraws (1#20)) roomTypes 1
              standardRoom monday 0%nat) as (l & n' & E & H).
  - intros k. split; [discriminate|reflexivity].
  - reflexivity.
  - split; discriminate.
  - exists l, n'. split; [exact E|].
    eapply Forall_impl; [|exact H].
    intros pd [(Ho & _)|(_ & _ & Hf & _)]; [left; exact Ho|right; exact Hf].
Defined.

Lemma schedule_bookings_within_inventory_witness :
  exists l n',
    generatePricingData half roomTypes 1 monday 0%nat = Returned (l, n') /\
    Forall (fun pd => 0 <= expected_bookings pd <= 40) l.
Proof.
  destruct (schedule_bookings_within_inventory half roomTypes 1 standardRoom
              monday 0%nat eq_refl) as (l & n' & E & H);
    [split; discriminate|].
  exists l, n'. split; [exact E|].
  eapply Forall_impl; [|exact H]. intros pd (_ & _ & Hb). exact Hb.
Defined.

Lemma schedule_of_known_and_unknown_room_type_witness :
  exists l n',
    Zoned.generatePricingData JSTime.UTC half roomTypes 99
      (JSTime.midnight monday) 0%nat = Returned (l, n') /\
    l = [] /\ n' = 0%nat.
Proof.
  destruct (schedule_of_known_and_unknown_room_type JSTime.UTC half roomTypes
              99 (JSTime.midnight monday) 0%nat) as (l & n' & E & Hnone & _).
  exists l, n'. split; [exact E|]. apply Hnone.
  intros rt Hin. cbn in Hin.
  repeat (destruct Hin as [<-|Hin]; [discriminate|]). destruct Hin.
Defined.

Lemma schedule_draws_witness :
  exists l n',
    generatePricingData half roomTypes 1 monday 0%nat = Returned (l, n') /\
    (90 <= n' <= 120)%nat.
Proof.
  destruct (schedule_draws half roomTypes 1 standardRoom monday 0%nat eq_refl)
    as (l & n' & E & _ & B).
  exists l, n'. split; [exact E|exact B].
Defined.

Lemma recommendations_keyed_by_room_type_witness :
  exists r n',
    getPricingRecommendations half roomTypes 1 monday 7 None 0%nat =
      Returned (r, n') /\
    StronglySorted Z.lt (map fst (recommendations r)).
Proof.
  destruct (proj2 (recommendations_keyed_by_room_type half roomTypes 1 monday
                     7 None 0%nat)) as (r & n' & E & _ & _ & _ & S & _).
  - exists standardRoom. split; [left; reflexivity|].
    split; [reflexivity|]. intros r Hr. discriminate.
  - exists r, n'. split; [exact E|]. apply S.
    intros rt Hin _. apply roomTypes_array_indices. exact Hin.
Defined.


Lemma hotel_details_lookup_witness :
  getHotelById hotels roomTypes 9 0%nat = Thrown (Error "Hotel not found") /\
  exists d,
    getHotelById hotels roomTypes 2 0%nat = Returned (d, 0%nat) /\
    h_id (hotel d) = 2%Z /\
    getRoomTypes roomTypes (Some 2%Z) 0%nat =
      Returned (hotel_room_types d, 0%nat).
Proof.
  split.
  - apply (proj1 (hotel_details_lookup hotels roomTypes 9 0%nat)).
    intros h Hin. cbn in Hin.
    repeat (destruct Hin as [<-|Hin]; [discriminate|]). destruct Hin.
  - destruct (proj1 (proj2 (hotel_details_lookup hotels roomTypes 2 0%nat)))
      as (d & E & _ & Hid & _ & Hr).
    + eexists. split; [right; left; reflexivity|reflexivity].
    + exists d. split; [exact E|]. split; [exact Hid|].
      apply Hr. discriminate.
Defined.

Lemma room_type_lookup_witness :
  getRoomTypeById roomTypes 99 0%nat = Thrown (Error "Room type not found") /\
  getRoomTypeById roomTypes (id standardRoom) 0%nat =
    Returned (standardRoom, 0%nat).
Proof.
  split.
  - apply (proj1 (room_type_lookup roomTypes 99 0%nat)).
    intros rt Hin. cbn in Hin.
    repeat (destruct Hin as [<-|Hin]; [discriminate|]). destruct Hin.
  - apply (proj2 (proj2 (room_type_lookup roomTypes 1 0%nat))).
    + exact roomTypes_distinct.
    + left. reflexivity.
Defined.

Lemma revenue_analytics_range_excludes_end_date_witness :
  exists r n',
    Zoned.getRevenueAnalytics JSTime.UTC half roomTypes 1
      (JSTime.midnight monday) (Some (JSTime.midnight (monday + 7)%Z)) "day"
      0%nat = Returned (r, n') /\
    end_date r = Some (monday + 7 - 1)%Z /\
    Forall (fun b => (monday <= rb_date b < monday + 7)%Z) (analytics r).
Proof.
  destruct (revenue_analytics_range_excludes_end_date JSTime.UTC half
              utc_is_utc roomTypes 1 monday (Some (monday + 7)%Z) 0%nat
              hotel1_has_room_types)
    as (r & n' & E & _ & He & _ & Hb).
  exists r, n'. split; [exact E|]. split; [exact He|exact Hb].
Defined.

(** The dates outside UTC, at the mock data.  In a zone behind UTC the
    week from Monday 2025-06-02 is grouped under two Tuesdays; in a zone
    ahead of UTC the months of the 40 days from that Monday are dated the
    last day of the month before; and across the change to daylight time
    the seven days from 2025-03-08 give six entries, and the schedule from
    that day has 2025-03-09 twice. *)
Lemma dates_outside_utc :
  (exists r,
     Zoned.generateRevenueAnalytics easternTime2025 half roomTypes 1
       (JSTime.midnight monday) 7 "week" 0%nat = Returned (r, 12%nat) /\
     map (fun b => toISODate (rb_date b)) (analytics r) =
       [(2025, 5, 27); (2025, 6, 3)]%Z /\
     map (fun b => getDay (rb_date b)) (analytics r) = [2; 2]%Z) /\
  (exists r,
     Zoned.generateRevenueAnalytics centralEuropeanSummer half roomTypes 1
       (JSTime.midnight monday) 40 "month" 0%nat = Returned (r, 12%nat) /\
     map (fun b => toISODate (rb_date b)) (analytics r) =
       [(2025, 5, 31); (2025, 6, 30)]%Z) /\
  (exists r,
     Zoned.getRevenueAnalytics easternTime2025 half roomTypes 1
       (JSTime.midnight saturday) (Some (JSTime.midnight (saturday + 7)%Z))
       "day" 0%nat =
       Returned (r, 36%nat) /\
     option_map toISODate (start_date r) = Some (2025, 3, 8)%Z /\
     option_map toISODate (end_date r) = Some (2025, 3, 13)%Z /\
     map (fun b => toISODate (rb_date b)) (analytics r) =
       [(2025, 3, 8); (2025, 3, 9); (2025, 3, 10); (2025, 3, 11);
        (2025, 3, 12); (2025, 3, 13)]%Z) /\
  (exists l n',
     Zoned.generatePricingData easternTime2025 half roomTypes 1
       (JSTime.midnight saturday) 0%nat = Returned (l, n') /\
     map (fun pd => toISODate (date pd)) (firstn 4 l) =
       [(2025, 3, 8); (2025, 3, 9); (2025, 3, 9); (2025, 3, 10)]%Z).
Proof.
  split; [|split; [|split]].
  - eexists. split; [vm_compute; reflexivity|]. split; reflexivity.
  - eexists. split; [vm_compute; reflexivity|]. reflexivity.
  - eexists. split; [vm_compute; reflexivity|]. repeat split; reflexivity.
  - eexists. eexists. split; [vm_compute; reflexivity|]. reflexivity.
Qed.
